(** * FAUCET Mininet test topologies: a shallow embedding of
    clib/mininet_test_topo.py (classes FaucetSwitchTopo and
    FaucetStringOfDPSwitchTopo, and the TLS arguments of BaseFAUCET) and
    the properties of its prefix codec, port order, switch factory, link
    builders, hardware port remapper, and of the base, chain and ring
    builds. *)

From Stdlib Require Import ZArith Lia String Ascii List DecimalString DecimalZ.
From stdpp Require Import gmap strings list fin_maps sorting.

Local Open Scope Z_scope.

(** ** Python values and exceptions *)

(** The exceptions the modelled methods can raise. *)
Inductive exn : Type :=
  | AssertionError
  | IndexError
  | KeyError
  | ValueError.

(** A call either returns a value or raises. *)
Inductive result (A : Type) : Type :=
  | Ok (a : A)
  | Raise (e : exn).
Arguments Ok {A} a.
Arguments Raise {A} e.

Definition rbind {A B} (r : result A) (f : A -> result B) : result B :=
  match r with
  | Ok a => f a
  | Raise e => Raise e
  end.

Definition is_ok {A} (r : result A) : bool :=
  match r with Ok _ => true | Raise _ => false end.

(** [seq[i]] on a Python sequence: a negative index counts from the end,
    anything outside [-len, len) raises IndexError. *)
Definition py_index {A} (l : list A) (i : Z) : result A :=
  let n := Z.of_nat (length l) in
  let j := if i <? 0 then i + n else i in
  if (0 <=? j) && (j <? n)
  then match l !! Z.to_nat j with
       | Some x => Ok x
       | None => Raise IndexError
       end
  else Raise IndexError.

(** [d[k]] on a dict: KeyError when the key is absent. *)
Definition py_getitem `{Countable K} {V} (d : gmap K V) (k : K) : result V :=
  match d !! k with
  | Some v => Ok v
  | None => Raise KeyError
  end.

(** [d.setdefault(k, v)], used for its effect on the dict only. *)
Definition py_setdefault `{Countable K} {V} (d : gmap K V) (k : K) (v : V)
  : gmap K V :=
  match d !! k with
  | Some _ => d
  | None => <[k := v]> d
  end.

(** [range(a, b)]. *)
Definition py_range (a b : Z) : list Z := seqZ a (b - a).

(** [str(n)] for an int: the canonical decimal numeral. *)
Definition py_str (n : Z) : string :=
  NilZero.string_of_int (Z.to_int n).

(** ** Prefix codec *)

Module string.
Definition ascii_lowercase : string := "abcdefghijklmnopqrstuvwxyz".
Definition ascii_uppercase : string := "ABCDEFGHIJKLMNOPQRSTUVWXYZ".
Definition ascii_letters : string := ascii_lowercase ++ ascii_uppercase.
Definition digits : string := "0123456789".
End string.

Definition ascii_le (a b : ascii) : Prop :=
  (nat_of_ascii a <= nat_of_ascii b)%nat.

#[global] Instance ascii_le_dec a b : Decision (ascii_le a b).
Proof. unfold ascii_le. apply _. Defined.

(** [sorted(s)] on a string: its characters in code point order. *)
Definition sorted_chars (s : string) : list ascii :=
  merge_sort ascii_le (list_ascii_of_string s).

(** [id_chars], as a list of characters. *)
Definition id_chars : list ascii :=
  sorted_chars (string.ascii_letters ++ string.digits).

(** [_get_sid_prefix(ports_served)].  [int(a / b)] truncates the quotient
    toward zero; the float division is exact enough for that on every
    serial number the tests can see, so it is [Z.quot]. *)
Definition _get_sid_prefix (ports_served : Z) : result string :=
  let len := Z.of_nat (length id_chars) in
  let id_a := Z.quot ports_served len in
  let id_b := ports_served - id_a * len in
  rbind (py_index id_chars id_a) (fun ca =>
  rbind (py_index id_chars id_b) (fun cb =>
  Ok (String ca (String cb EmptyString)))).

(** ** Port order *)

(** [extend_port_order(port_order=None, max_length=16)].  The argument is
    [None] when absent; [not port_order] holds for [None] and for the empty
    list alike. *)
Definition extend_port_order (port_order : option (list Z)) (max_length : Z)
  : list Z :=
  let port_order :=
    match port_order with
    | Some (p :: l) => p :: l
    | _ => []
    end in
  port_order ++ py_range (Z.of_nat (length port_order)) (max_length + 1).

(** ** The topology object *)

(** [peer_link = namedtuple('peer_link', 'port peer_dpid peer_port')]. *)
Record peer_link : Type := mk_peer_link {
  port : Z;
  peer_dpid : string;
  peer_port : Z;
}.

(** The two switch classes of the module. *)
Inductive switch_cls : Type :=
  | FaucetSwitch
  | NoControllerFaucetSwitch.

(** The controllers a switch of class [cls] creates controller entries for
    when Mininet starts it with [controllers]:
    [NoControllerFaucetSwitch.start] discards its argument and calls
    [FaucetSwitch.start(controllers=[])]. *)
Definition start_controllers {C} (cls : switch_cls) (controllers : list C)
  : list C :=
  match cls with
  | FaucetSwitch => controllers
  | NoControllerFaucetSwitch => []
  end.

(** What Mininet's [Topo] records for [addHost], [addSwitch] and [addLink]
    (the constant cpu share, link delay and shaping flag are left out). *)
Inductive node : Type :=
  | HostNode (name : string) (vlan : option Z) (inNamespace : bool)
  | SwitchNode (name : string) (cls : switch_cls) (datapath : string)
      (dpid : string).

Record link : Type := mk_link {
  node1 : string;
  node2 : string;
  port1 : Z;
  port2 : option Z;
}.

(** The attributes of a [FaucetStringOfDPSwitchTopo] instance. *)
Record topo : Type := mk_topo {
  dpid_names : gmap string string;
  switch_dpids : gmap string string;
  switch_ports : gmap string (list Z);
  hw_dpid : option string;
  hw_ports : list Z;
  start_port : Z;
  port_order : list Z;
  switch_to_switch_links : Z;
  switch_peer_links : gmap string (list peer_link);
  nodes : list node;
  links : list link;
}.

Definition set_dpid_names (f : gmap string string -> gmap string string)
  (t : topo) : topo :=
  mk_topo (f (dpid_names t)) (switch_dpids t) (switch_ports t) (hw_dpid t)
    (hw_ports t) (start_port t) (port_order t) (switch_to_switch_links t)
    (switch_peer_links t) (nodes t) (links t).

Definition set_switch_dpids (f : gmap string string -> gmap string string)
  (t : topo) : topo :=
  mk_topo (dpid_names t) (f (switch_dpids t)) (switch_ports t) (hw_dpid t)
    (hw_ports t) (start_port t) (port_order t) (switch_to_switch_links t)
    (switch_peer_links t) (nodes t) (links t).

Definition set_switch_ports
  (f : gmap string (list Z) -> gmap string (list Z)) (t : topo) : topo :=
  mk_topo (dpid_names t) (switch_dpids t) (f (switch_ports t)) (hw_dpid t)
    (hw_ports t) (start_port t) (port_order t) (switch_to_switch_links t)
    (switch_peer_links t) (nodes t) (links t).

Definition set_switch_peer_links
  (f : gmap string (list peer_link) -> gmap string (list peer_link))
  (t : topo) : topo :=
  mk_topo (dpid_names t) (switch_dpids t) (switch_ports t) (hw_dpid t)
    (hw_ports t) (start_port t) (port_order t) (switch_to_switch_links t)
    (f (switch_peer_links t)) (nodes t) (links t).

Definition add_node (n : node) (t : topo) : topo :=
  mk_topo (dpid_names t) (switch_dpids t) (switch_ports t) (hw_dpid t)
    (hw_ports t) (start_port t) (port_order t) (switch_to_switch_links t)
    (switch_peer_links t) (nodes t ++ [n]) (links t).

Definition add_link (l : link) (t : topo) : topo :=
  mk_topo (dpid_names t) (switch_dpids t) (switch_ports t) (hw_dpid t)
    (hw_ports t) (start_port t) (port_order t) (switch_to_switch_links t)
    (switch_peer_links t) (nodes t) (links t ++ [l]).

(** ** Methods as state transformers that may raise *)

Definition M (A : Type) : Type := topo -> result (A * topo).

Definition ret {A} (a : A) : M A := fun t => Ok (a, t).

Definition bind {A B} (m : M A) (f : A -> M B) : M B :=
  fun t =>
    match m t with
    | Ok (a, t') => f a t'
    | Raise e => Raise e
    end.

Definition lift {A} (r : result A) : M A :=
  fun t =>
    match r with
    | Ok a => Ok (a, t)
    | Raise e => Raise e
    end.

Definition get : M topo := fun t => Ok (t, t).

Definition modify (f : topo -> topo) : M unit := fun t => Ok (tt, f t).

Notation "'let*' x ':=' m 'in' k" := (bind m (fun x => k))
  (at level 10, x name, m at level 100, k at level 200).

Notation "'let*' ' p ':=' m 'in' k" :=
  (bind m (fun x => match x with p => k end))
  (at level 10, p pattern, m at level 100, k at level 200).

Notation "m ';;' k" := (bind m (fun _ => k))
  (at level 100, k at level 200, right associativity).

(** [for x in l: s = body(x, s)], threading the loop-carried value [s]. *)
Fixpoint for_each {A S} (l : list A) (body : A -> S -> M S) (s : S) : M S :=
  match l with
  | [] => ret s
  | x :: l' => let* s' := body x s in for_each l' body s'
  end.

(** [for _ in range(n)]: the body runs [n] times, not at all for [n <= 0]. *)
Fixpoint repeat_n {S} (n : nat) (body : S -> M S) (s : S) : M S :=
  match n with
  | O => ret s
  | Datatypes.S n' => let* s' := body s in repeat_n n' body s'
  end.

Definition for_range {S} (n : Z) (body : S -> M S) (s : S) : M S :=
  repeat_n (Z.to_nat n) body s.

(** [d[k].append(x)] on a dict of lists. *)
Definition py_append_at {V} (d : gmap string (list V)) (k : string) (x : V)
  : result (gmap string (list V)) :=
  rbind (py_getitem d k) (fun l => Ok (<[k := l ++ [x]]> d)).

(** ** Entity factory *)

(** [_add_tagged_host(sid_prefix, tagged_vid, host_n)]; [addHost] returns
    the host name. *)
Definition _add_tagged_host (sid_prefix : string) (tagged_vid host_n : Z)
  : M string :=
  let host_name := ("t" ++ sid_prefix ++ py_str (host_n + 1))%string in
  modify (add_node (HostNode host_name (Some tagged_vid) true)) ;;
  ret host_name.

(** [_add_untagged_host(sid_prefix, host_n, inNamespace=True)]. *)
Definition _add_untagged_host (sid_prefix : string) (host_n : Z)
  (inNamespace : bool) : M string :=
  let host_name := ("u" ++ sid_prefix ++ py_str (host_n + 1))%string in
  modify (add_node (HostNode host_name None inNamespace)) ;;
  ret host_name.

(** Truth value of an optional dpid string: [None] and [''] are false. *)
Definition truthy (d : option string) : bool :=
  match d with
  | Some s => negb (String.eqb s "")
  | None => false
  end.

Section Factory.

(** [int(s)] on a string and [mininet_test_util.mininet_dpid], which this
    module imports; both may raise. *)
Variable py_int : string -> result Z.
Variable mininet_dpid : string -> result string.

(** [_add_faucet_switch(sid_prefix, dpid, hw_dpid, ovs_type)]; the log
    line is not modelled, [addSwitch] returns the switch name. *)
Definition _add_faucet_switch (sid_prefix dpid : string)
  (hw_dpid : option string) (ovs_type : string) : M string :=
  let switch_cls := FaucetSwitch in
  let switch_name := ("s" ++ sid_prefix)%string in
  modify (set_switch_dpids <[switch_name := dpid]>) ;;
  modify (set_dpid_names <[dpid := switch_name]>) ;;
  let* '(dpid, switch_cls) :=
    if truthy hw_dpid && bool_decide (hw_dpid = Some dpid)
    then
      let* n := lift (py_int dpid) in
      let remap_dpid := py_str (n + 1) in
      ret (remap_dpid, NoControllerFaucetSwitch)
    else ret (dpid, switch_cls) in
  let* mdpid := lift (mininet_dpid dpid) in
  modify (add_node (SwitchNode switch_name switch_cls ovs_type mdpid)) ;;
  ret switch_name.

End Factory.

(** ** Hardware port remapper *)

(** [hw_remap_port(dpid, port)]. *)
Definition hw_remap_port (self : topo) (dpid : string) (port : Z)
  : result Z :=
  if bool_decide (Some dpid <> hw_dpid self) then Ok port
  else if bool_decide (hw_ports self = []) then Raise AssertionError
  else py_index (hw_ports self) (port - start_port self).

(** [hw_remap_peer_link(dpid, link)]. *)
Definition hw_remap_peer_link (self : topo) (dpid : string) (link : peer_link)
  : result peer_link :=
  rbind (hw_remap_port self dpid (port link)) (fun port =>
  rbind (hw_remap_port self (peer_dpid link) (peer_port link))
    (fun peer_port =>
  Ok (mk_peer_link port (peer_dpid link) peer_port))).

(** A list comprehension whose element expression may raise. *)
Fixpoint map_result {A B} (f : A -> result B) (l : list A)
  : result (list B) :=
  match l with
  | [] => Ok []
  | x :: l' =>
      rbind (f x) (fun y => rbind (map_result f l') (fun ys => Ok (y :: ys)))
  end.

(** [dpid_ports(dpid)]. *)
Definition dpid_ports (self : topo) (dpid : string) : result (list Z) :=
  rbind (py_getitem (dpid_names self) dpid) (fun name =>
  rbind (py_getitem (switch_ports self) name) (fun ports =>
  map_result (hw_remap_port self dpid) ports)).

(** [dpid_peer_links(dpid)]. *)
Definition dpid_peer_links (self : topo) (dpid : string)
  : result (list peer_link) :=
  rbind (py_getitem (dpid_names self) dpid) (fun name =>
  rbind (py_getitem (switch_peer_links self) name) (fun links =>
  map_result (hw_remap_peer_link self dpid) links)).

(** ** Link builder *)

(** [self.switch_ports[switch].append(port)]. *)
Definition append_port (switch : string) (port : Z) : M unit :=
  fun self =>
    match py_append_at (switch_ports self) switch port with
    | Ok d => Ok (tt, set_switch_ports (fun _ => d) self)
    | Raise e => Raise e
    end.

(** [self.switch_peer_links[switch].append(link)]. *)
Definition append_peer_link (switch : string) (link : peer_link) : M unit :=
  fun self =>
    match py_append_at (switch_peer_links self) switch link with
    | Ok d => Ok (tt, set_switch_peer_links (fun _ => d) self)
    | Raise e => Raise e
    end.

(** [self.start_port + self.port_order[index]]. *)
Definition order_port (index : Z) : M Z :=
  let* self := get in
  let* offset := lift (py_index (port_order self) index) in
  ret (start_port self + offset).

(** [_add_links(switch, hosts, links_per_host)]; the loops carry [index]. *)
Definition _add_links (switch : string) (hosts : list string)
  (links_per_host : Z) : M Z :=
  modify (set_switch_ports (fun d => py_setdefault d switch [])) ;;
  let index := 0 in
  for_each hosts (fun host index =>
    for_range links_per_host (fun index =>
      let* port := order_port index in
      modify (add_link (mk_link switch host port None)) ;;
      modify (set_switch_ports (fun d => py_setdefault d switch [])) ;;
      append_port switch port ;;
      ret (index + 1)) index) index.

(** ** Chain and ring builder *)

(** [next_index[k] += 1]. *)
Definition py_incr (d : gmap string Z) (k : string)
  : result (gmap string Z) :=
  rbind (py_getitem d k) (fun v => Ok (<[k := v + 1]> d)).

(** The local function [addLinks(src, dst, next_index)] of [build]; the
    dict [next_index] it updates in place is passed in and returned. *)
Definition addLinks (src dst : string) (next_index : gmap string Z)
  : M (gmap string Z) :=
  modify (set_switch_peer_links (fun d => py_setdefault d src [])) ;;
  modify (set_switch_peer_links (fun d => py_setdefault d dst [])) ;;
  let* self := get in
  let* dpid1 := lift (py_getitem (switch_dpids self) src) in
  let* dpid2 := lift (py_getitem (switch_dpids self) dst) in
  for_range (switch_to_switch_links self) (fun next_index =>
    let* index1 := lift (py_getitem next_index src) in
    let* index2 := lift (py_getitem next_index dst) in
    let* port1 := order_port index1 in
    let* port2 := order_port index2 in
    modify (add_link (mk_link src dst port1 (Some port2))) ;;
    append_port src port1 ;;
    append_port dst port2 ;;
    append_peer_link src (mk_peer_link port1 dpid2 port2) ;;
    append_peer_link dst (mk_peer_link port2 dpid1 port1) ;;
    let* next_index := lift (py_incr next_index src) in
    let* next_index := lift (py_incr next_index dst) in
    ret next_index) next_index.

(** A list comprehension whose element expression is a method call. *)
Fixpoint map_M {A B} (f : A -> M B) (l : list A) : M (list B) :=
  match l with
  | [] => ret []
  | x :: l' =>
      let* y := f x in
      let* ys := map_M f l' in
      ret (y :: ys)
  end.

(** The local variables of [build] that its main loop updates, and the
    number of calls made to [get_serialno] so far. *)
Record loop_state : Type := mk_loop_state {
  first_switch : option string;
  last_switch : option string;
  next_index : gmap string Z;
  serial_calls : nat;
}.

(** [sorted(switch_map) if switch_map else []]: the sorted keys. *)
Definition sorted_keys (switch_map : option (gmap Z string)) : list Z :=
  match switch_map with
  | Some m => merge_sort Z.le (map fst (map_to_list m))
  | None => []
  end.

Section StringOfDP.

Variable py_int : string -> result Z.
Variable mininet_dpid : string -> result string.

(** The arguments of [FaucetStringOfDPSwitchTopo.build].  [ports_sock]
    and [test_name] are only handed to [get_serialno], which is given
    here as the sequence of its answers: [get_serialno k] is what the
    call number [k] (from 0) returns. *)
Variable ovs_type : string.
Variables n_tagged tagged_vid n_untagged : Z.
Variables links_per_host switch_to_switch_links_arg : Z.
Variable hw_dpid_arg : option string.
Variable switch_map : option (gmap Z string).
Variable stack_ring : bool.
Variable start_port_arg : Z.
Variable port_order_arg : option (list Z).
Variable get_serialno : nat -> Z.

(** The body of [for dpid in dpids]. *)
Definition build_switch (dpid : string) (ls : loop_state) : M loop_state :=
  let serialno := get_serialno (serial_calls ls) in
  let* sid_prefix := lift (_get_sid_prefix serialno) in
  let* tagged :=
    map_M (fun host_n => _add_tagged_host sid_prefix tagged_vid host_n)
      (py_range 0 n_tagged) in
  let* untagged :=
    map_M (fun host_n => _add_untagged_host sid_prefix host_n true)
      (py_range 0 n_untagged) in
  let* switch :=
    _add_faucet_switch py_int mininet_dpid sid_prefix dpid hw_dpid_arg
      ovs_type in
  let* index := _add_links switch (tagged ++ untagged) links_per_host in
  let next_index := <[switch := index]> (next_index ls) in
  match first_switch ls with
  | None =>
      ret (mk_loop_state (Some switch) (Some switch) next_index
             (S (serial_calls ls)))
  | Some first =>
      let* next_index :=
        match last_switch ls with
        | Some last => addLinks last switch next_index
        | None => lift (Raise KeyError)
        end in
      ret (mk_loop_state (Some first) (Some switch) next_index
             (S (serial_calls ls)))
  end.

(** The statements of [build] after the attributes are set. *)
Definition build_loop (dpids : list string) : M loop_state :=
  let* ls := for_each dpids build_switch (mk_loop_state None None ∅ O) in
  if stack_ring
  then
    match first_switch ls, last_switch ls with
    | Some first, Some last =>
        let* next_index := addLinks first last (next_index ls) in
        ret (mk_loop_state (Some first) (Some last) next_index
               (serial_calls ls))
    | _, _ => lift (Raise KeyError)
    end
  else ret ls.

(** The object as [build] finds it ([__init__] made the three dicts)
    once it has set its attributes. *)
Definition build_init : topo :=
  let max_ports :=
    (n_tagged + n_untagged) * links_per_host
    + 2 * switch_to_switch_links_arg in
  mk_topo ∅ ∅ ∅ hw_dpid_arg (sorted_keys switch_map) start_port_arg
    (extend_port_order port_order_arg max_ports)
    switch_to_switch_links_arg ∅ [] [].

(** [FaucetStringOfDPSwitchTopo.build]: the topology it leaves behind. *)
Definition build (dpids : list string) : result topo :=
  match build_loop dpids build_init with
  | Ok (_, self) => Ok self
  | Raise e => Raise e
  end.

End StringOfDP.

(** ** Instances used to run the model *)

(** [int(s)] on the strings that are plain decimal numerals, which is how
    the tests write dpids; ValueError on the empty string and on
    anything that is not a numeral. *)
Definition int_of_decimal (s : string) : result Z :=
  match NilZero.int_of_string s with
  | Some i => Ok (Z.of_int i)
  | None => Raise ValueError
  end.

(** A stand-in for [mininet_dpid] that accepts every dpid and leaves it as
    it is. *)
Definition plain_dpid (d : string) : result string := Ok d.

(** A serial allocator that answers 0, 1, 2, ... *)
Definition count_serialno (k : nat) : Z := Z.of_nat k.

(** A topology object with only its hardware remap context filled in. *)
Definition remap_context (hw_dpid : option string) (hw_ports : list Z)
  (start_port : Z) : topo :=
  mk_topo ∅ ∅ ∅ hw_dpid hw_ports start_port [] 1 ∅ [] [].

(** ** Vocabulary of the build properties *)

(** The name the build loop gives the switch it makes from a serial
    number. *)
Definition switch_name (serialno : Z) : string :=
  match _get_sid_prefix serialno with
  | Ok sid_prefix => ("s" ++ sid_prefix)%string
  | Raise _ => ""%string
  end.

(** What the serial allocator is there for: its first [n] answers are in
    the range of the prefix codec and pairwise distinct. *)
Definition serials_ok (get_serialno : nat -> Z) (n : nat) : Prop :=
  (forall k, (k < n)%nat -> 0 <= get_serialno k < 3844) /\
  (forall j k, (j < n)%nat -> (k < n)%nat ->
     get_serialno j = get_serialno k -> j = k).

(** The record the other end of [l] must hold when [l] is stored under
    the switch with dpid [d]. *)
Definition mirror (d : string) (l : peer_link) : peer_link :=
  mk_peer_link (peer_port l) d (port l).

(** The mirror invariant on the three dicts it speaks about. *)
Definition mirror_tables (names dpids : gmap string string)
  (peers : gmap string (list peer_link)) : Prop :=
  forall A d l r,
    dpids !! A = Some d -> peers !! A = Some l -> r ∈ l ->
    exists B l',
      names !! peer_dpid r = Some B /\ peers !! B = Some l' /\
      mirror d r ∈ l'.

Definition mirror_invariant (self : topo) : Prop :=
  mirror_tables (dpid_names self) (switch_dpids self)
    (switch_peer_links self).

(** [dpid_names] and [switch_dpids] are inverse to each other. *)
Definition inverse_tables (names dpids : gmap string string) : Prop :=
  forall n d, dpids !! n = Some d <-> names !! d = Some n.

(** Only registered switches have a peer-link list. *)
Definition peers_registered (dpids : gmap string string)
  (peers : gmap string (list peer_link)) : Prop :=
  forall n, is_Some (peers !! n) -> is_Some (dpids !! n).

(** Partial correctness of a method: from a state in [P], a call that
    returns leaves a value and a state in [Q]. *)
Definition hoare {A} (P : topo -> Prop) (m : M A) (Q : A -> topo -> Prop)
  : Prop :=
  forall st a st', P st -> m st = Ok (a, st') -> Q a st'.

(** [start_port + port_order[i]] when [i] is within the port order. *)
Definition port_at (self : topo) (i : nat) : Z :=
  start_port self + default 0 (port_order self !! i).

(** The ports of the indices [i, i+n). *)
Definition ports_range (self : topo) (i n : nat) : list Z :=
  map (port_at self) (seq i n).

(** The number of neighbours of the switch at position [j] in a chain of
    [n] switches. *)
Definition chain_degree (n j : nat) : nat :=
  ((if (0 <? j)%nat then 1 else 0) + (if (j + 1 <? n)%nat then 1 else 0))%nat.

(** A call left everything but [switch_ports] and the link log alone. *)
Definition unchanged_but_ports (st0 st : topo) : Prop :=
  dpid_names st = dpid_names st0 /\
  switch_dpids st = switch_dpids st0 /\
  switch_peer_links st = switch_peer_links st0 /\
  nodes st = nodes st0 /\
  hw_dpid st = hw_dpid st0 /\
  hw_ports st = hw_ports st0 /\
  start_port st = start_port st0 /\
  port_order st = port_order st0 /\
  switch_to_switch_links st = switch_to_switch_links st0.

(** A call left the two name dicts, the node log and the remap context
    alone. *)
Definition unchanged_names (st0 st : topo) : Prop :=
  dpid_names st = dpid_names st0 /\
  switch_dpids st = switch_dpids st0 /\
  nodes st = nodes st0 /\
  hw_dpid st = hw_dpid st0 /\
  hw_ports st = hw_ports st0 /\
  start_port st = start_port st0 /\
  port_order st = port_order st0 /\
  switch_to_switch_links st = switch_to_switch_links st0.

(** [nodes] grown by several entries at once. *)
Definition append_nodes (new : list node) (t : topo) : topo :=
  mk_topo (dpid_names t) (switch_dpids t) (switch_ports t) (hw_dpid t)
    (hw_ports t) (start_port t) (port_order t) (switch_to_switch_links t)
    (switch_peer_links t) (nodes t ++ new) (links t).

(** The host names and nodes the two host comprehensions of [build]
    make. *)
Definition host_name (role sid_prefix : string) (host_n : Z) : string :=
  (role ++ sid_prefix ++ py_str (host_n + 1))%string.

Definition tagged_node (sid_prefix : string) (tagged_vid host_n : Z) : node :=
  HostNode (host_name "t" sid_prefix host_n) (Some tagged_vid) true.

Definition untagged_node (sid_prefix : string) (host_n : Z) : node :=
  HostNode (host_name "u" sid_prefix host_n) None true.

(** What the main loop of [build] maintains on the name dicts and the
    peer-link dict once it has made the switches of the dpids [done]. *)
Definition chain_tables_ok (get_serialno : nat -> Z) (done : list string)
  (ls : loop_state) (st : topo) : Prop :=
  serial_calls ls = length done /\
  inverse_tables (dpid_names st) (switch_dpids st) /\
  mirror_invariant st /\
  peers_registered (switch_dpids st) (switch_peer_links st) /\
  (forall n, is_Some (switch_dpids st !! n) ->
     exists j, (j < length done)%nat /\ n = switch_name (get_serialno j)) /\
  (forall d, is_Some (dpid_names st !! d) -> d ∈ done).

(** The class and datapath id [_add_faucet_switch] hands to [addSwitch],
    or the exception [int] or [mininet_dpid] raises on the way. *)
Definition switch_datapath (py_int : string -> result Z)
  (mininet_dpid : string -> result string) (hw : option string)
  (dpid : string) : result (switch_cls * string) :=
  if truthy hw && bool_decide (hw = Some dpid)
  then rbind (py_int dpid) (fun n =>
       rbind (mininet_dpid (py_str (n + 1))) (fun md =>
       Ok (NoControllerFaucetSwitch, md)))
  else rbind (mininet_dpid dpid) (fun md => Ok (FaucetSwitch, md)).

(** The peer links one [addLinks] call appends under the switch whose next
    free index is [a], towards the switch with dpid [d] and next free index
    [b], for [k] parallel links. *)
Definition link_group (self : topo) (a b : nat) (d : string) (k : nat)
  : list peer_link :=
  map (fun i => mk_peer_link (port_at self (a + i)) d (port_at self (b + i)))
    (seq 0 k).

(** What [addLinks(src, dst, next_index)] does to the three dicts it
    updates, when the next free indices of [src] and [dst] are [a] and
    [b] and it makes [k] links. *)
Definition linked (src dst d1 d2 : string) (a b k : nat)
  (ni : gmap string Z) (st : topo) (ni' : gmap string Z) (st' : topo)
  : Prop :=
  unchanged_names st st' /\
  ni' !! src = Some (Z.of_nat (a + k)) /\
  ni' !! dst = Some (Z.of_nat (b + k)) /\
  (forall n, n <> src -> n <> dst -> ni' !! n = ni !! n) /\
  switch_ports st' !! src
    = Some (default [] (switch_ports st !! src) ++ ports_range st a k) /\
  switch_ports st' !! dst
    = Some (default [] (switch_ports st !! dst) ++ ports_range st b k) /\
  (forall n, n <> src -> n <> dst ->
     switch_ports st' !! n = switch_ports st !! n) /\
  switch_peer_links st' !! src
    = Some (default [] (switch_peer_links st !! src)
            ++ link_group st a b d2 k) /\
  switch_peer_links st' !! dst
    = Some (default [] (switch_peer_links st !! dst)
            ++ link_group st b a d1 k) /\
  (forall n, n <> src -> n <> dst ->
     switch_peer_links st' !! n = switch_peer_links st !! n).

(** A call left the remap context, the port order and the link count
    alone. *)
Definition same_context (st0 st : topo) : Prop :=
  hw_dpid st = hw_dpid st0 /\
  hw_ports st = hw_ports st0 /\
  start_port st = start_port st0 /\
  port_order st = port_order st0 /\
  switch_to_switch_links st = switch_to_switch_links st0.

(** The peer links of the switch at position [j] once the main loop of
    [build] has made [i] switches from the dpids [ds]: the links to the
    switch before it, then the links to the switch after it.  Each
    switch has [h] host ports, each pair of neighbours [k] links. *)
Definition chain_peers (st0 : topo) (ds : list string) (h k i j : nat)
  : list peer_link :=
  (if (0 <? j)%nat
   then link_group st0 h (h + k * (if (0 <? j - 1)%nat then 1 else 0))
          (default ""%string (ds !! (j - 1)%nat)) k
   else [])
  ++ (if (j + 1 <? i)%nat
      then link_group st0 (h + k * (if (0 <? j)%nat then 1 else 0)) h
             (default ""%string (ds !! (j + 1)%nat)) k
      else []).

(** The state of the main loop of [build] after [i] switches. *)
Definition chain_shape (get_serialno : nat -> Z) (ds : list string)
  (st0 : topo) (h k i : nat) (ls : loop_state) (st : topo) : Prop :=
  let nm := fun j => switch_name (get_serialno j) in
  serial_calls ls = i /\
  first_switch ls = (if i is O then None else Some (nm O)) /\
  last_switch ls = (if i is O then None else Some (nm (i - 1)%nat)) /\
  same_context st0 st /\
  (forall j, (j < i)%nat ->
     switch_ports st !! nm j
       = Some (ports_range st0 0 (h + k * chain_degree i j)) /\
     next_index ls !! nm j = Some (Z.of_nat (h + k * chain_degree i j)) /\
     switch_dpids st !! nm j = ds !! j /\
     switch_peer_links st !! nm j
       = (if (1 <? i)%nat then Some (chain_peers st0 ds h k i j) else None)) /\
  (forall n, (forall j, (j < i)%nat -> n <> nm j) ->
     switch_ports st !! n = None /\ switch_peer_links st !! n = None).

(** ** The base topology: one switch per dpid, no switch-to-switch links *)

(** A host of a test's own class: [addHost(name=host_name, cls=e_cls,
    host_n=host_n, tmpdir=tmpdir)]. *)
Record extended_host : Type := mk_extended_host {
  e_name : string;
  e_cls : option string;
  e_host_n : Z;
  e_tmpdir : option string;
}.

(** [_add_extended_host(sid_prefix, host_n, e_cls, tmpdir)]: the host
    name [addHost] returns, beside the host it adds; [build] keeps these
    hosts in a log of their own. *)
Definition _add_extended_host (sid_prefix : string) (host_n : Z)
  (e_cls tmpdir : option string) : string * extended_host :=
  let host_name := ("e" ++ sid_prefix ++ py_str (host_n + 1))%string in
  (host_name, mk_extended_host host_name e_cls host_n tmpdir).

(** [host_namespace.get(host_n, True)], after
    [if not host_namespace: host_namespace = {}]. *)
Definition namespace_of (host_namespace : option (gmap Z bool)) (host_n : Z)
  : bool :=
  match host_namespace with
  | Some m => default true (m !! host_n)
  | None => true
  end.

Section BaseBuild.

Variable py_int : string -> result Z.
Variable mininet_dpid : string -> result string.
Variable ovs_type : string.
Variables n_tagged tagged_vid n_untagged links_per_host n_extended : Z.
Variables e_cls_arg tmpdir_arg : option string.
Variable hw_dpid_arg : option string.
Variable switch_map : option (gmap Z string).
Variable host_namespace : option (gmap Z bool).
Variable start_port_arg : Z.
Variable port_order_arg : option (list Z).
Variable get_serialno : nat -> Z.

(** The body of [for dpid in dpids] of [FaucetSwitchTopo.build]; the
    loop carries the number of calls made to [get_serialno] and the log
    of extended hosts. *)
Definition base_build_switch (dpid : string)
  (ls : nat * list extended_host) : M (nat * list extended_host) :=
  let serialno := get_serialno (fst ls) in
  let* sid_prefix := lift (_get_sid_prefix serialno) in
  let* tagged :=
    map_M (fun host_n => _add_tagged_host sid_prefix tagged_vid host_n)
      (py_range 0 n_tagged) in
  let* untagged :=
    map_M (fun host_n =>
             _add_untagged_host sid_prefix host_n
               (namespace_of host_namespace host_n))
      (py_range 0 n_untagged) in
  let extended :=
    map (fun host_n =>
           _add_extended_host sid_prefix host_n e_cls_arg tmpdir_arg)
      (py_range 0 n_extended) in
  let* switch :=
    _add_faucet_switch py_int mininet_dpid sid_prefix dpid hw_dpid_arg
      ovs_type in
  let* _ :=
    _add_links switch (tagged ++ untagged ++ map fst extended)
      links_per_host in
  ret (S (fst ls), snd ls ++ map snd extended).

(** The object as [FaucetSwitchTopo.build] finds it once it has set its
    attributes.  The base class has no peer-link table and no
    switch-to-switch link count; the two fields are not read here. *)
Definition base_build_init : topo :=
  let maxlength := n_tagged + n_untagged + n_extended in
  mk_topo ∅ ∅ ∅ hw_dpid_arg (sorted_keys switch_map) start_port_arg
    (extend_port_order port_order_arg maxlength) 1 ∅ [] [].

(** [FaucetSwitchTopo.build]: the topology and the extended hosts it
    leaves behind. *)
Definition base_build (dpids : list string)
  : result (topo * list extended_host) :=
  match for_each dpids base_build_switch (O, []) base_build_init with
  | Ok ((_, log), self) => Ok (self, log)
  | Raise e => Raise e
  end.

End BaseBuild.

(** The untagged host [_add_untagged_host] makes for a given namespace
    flag. *)
Definition untagged_node_in (sid_prefix : string)
  (host_namespace : option (gmap Z bool)) (host_n : Z) : node :=
  HostNode (host_name "u" sid_prefix host_n) None
    (namespace_of host_namespace host_n).

(** The state of the loop of the base build after [i] switches, each
    with [h] host ports. *)
Definition base_shape (get_serialno : nat -> Z) (ds : list string)
  (st0 : topo) (h i : nat) (ls : nat * list extended_host) (st : topo)
  : Prop :=
  fst ls = i /\
  same_context st0 st /\
  (forall j, (j < i)%nat ->
     switch_ports st !! switch_name (get_serialno j)
       = Some (ports_range st0 0 h) /\
     switch_dpids st !! switch_name (get_serialno j) = ds !! j) /\
  (forall n, (forall j, (j < i)%nat -> n <> switch_name (get_serialno j)) ->
     switch_ports st !! n = None).

(** ** The node log *)

(** The name a node was added under. *)
Definition node_name (n : node) : string :=
  match n with
  | HostNode name _ _ => name
  | SwitchNode name _ _ _ => name
  end.

(** The prefix the build loop makes from a serial number. *)
Definition sid_prefix_of (serialno : Z) : string :=
  match _get_sid_prefix serialno with
  | Ok sid_prefix => sid_prefix
  | Raise _ => ""%string
  end.

(** The names of the nodes one turn of the build loop adds, in the
    order it adds them: tagged hosts, untagged hosts, the switch. *)
Definition switch_node_names (n_tagged n_untagged : Z) (sid_prefix : string)
  : list string :=
  map (host_name "t" sid_prefix) (py_range 0 n_tagged)
  ++ map (host_name "u" sid_prefix) (py_range 0 n_untagged)
  ++ [("s" ++ sid_prefix)%string].

(** ** Controller arguments *)

(** [BaseFAUCET._tls_cargs(ofctl_port, ctl_privkey, ctl_cert, ca_certs)]:
    one [--key=value] argument per certificate parameter that is set
    (neither [None] nor empty), then the TLS listen port if there was
    one, joined by spaces. *)
Definition _tls_cargs (ofctl_port : Z)
  (ctl_privkey ctl_cert ca_certs : option string) : string :=
  let tls_cargs :=
    fold_left
      (fun (tls_cargs : list string) (carg : option string * string) =>
         let (carg_val, carg_key) := carg in
         if truthy carg_val
         then tls_cargs
              ++ [("--" ++ carg_key ++ "=" ++ default "" carg_val)%string]
         else tls_cargs)
      [(ctl_privkey, "ryu-ctl-privkey"%string);
       (ctl_cert, "ryu-ctl-cert"%string);
       (ca_certs, "ryu-ca-certs"%string)] [] in
  let tls_cargs :=
    match tls_cargs with
    | [] => tls_cargs
    | _ :: _ =>
        tls_cargs ++ [("--ryu-ofp-ssl-listen-port=" ++ py_str ofctl_port)%string]
    end in
  String.concat " " tls_cargs.

(** ** A switch linked to itself *)

(** The ports [addLinks(s, s, next_index)] appends to the port list of
    [s] when its next free index is [a] and it makes [k] links: each
    link takes one place of the port order for both of its ends and
    moves the index on by two. *)
Definition self_ports (self : topo) (a k : nat) : list Z :=
  flat_map (fun i => [port_at self (a + 2 * i); port_at self (a + 2 * i)])
    (seq 0 k).

(** The peer links it appends, for the dpid [d] of [s]. *)
Definition self_links (self : topo) (a : nat) (d : string) (k : nat)
  : list peer_link :=
  flat_map
    (fun i =>
       [mk_peer_link (port_at self (a + 2 * i)) d (port_at self (a + 2 * i));
        mk_peer_link (port_at self (a + 2 * i)) d (port_at self (a + 2 * i))])
    (seq 0 k).

(** ** The links of the hosts *)

(** The links [_add_links] makes for [hosts], the first of them at place
    [i] of the port order: [l] links per host, host after host. *)
Fixpoint host_links (self : topo) (switch : string) (hosts : list string)
  (l i : nat) : list link :=
  match hosts with
  | [] => []
  | host :: hosts' =>
      map (fun j => mk_link switch host (port_at self j) None) (seq i l)
      ++ host_links self switch hosts' l (i + l)
  end.

(** ** Properties of the prefix codec *)

Lemma id_chars_length : length id_chars = 62%nat.
Proof. vm_compute. reflexivity. Qed.

Lemma id_chars_NoDup : NoDup id_chars.
Proof.
  apply (bool_decide_unpack (NoDup id_chars)). vm_compute. exact I.
Qed.

Lemma py_index_nonneg {A} (l : list A) (i : Z) :
  0 <= i < Z.of_nat (length l) ->
  exists x, l !! Z.to_nat i = Some x /\ py_index l i = Ok x.
Proof.
  intros Hi. unfold py_index.
  destruct (i <? 0) eqn:Hneg; [apply Z.ltb_lt in Hneg; lia|].
  replace ((0 <=? i) && (i <? Z.of_nat (length l))) with true
    by (symmetry; apply andb_true_iff; split;
        [apply Z.leb_le | apply Z.ltb_lt]; lia).
  destruct (l !! Z.to_nat i) as [x|] eqn:Hx.
  - exists x. split; reflexivity.
  - apply lookup_ge_None in Hx. lia.
Qed.

Lemma _get_sid_prefix_in_range (s : Z) :
  0 <= s < 3844 ->
  exists ca cb,
    id_chars !! Z.to_nat (s / 62) = Some ca /\
    id_chars !! Z.to_nat (s mod 62) = Some cb /\
    _get_sid_prefix s = Ok (String ca (String cb EmptyString)).
Proof.
  intros Hs. unfold _get_sid_prefix. rewrite id_chars_length.
  change (Z.of_nat 62) with 62.
  rewrite Z.quot_div_nonneg by lia.
  replace (s - s / 62 * 62) with (s mod 62)
    by (rewrite Z.mod_eq by lia; ring).
  destruct (py_index_nonneg id_chars (s / 62)) as (ca & Ha & Hca).
  { rewrite id_chars_length.
    split; [apply Z.div_pos; lia | apply Z.div_lt_upper_bound; lia]. }
  destruct (py_index_nonneg id_chars (s mod 62)) as (cb & Hb & Hcb).
  { rewrite id_chars_length. pose proof (Z.mod_pos_bound s 62). lia. }
  exists ca, cb. rewrite Hca, Hcb. simpl. auto.
Qed.

(** C1: on serial numbers in [0, 3844) the prefix codec returns
    [alphabet[s div 62]] followed by [alphabet[s mod 62]], and two distinct
    serial numbers never get the same prefix. *)
Theorem _get_sid_prefix_injective (s1 s2 : Z) :
  0 <= s1 < 3844 -> 0 <= s2 < 3844 -> s1 <> s2 ->
  (exists a1 b1 a2 b2,
     id_chars !! Z.to_nat (s1 / 62) = Some a1 /\
     id_chars !! Z.to_nat (s1 mod 62) = Some b1 /\
     id_chars !! Z.to_nat (s2 / 62) = Some a2 /\
     id_chars !! Z.to_nat (s2 mod 62) = Some b2 /\
     _get_sid_prefix s1 = Ok (String a1 (String b1 EmptyString)) /\
     _get_sid_prefix s2 = Ok (String a2 (String b2 EmptyString))) /\
  _get_sid_prefix s1 <> _get_sid_prefix s2.
Proof.
  intros H1 H2 Hne.
  destruct (_get_sid_prefix_in_range s1 H1) as (a1 & b1 & Ha1 & Hb1 & E1).
  destruct (_get_sid_prefix_in_range s2 H2) as (a2 & b2 & Ha2 & Hb2 & E2).
  split; [exists a1, b1, a2, b2; auto 10|].
  rewrite E1, E2. intros Heq. injection Heq as Ea Eb. subst a2 b2.
  pose proof (NoDup_lookup _ _ _ _ id_chars_NoDup Ha1 Ha2) as Hq.
  pose proof (NoDup_lookup _ _ _ _ id_chars_NoDup Hb1 Hb2) as Hr.
  apply Z2Nat.inj in Hq; [|apply Z.div_pos; lia|apply Z.div_pos; lia].
  pose proof (Z.mod_pos_bound s1 62). pose proof (Z.mod_pos_bound s2 62).
  apply Z2Nat.inj in Hr; [|lia|lia].
  apply Hne. rewrite (Z.div_mod s1 62), (Z.div_mod s2 62) by lia. lia.
Qed.

Lemma _get_sid_prefix_injective_witness :
  _get_sid_prefix 61 <> _get_sid_prefix 62.
Proof.
  apply (_get_sid_prefix_injective 61 62); lia.
Defined.

(** ** Properties of the port order *)

Lemma py_range_length (a b : Z) :
  a <= b -> Z.of_nat (length (py_range a b)) = b - a.
Proof. intros H. unfold py_range. rewrite length_seqZ. lia. Qed.

Lemma extend_port_order_unfold (seed : option (list Z)) (n : Z) :
  extend_port_order seed n =
  default [] seed
    ++ py_range (Z.of_nat (length (default [] seed))) (n + 1).
Proof. destruct seed as [[|p l]|]; reflexivity. Qed.

(** C2 (as the code has it): when the seed is no longer than [n+1], the
    extended order has length exactly [n+1], starts with the seed and goes
    on with [len(seed), len(seed)+1, ...] in ascending order; a longer
    seed is returned as it is. *)
Theorem extend_port_order_spec (seed : option (list Z)) (n : Z) :
  let s := default [] seed in
  let r := extend_port_order seed n in
  (Z.of_nat (length s) <= n + 1 ->
     Z.of_nat (length r) = n + 1 /\
     take (length s) r = s /\
     (forall k : Z, Z.of_nat (length s) <= k < n + 1 ->
        r !! Z.to_nat k = Some k)) /\
  (n + 1 <= Z.of_nat (length s) -> r = s).
Proof.
  intros s r. subst r. rewrite extend_port_order_unfold. fold s.
  split.
  - intros Hle. split; [|split].
    + rewrite length_app, Nat2Z.inj_add, py_range_length by lia. lia.
    + rewrite take_app_length. reflexivity.
    + intros k Hk. rewrite lookup_app_r by lia.
      unfold py_range.
      replace (Z.to_nat k - length s)%nat
        with (Z.to_nat (k - Z.of_nat (length s))) by lia.
      rewrite lookup_seqZ. split; [f_equal; lia | lia].
  - intros Hge. unfold py_range.
    replace (seqZ _ _) with (@nil Z); [apply app_nil_r|].
    symmetry. apply length_zero_iff_nil. rewrite length_seqZ. lia.
Qed.

Lemma extend_port_order_spec_witness :
  Z.of_nat (length (extend_port_order (Some [3; 1]) 4)) = 4 + 1 /\
  take 2 (extend_port_order (Some [3; 1]) 4) = [3; 1].
Proof.
  destruct (extend_port_order_spec (Some [3; 1]) 4) as [H _].
  destruct H as (Hlen & Hpre & _); [simpl; lia|].
  split; [exact Hlen | exact Hpre].
Defined.

(** The length is not [n+1] for a seed longer than that. *)
Lemma extend_port_order_long_seed :
  Z.of_nat (length (extend_port_order (Some [0; 1; 2]) 0)) <> 0 + 1.
Proof. vm_compute. discriminate. Qed.

(** ** Properties of the hardware port remapper *)

Lemma hw_remap_port_other (self : topo) (dpid : string) (p : Z) :
  Some dpid <> hw_dpid self -> hw_remap_port self dpid p = Ok p.
Proof.
  intros H. unfold hw_remap_port. rewrite bool_decide_eq_true_2; auto.
Qed.

Lemma hw_remap_port_hw (self : topo) (dpid : string) (p : Z) :
  hw_dpid self = Some dpid -> hw_ports self <> [] ->
  hw_remap_port self dpid p = py_index (hw_ports self) (p - start_port self).
Proof.
  intros H Hne. unfold hw_remap_port.
  rewrite bool_decide_eq_false_2 by (rewrite H; auto).
  rewrite bool_decide_eq_false_2 by assumption. reflexivity.
Qed.

(** C3: a port of a switch other than the hardware one is left as it is;
    on the hardware switch the port at offset [i] from [start_port] maps
    to the [i]-th entry of [hw_ports], so [start_port] maps to the first. *)
Theorem hw_remap_port_spec (self : topo) (dpid : string) (p : Z) :
  (Some dpid <> hw_dpid self -> hw_remap_port self dpid p = Ok p) /\
  (hw_dpid self = Some dpid -> hw_ports self <> [] ->
   start_port self <= p < start_port self + Z.of_nat (length (hw_ports self)) ->
   exists x, hw_ports self !! Z.to_nat (p - start_port self) = Some x /\
             hw_remap_port self dpid p = Ok x) /\
  (hw_dpid self = Some dpid -> hw_ports self <> [] ->
   exists x, hw_ports self !! 0%nat = Some x /\
             hw_remap_port self dpid (start_port self) = Ok x).
Proof.
  split; [apply hw_remap_port_other|]. split.
  - intros Hd Hne Hp. rewrite hw_remap_port_hw by assumption.
    destruct (py_index_nonneg (hw_ports self) (p - start_port self))
      as (x & Hx & Hr); [lia|].
    exists x. auto.
  - intros Hd Hne. rewrite hw_remap_port_hw by assumption.
    destruct (hw_ports self) as [|x l] eqn:E; [congruence|].
    destruct (py_index_nonneg (x :: l) (start_port self - start_port self))
      as (y & Hy & Hr); [simpl; lia|].
    rewrite Z.sub_diag in Hy. exists y. auto.
Qed.

Lemma hw_remap_port_spec_witness :
  hw_remap_port (remap_context (Some "7") [2; 4; 9] 5) "8" 6 = Ok 6 /\
  (exists x, [2; 4; 9] !! Z.to_nat (6 - 5) = Some x /\
     hw_remap_port (remap_context (Some "7") [2; 4; 9] 5) "7" 6 = Ok x) /\
  (exists x, [2; 4; 9] !! 0%nat = Some x /\
     hw_remap_port (remap_context (Some "7") [2; 4; 9] 5) "7" 5 = Ok x).
Proof.
  split; [|split].
  - apply (hw_remap_port_spec (remap_context (Some "7") [2; 4; 9] 5) "8" 6).
    simpl. discriminate.
  - apply (hw_remap_port_spec (remap_context (Some "7") [2; 4; 9] 5) "7" 6).
    + reflexivity.
    + simpl. discriminate.
    + simpl. lia.
  - apply (hw_remap_port_spec (remap_context (Some "7") [2; 4; 9] 5) "7" 5).
    + reflexivity.
    + simpl. discriminate.
Defined.

(** C4: on the hardware switch an empty [hw_ports] fails the assertion,
    whatever the port; for any other dpid the call returns the port, with
    or without hardware ports. *)
Theorem hw_remap_port_assert (self : topo) (dpid : string) (p : Z) :
  (hw_dpid self = Some dpid -> hw_ports self = [] ->
   hw_remap_port self dpid p = Raise AssertionError) /\
  (Some dpid <> hw_dpid self -> hw_remap_port self dpid p = Ok p).
Proof.
  split; [|apply hw_remap_port_other].
  intros Hd He. unfold hw_remap_port.
  rewrite bool_decide_eq_false_2 by (rewrite Hd; auto).
  rewrite bool_decide_eq_true_2 by assumption. reflexivity.
Qed.

Lemma hw_remap_port_assert_witness :
  hw_remap_port (remap_context (Some "7") [] 5) "7" 5 = Raise AssertionError /\
  hw_remap_port (remap_context (Some "7") [] 5) "8" 5 = Ok 5.
Proof.
  split.
  - apply (hw_remap_port_assert (remap_context (Some "7") [] 5) "7" 5);
      reflexivity.
  - apply (hw_remap_port_assert (remap_context (Some "7") [] 5) "8" 5).
    simpl. discriminate.
Defined.

Lemma py_index_negative {A} (l : list A) (i : Z) :
  - Z.of_nat (length l) <= i < 0 ->
  exists x, l !! Z.to_nat (i + Z.of_nat (length l)) = Some x /\
            py_index l i = Ok x.
Proof.
  intros Hi. unfold py_index.
  destruct (i <? 0) eqn:Hneg; [|apply Z.ltb_ge in Hneg; lia].
  replace ((0 <=? i + Z.of_nat (length l))
           && (i + Z.of_nat (length l) <? Z.of_nat (length l))) with true
    by (symmetry; apply andb_true_iff; split;
        [apply Z.leb_le | apply Z.ltb_lt]; lia).
  destruct (l !! Z.to_nat (i + Z.of_nat (length l))) as [x|] eqn:Hx.
  - exists x. split; reflexivity.
  - apply lookup_ge_None in Hx. lia.
Qed.

Lemma py_index_raises {A} (l : list A) (i : Z) :
  (exists e, py_index l i = Raise e) <->
  (Z.of_nat (length l) <= i \/ i < - Z.of_nat (length l)).
Proof.
  split.
  - intros [e He].
    destruct (Z_lt_dec i 0) as [Hneg|Hpos].
    + destruct (Z_le_dec (- Z.of_nat (length l)) i) as [Hin|Hout]; [|lia].
      destruct (py_index_negative l i) as (x & _ & Hx); [lia|congruence].
    + destruct (Z_lt_dec i (Z.of_nat (length l))) as [Hin|Hout]; [|lia].
      destruct (py_index_nonneg l i) as (x & _ & Hx); [lia|congruence].
  - intros Hout. exists IndexError. unfold py_index.
    destruct (i <? 0) eqn:Hneg.
    + apply Z.ltb_lt in Hneg.
      destruct Hout as [Hout|Hout]; [lia|].
      replace (0 <=? i + Z.of_nat (length l)) with false
        by (symmetry; apply Z.leb_gt; lia).
      reflexivity.
    + apply Z.ltb_ge in Hneg.
      destruct Hout as [Hout|Hout]; [|lia].
      replace (i <? Z.of_nat (length l)) with false
        by (symmetry; apply Z.ltb_ge; lia).
      rewrite andb_false_r. reflexivity.
Qed.

Lemma py_index_only_IndexError {A} (l : list A) (i : Z) (e : exn) :
  py_index l i = Raise e -> e = IndexError.
Proof.
  unfold py_index.
  destruct ((0 <=? _) && (_ <? _)); [|congruence].
  destruct (l !! _); congruence.
Qed.

Lemma sorted_keys_sorted (switch_map : option (gmap Z string)) :
  StronglySorted Z.le (sorted_keys switch_map).
Proof.
  destruct switch_map as [m|]; simpl.
  - apply StronglySorted_merge_sort; apply _.
  - constructor.
Qed.

Lemma sorted_last_max (l : list Z) (x : Z) :
  StronglySorted Z.le l -> last l = Some x ->
  forall y, y ∈ l -> y <= x.
Proof.
  intros Hs Hl y Hy. apply last_Some in Hl as [l' ->].
  apply elem_of_app in Hy as [Hy|Hy].
  - eapply (StronglySorted_app_1_elem_of Z.le); eauto. set_solver.
  - apply list_elem_of_singleton in Hy. lia.
Qed.

(** C10 (as the code has it): on the hardware switch with a non-empty
    [hw_ports] of length [n], a port in [start_port - n, start_port) does
    not fail but is served from the end of the list, [start_port - 1]
    returning the largest hardware port of a sorted key list; the call
    raises exactly when the offset is at least [n] or below [-n], and then
    it is an IndexError. *)
Theorem hw_remap_port_wraps (self : topo) (dpid : string) (p : Z) :
  hw_dpid self = Some dpid -> hw_ports self <> [] ->
  let n := Z.of_nat (length (hw_ports self)) in
  let i := p - start_port self in
  (- n <= i < 0 ->
     exists x, hw_ports self !! Z.to_nat (i + n) = Some x /\
               hw_remap_port self dpid p = Ok x) /\
  (forall switch_map, hw_ports self = sorted_keys switch_map ->
     exists x, last (hw_ports self) = Some x /\
               hw_remap_port self dpid (start_port self - 1) = Ok x /\
               forall y, y ∈ hw_ports self -> y <= x) /\
  ((exists e, hw_remap_port self dpid p = Raise e) <-> (n <= i \/ i < - n)) /\
  (forall e, hw_remap_port self dpid p = Raise e -> e = IndexError).
Proof.
  intros Hd Hne n i. rewrite !hw_remap_port_hw by assumption.
  split; [|split; [|split]].
  - intros Hi. apply py_index_negative. fold n. lia.
  - intros sm Hsm.
    destruct (py_index_negative (hw_ports self)
                (start_port self - 1 - start_port self)) as (x & Hx & Hr).
    { destruct (hw_ports self); [congruence|]. simpl length. lia. }
    exists x. split; [|split; [exact Hr|]].
    + rewrite last_lookup, <- Hx. f_equal. lia.
    + apply sorted_last_max.
      * rewrite Hsm. apply sorted_keys_sorted.
      * rewrite last_lookup, <- Hx. f_equal. lia.
  - apply py_index_raises.
  - apply py_index_only_IndexError.
Qed.

Lemma hw_remap_port_wraps_witness :
  hw_remap_port
    (remap_context (Some "7") (sorted_keys (Some {[9 := "a"; 2 := "b"]})) 5)
    "7" 4 = Ok 9.
Proof.
  destruct (hw_remap_port_wraps
              (remap_context (Some "7")
                 (sorted_keys (Some {[9 := "a"; 2 := "b"]})) 5) "7" 4)
    as ((x & Hx & Hr) & _).
  - reflexivity.
  - vm_compute. discriminate.
  - vm_compute. split; [discriminate | reflexivity].
  - rewrite Hr. f_equal. vm_compute in Hx. congruence.
Defined.

(** A port below [start_port - len(hw_ports)] raises IndexError although
    its offset is smaller than the length of the list. *)
Lemma hw_remap_port_below_range :
  hw_remap_port (remap_context (Some "7") [2] 5) "7" 3 = Raise IndexError /\
  ~ (3 - start_port (remap_context (Some "7") [2] 5)
     >= Z.of_nat (length (hw_ports (remap_context (Some "7") [2] 5)))).
Proof. split; [reflexivity | simpl; lia]. Qed.

(** ** Properties of the switch factory *)

Lemma truthy_spec (hw : option string) (dpid : string) :
  truthy hw && bool_decide (hw = Some dpid) = true <->
  hw = Some dpid /\ dpid <> ""%string.
Proof.
  rewrite andb_true_iff, bool_decide_eq_true. split.
  - intros [Ht ->]. split; [reflexivity|].
    simpl in Ht. apply negb_true_iff, String.eqb_neq in Ht. exact Ht.
  - intros [-> Hne]. split; [|reflexivity].
    simpl. apply negb_true_iff, String.eqb_neq. exact Hne.
Qed.

(** C9: a switch the factory creates is named [s<prefix>] and registered
    under its original dpid; when that dpid is the (non-empty) hardware
    dpid the switch is a [NoControllerFaucetSwitch], which starts with no
    controllers whatever Mininet hands it, and its datapath id is that of
    [dpid + 1]; otherwise it is a [FaucetSwitch], which starts with the
    controllers it is given, and keeps its dpid. *)
Theorem _add_faucet_switch_spec
  (py_int : string -> result Z) (mininet_dpid : string -> result string)
  (sid_prefix dpid : string) (hw : option string) (ovs_type : string)
  (self self' : topo) (name : string) :
  _add_faucet_switch py_int mininet_dpid sid_prefix dpid hw ovs_type self
    = Ok (name, self') ->
  let registered :=
    set_dpid_names <[dpid := name]> (set_switch_dpids <[name := dpid]> self) in
  name = ("s" ++ sid_prefix)%string /\
  (hw = Some dpid -> dpid <> ""%string ->
   exists n md,
     py_int dpid = Ok n /\ mininet_dpid (py_str (n + 1)) = Ok md /\
     self' = add_node (SwitchNode name NoControllerFaucetSwitch ovs_type md)
               registered /\
     forall (C : Type) (controllers : list C),
       start_controllers NoControllerFaucetSwitch controllers = []) /\
  (hw <> Some dpid \/ dpid = ""%string ->
   exists md,
     mininet_dpid dpid = Ok md /\
     self' = add_node (SwitchNode name FaucetSwitch ovs_type md) registered /\
     forall (C : Type) (controllers : list C),
       start_controllers FaucetSwitch controllers = controllers).
Proof.
  unfold _add_faucet_switch, bind, modify, ret, lift. intros Hrun.
  destruct (truthy hw && bool_decide (hw = Some dpid)) eqn:Hc.
  - apply truthy_spec in Hc as [Hhw Hne].
    destruct (py_int dpid) as [n|e] eqn:Hn; [|discriminate].
    destruct (mininet_dpid (py_str (n + 1))) as [md|e] eqn:Hmd;
      [|discriminate].
    injection Hrun as <- <-. split; [reflexivity|]. split.
    + intros _ _. exists n, md. auto.
    + intros [H|H]; congruence.
  - assert (Hno : ~ (hw = Some dpid /\ dpid <> ""%string)).
    { intros H. apply truthy_spec in H. congruence. }
    destruct (mininet_dpid dpid) as [md|e] eqn:Hmd; [|discriminate].
    injection Hrun as <- <-. split; [reflexivity|]. split.
    + intros H1 H2. tauto.
    + intros _. exists md. auto.
Qed.

Lemma _add_faucet_switch_spec_witness :
  exists n md,
    int_of_decimal "7" = Ok n /\ plain_dpid (py_str (n + 1)) = Ok md /\
    md = "8"%string.
Proof.
  destruct (_add_faucet_switch_spec int_of_decimal plain_dpid "00" "7"
              (Some "7"%string) "system"
              (remap_context (Some "7"%string) [2; 4] 5)
              (add_node (SwitchNode "s00" NoControllerFaucetSwitch "system" "8")
                 (set_dpid_names <["7"%string := "s00"%string]>
                    (set_switch_dpids <["s00"%string := "7"%string]>
                       (remap_context (Some "7"%string) [2; 4] 5))))
              "s00" eq_refl) as (_ & H & _).
  destruct H as (n & md & Hn & Hmd & _); [reflexivity | discriminate |].
  exists n, md. split; [exact Hn|]. split; [exact Hmd|].
  vm_compute in Hn. injection Hn as <-. vm_compute in Hmd. congruence.
Defined.

(** ** Reasoning about method calls *)

Lemma bind_ok {A B} (m : M A) (f : A -> M B) (st : topo) (r : B * topo) :
  bind m f st = Ok r ->
  exists a st1, m st = Ok (a, st1) /\ f a st1 = Ok r.
Proof.
  unfold bind. destruct (m st) as [[a st1]|e]; [|discriminate].
  intros H. exists a, st1. auto.
Qed.

Lemma lift_ok {A} (r : result A) (st : topo) (a : A) (st' : topo) :
  lift r st = Ok (a, st') -> r = Ok a /\ st' = st.
Proof. unfold lift. destruct r; intros H; inversion H; auto. Qed.

Lemma modify_ok (f : topo -> topo) (st : topo) (u : unit) (st' : topo) :
  modify f st = Ok (u, st') -> st' = f st.
Proof. unfold modify. intros H. inversion H. reflexivity. Qed.

Lemma ret_ok {A} (x : A) (st : topo) (a : A) (st' : topo) :
  ret x st = Ok (a, st') -> a = x /\ st' = st.
Proof. unfold ret. intros H. inversion H. auto. Qed.

Lemma get_ok (st : topo) (a st' : topo) :
  get st = Ok (a, st') -> a = st /\ st' = st.
Proof. unfold get. intros H. inversion H. auto. Qed.

(** Takes a successful run apart, call by call. *)
Ltac run_inv H :=
  repeat match type of H with
  | bind _ _ _ = Ok _ =>
      let a := fresh "a" in
      let st := fresh "st" in
      let H1 := fresh "Hrun" in
      apply bind_ok in H as (a & st & H1 & H);
      first [ apply modify_ok in H1; subst st
            | apply lift_ok in H1 as [H1 ->]
            | apply get_ok in H1 as [-> ->]
            | apply ret_ok in H1 as [-> ->]
            | idtac ]
  | ret _ _ = Ok _ => apply ret_ok in H as [? ?]
  | modify _ _ = Ok _ => apply modify_ok in H
  | lift _ _ = Ok _ => apply lift_ok in H as [H ?]
  end.

Lemma hoare_for_each {A S} (I : S -> topo -> Prop) (body : A -> S -> M S)
  (l : list A) :
  (forall x s, x ∈ l -> hoare (I s) (body x s) I) ->
  forall s, hoare (I s) (for_each l body s) I.
Proof.
  induction l as [|x l IH]; intros Hbody s st a st' HI Hrun; simpl in Hrun.
  - apply ret_ok in Hrun as [-> ->]. exact HI.
  - apply bind_ok in Hrun as (s1 & st1 & H1 & Hrun).
    eapply IH; [| |exact Hrun].
    + intros y s0 Hy. apply Hbody. apply list_elem_of_further, Hy.
    + eapply (Hbody x); [apply list_elem_of_here | exact HI | exact H1].
Qed.

Lemma hoare_repeat_n {S} (I : S -> topo -> Prop) (body : S -> M S) (n : nat) :
  (forall s, hoare (I s) (body s) I) ->
  forall s, hoare (I s) (repeat_n n body s) I.
Proof.
  intros Hbody. induction n as [|n IH]; intros s st a st' HI Hrun;
    simpl in Hrun.
  - apply ret_ok in Hrun as [-> ->]. exact HI.
  - apply bind_ok in Hrun as (s1 & st1 & H1 & Hrun).
    eapply IH; [|exact Hrun]. eapply Hbody; [exact HI | exact H1].
Qed.

Lemma hoare_map_M {A B} (I : topo -> Prop) (f : A -> M B) (l : list A) :
  (forall x, hoare I (f x) (fun _ => I)) ->
  hoare I (map_M f l) (fun ys st => I st /\ length ys = length l).
Proof.
  intros Hf. induction l as [|x l IH]; intros st ys st' HI Hrun;
    simpl in Hrun.
  - apply ret_ok in Hrun as [-> ->]. auto.
  - apply bind_ok in Hrun as (y & st1 & H1 & Hrun).
    apply bind_ok in Hrun as (ys1 & st2 & H2 & Hrun).
    apply ret_ok in Hrun as [-> ->].
    destruct (IH st1 ys1 st2) as [HI2 Hlen]; [eapply Hf; eauto | exact H2 |].
    split; [exact HI2 | simpl; congruence].
Qed.

(** ** Frames of the link builders *)

Ltac frame_solve :=
  unfold unchanged_but_ports, unchanged_names in *; simpl in *;
  intuition congruence.

Lemma unchanged_but_ports_refl (st : topo) : unchanged_but_ports st st.
Proof. frame_solve. Qed.

Lemma unchanged_names_refl (st : topo) : unchanged_names st st.
Proof. frame_solve. Qed.

Lemma append_port_ok (sw : string) (p : Z) (st : topo) (u : unit)
  (st' : topo) :
  append_port sw p st = Ok (u, st') ->
  exists l, switch_ports st !! sw = Some l /\
    st' = set_switch_ports (fun _ => <[sw := l ++ [p]]> (switch_ports st)) st.
Proof.
  unfold append_port, py_append_at, py_getitem.
  destruct (switch_ports st !! sw) as [l|]; simpl; [|discriminate].
  intros H. inversion H. eauto.
Qed.

Lemma append_peer_link_ok (sw : string) (r : peer_link) (st : topo)
  (u : unit) (st' : topo) :
  append_peer_link sw r st = Ok (u, st') ->
  exists l, switch_peer_links st !! sw = Some l /\
    st' = set_switch_peer_links
            (fun _ => <[sw := l ++ [r]]> (switch_peer_links st)) st.
Proof.
  unfold append_peer_link, py_append_at, py_getitem.
  destruct (switch_peer_links st !! sw) as [l|]; simpl; [|discriminate].
  intros H. inversion H. eauto.
Qed.

Lemma order_port_ok (i : Z) (st : topo) (p : Z) (st' : topo) :
  order_port i st = Ok (p, st') ->
  st' = st /\
  exists o, py_index (port_order st) i = Ok o /\ p = start_port st + o.
Proof.
  unfold order_port. intros H. run_inv H. subst. split; [reflexivity|].
  eauto.
Qed.

Lemma _add_links_frame (sw : string) (hosts : list string) (n : Z)
  (st : topo) (i : Z) (st' : topo) :
  _add_links sw hosts n st = Ok (i, st') -> unchanged_but_ports st st'.
Proof.
  unfold _add_links. intros H. run_inv H.
  eapply (hoare_for_each (fun _ s => unchanged_but_ports st s));
    [| |exact H]; [|frame_solve].
  intros host idx _ s0 idx' s1 HI Hrun. unfold for_range in Hrun.
  eapply (hoare_repeat_n (fun _ s => unchanged_but_ports st s));
    [|exact HI|exact Hrun].
  clear. intros idx s0 idx' s1 HI Hrun. run_inv Hrun.
  apply order_port_ok in Hrun0 as [-> _].
  apply append_port_ok in Hrun1 as (l & _ & ->). subst. frame_solve.
Qed.

(** ** The mirror invariant, one step at a time *)

Lemma mirror_setdefault (names dpids : gmap string string)
  (peers : gmap string (list peer_link)) (k : string) :
  mirror_tables names dpids peers ->
  mirror_tables names dpids (py_setdefault peers k []).
Proof.
  intros HM. unfold py_setdefault.
  destruct (peers !! k) as [l0|] eqn:Hk; [exact HM|].
  intros A d l r Hd Hl Hr.
  destruct (decide (k = A)) as [->|Hne].
  - rewrite lookup_insert_eq in Hl. injection Hl as <-.
    apply elem_of_nil in Hr. contradiction.
  - rewrite lookup_insert_ne in Hl by exact Hne.
    destruct (HM A d l r Hd Hl Hr) as (B & l' & HB & Hl' & Hin).
    exists B, l'. split; [exact HB|]. split; [|exact Hin].
    rewrite lookup_insert_ne; [exact Hl'|]. intros ->. congruence.
Qed.

Lemma registered_setdefault (dpids : gmap string string)
  (peers : gmap string (list peer_link)) (k : string) :
  is_Some (dpids !! k) ->
  peers_registered dpids peers ->
  peers_registered dpids (py_setdefault peers k []).
Proof.
  intros Hk HR n Hn. unfold py_setdefault in Hn.
  destruct (peers !! k) as [l0|] eqn:E; [auto|].
  destruct (decide (k = n)) as [->|Hne]; [exact Hk|].
  rewrite lookup_insert_ne in Hn by exact Hne. auto.
Qed.

Section AppendPair.

Variables (names dpids : gmap string string).
Variable peers : gmap string (list peer_link).
Variables (src dst d1 d2 : string) (l1 l2 : list peer_link) (p1 p2 : Z).

Let r1 : peer_link := mk_peer_link p1 d2 p2.
Let r2 : peer_link := mk_peer_link p2 d1 p1.
Let peers1 : gmap string (list peer_link) := <[src := l1 ++ [r1]]> peers.
Let peers2 : gmap string (list peer_link) := <[dst := l2 ++ [r2]]> peers1.

Hypothesis Hsrc : peers !! src = Some l1.
Hypothesis Hdst : peers1 !! dst = Some l2.

Lemma append_pair_mono (B : string) (l0 : list peer_link) :
  peers !! B = Some l0 ->
  exists l0', peers2 !! B = Some l0' /\ forall x, x ∈ l0 -> x ∈ l0'.
Proof.
  intros HB. unfold peers2.
  destruct (decide (dst = B)) as [<-|Hne].
  - rewrite lookup_insert_eq. eexists. split; [reflexivity|].
    intros x Hx. apply elem_of_app. left.
    unfold peers1 in Hdst.
    destruct (decide (src = dst)) as [E|E].
    + rewrite E, lookup_insert_eq in Hdst. injection Hdst as <-.
      rewrite E in Hsrc. apply elem_of_app. left. congruence.
    + rewrite lookup_insert_ne in Hdst by exact E. congruence.
  - rewrite lookup_insert_ne by exact Hne. unfold peers1.
    destruct (decide (src = B)) as [<-|Hne'].
    + rewrite lookup_insert_eq. eexists. split; [reflexivity|].
      intros x Hx. apply elem_of_app. left. congruence.
    + rewrite lookup_insert_ne by exact Hne'. eauto.
Qed.

Lemma append_pair_src : exists l, peers2 !! src = Some l /\ r1 ∈ l.
Proof.
  unfold peers2. destruct (decide (dst = src)) as [E|E].
  - rewrite E, lookup_insert_eq. eexists. split; [reflexivity|].
    apply elem_of_app. left. unfold peers1 in Hdst.
    rewrite E, lookup_insert_eq in Hdst. injection Hdst as <-.
    apply elem_of_app. right. apply list_elem_of_singleton. reflexivity.
  - rewrite lookup_insert_ne by exact E. unfold peers1.
    rewrite lookup_insert_eq. eexists. split; [reflexivity|].
    apply elem_of_app. right. apply list_elem_of_singleton. reflexivity.
Qed.

Lemma append_pair_dst : exists l, peers2 !! dst = Some l /\ r2 ∈ l.
Proof.
  unfold peers2. rewrite lookup_insert_eq. eexists. split; [reflexivity|].
  apply elem_of_app. right. apply list_elem_of_singleton. reflexivity.
Qed.

Lemma append_pair_elem (A : string) (l : list peer_link) (r : peer_link) :
  peers2 !! A = Some l -> r ∈ l ->
  (exists l0, peers !! A = Some l0 /\ r ∈ l0) \/
  (A = src /\ r = r1) \/ (A = dst /\ r = r2).
Proof.
  unfold peers2. intros HA Hr.
  assert (Hone : forall l', peers1 !! A = Some l' -> r ∈ l' ->
            (exists l0, peers !! A = Some l0 /\ r ∈ l0) \/
            (A = src /\ r = r1)).
  { unfold peers1. intros l' Hl' Hr'.
    destruct (decide (src = A)) as [<-|Hne].
    - rewrite lookup_insert_eq in Hl'. injection Hl' as <-.
      apply elem_of_app in Hr' as [Hr'|Hr'].
      + left. eauto.
      + right. apply list_elem_of_singleton in Hr'. auto.
    - rewrite lookup_insert_ne in Hl' by exact Hne. left. eauto. }
  destruct (decide (dst = A)) as [<-|Hne].
  - rewrite lookup_insert_eq in HA. injection HA as <-.
    apply elem_of_app in Hr as [Hr|Hr].
    + destruct (Hone l2 Hdst Hr) as [H|H]; auto.
    + right. right. apply list_elem_of_singleton in Hr. auto.
  - rewrite lookup_insert_ne in HA by exact Hne.
    destruct (Hone l HA Hr) as [H|H]; auto.
Qed.

Lemma mirror_append_pair :
  inverse_tables names dpids ->
  dpids !! src = Some d1 -> dpids !! dst = Some d2 ->
  mirror_tables names dpids peers ->
  mirror_tables names dpids peers2.
Proof.
  intros Hinv Hd1 Hd2 HM A d l r Hd Hl Hr.
  destruct (append_pair_elem A l r Hl Hr) as [(l0 & Hl0 & Hr0)|[[-> ->]|[-> ->]]].
  - destruct (HM A d l0 r Hd Hl0 Hr0) as (B & l' & HB & Hl' & Hin).
    destruct (append_pair_mono B l' Hl') as (l'' & Hl'' & Hsub).
    exists B, l''. auto.
  - assert (d = d1) by congruence. subst d.
    destruct append_pair_dst as (l' & Hl' & Hin).
    exists dst, l'. split; [apply Hinv; exact Hd2|]. split; [exact Hl'|].
    exact Hin.
  - assert (d = d2) by congruence. subst d.
    destruct append_pair_src as (l' & Hl' & Hin).
    exists src, l'. split; [apply Hinv; exact Hd1|]. split; [exact Hl'|].
    exact Hin.
Qed.

Lemma registered_append_pair :
  peers_registered dpids peers -> peers_registered dpids peers2.
Proof.
  intros HR n Hn. unfold peers2, peers1 in *.
  destruct (decide (dst = n)) as [<-|Hne].
  - destruct (decide (src = dst)) as [E|E].
    + apply HR. rewrite <- E. eauto.
    + rewrite lookup_insert_ne in Hdst by exact E. apply HR. eauto.
  - rewrite lookup_insert_ne in Hn by exact Hne.
    destruct (decide (src = n)) as [<-|Hne'].
    + apply HR. eauto.
    + rewrite lookup_insert_ne in Hn by exact Hne'. auto.
Qed.

End AppendPair.

Lemma addLinks_body_inv (src dst d1 d2 : string)
  (ni : gmap string Z) (st : topo) (ni' : gmap string Z) (st' : topo) :
  (let* index1 := lift (py_getitem ni src) in
   let* index2 := lift (py_getitem ni dst) in
   let* port1 := order_port index1 in
   let* port2 := order_port index2 in
   modify (add_link (mk_link src dst port1 (Some port2))) ;;
   append_port src port1 ;;
   append_port dst port2 ;;
   append_peer_link src (mk_peer_link port1 d2 port2) ;;
   append_peer_link dst (mk_peer_link port2 d1 port1) ;;
   let* next_index := lift (py_incr ni src) in
   let* next_index := lift (py_incr next_index dst) in
   ret next_index) st = Ok (ni', st') ->
  unchanged_names st st' /\
  (inverse_tables (dpid_names st) (switch_dpids st) ->
   switch_dpids st !! src = Some d1 -> switch_dpids st !! dst = Some d2 ->
   (mirror_invariant st -> mirror_invariant st') /\
   (peers_registered (switch_dpids st) (switch_peer_links st) ->
    peers_registered (switch_dpids st') (switch_peer_links st'))).
Proof.
  intros Hrun. run_inv Hrun.
  apply order_port_ok in Hrun2 as [-> _].
  apply order_port_ok in Hrun3 as [-> _].
  apply append_port_ok in Hrun4 as (la & _ & ->).
  apply append_port_ok in Hrun5 as (lb & _ & ->).
  apply append_peer_link_ok in Hrun6 as (l1 & Hl1 & ->).
  apply append_peer_link_ok in Hrun7 as (l2 & Hl2 & ->).
  subst. split; [frame_solve|].
  intros Hinv Hd1 Hd2. unfold mirror_invariant. simpl in *. split.
  - apply mirror_append_pair; assumption.
  - apply registered_append_pair with (d1 := d1) (d2 := d2) (p1 := a1)
      (p2 := a2); assumption.
Qed.

Lemma addLinks_inv (src dst : string) (ni : gmap string Z) (st : topo)
  (ni' : gmap string Z) (st' : topo) :
  addLinks src dst ni st = Ok (ni', st') ->
  unchanged_names st st' /\
  (inverse_tables (dpid_names st) (switch_dpids st) ->
   (mirror_invariant st -> mirror_invariant st') /\
   (peers_registered (switch_dpids st) (switch_peer_links st) ->
    peers_registered (switch_dpids st') (switch_peer_links st'))).
Proof.
  unfold addLinks. intros Hrun. run_inv Hrun. simpl in Hrun0, Hrun1.
  unfold py_getitem in Hrun0, Hrun1.
  destruct (switch_dpids st !! src) as [d1|] eqn:Hd1; [|discriminate].
  destruct (switch_dpids st !! dst) as [d2|] eqn:Hd2; [|discriminate].
  injection Hrun0 as <-. injection Hrun1 as <-.
  unfold for_range in Hrun.
  eapply (hoare_repeat_n
            (fun _ s =>
               unchanged_names st s /\
               (inverse_tables (dpid_names st) (switch_dpids st) ->
                (mirror_invariant st -> mirror_invariant s) /\
                (peers_registered (switch_dpids st) (switch_peer_links st) ->
                 peers_registered (switch_dpids s) (switch_peer_links s)))));
    [| |exact Hrun].
  - intros idx s0 idx' s1 [Hfr HI] Hbody.
    apply (addLinks_body_inv src dst d1 d2) in Hbody as [Hfr' Hstep].
    split; [frame_solve|]. intros Hinv.
    destruct (HI Hinv) as [HM HR].
    assert (E1 : dpid_names s0 = dpid_names st) by frame_solve.
    assert (E2 : switch_dpids s0 = switch_dpids st) by frame_solve.
    destruct Hstep as [HM' HR']; [rewrite E1, E2; exact Hinv
                                 |rewrite E2; exact Hd1
                                 |rewrite E2; exact Hd2|].
    split; [auto|]. intros H. apply HR', HR, H.
  - split; [frame_solve|]. intros Hinv. unfold mirror_invariant. simpl.
    split.
    + intros HM. apply mirror_setdefault, mirror_setdefault, HM.
    + intros HR. apply registered_setdefault; [eauto|].
      apply registered_setdefault; [eauto|]. exact HR.
Qed.

(** ** The entity factory, run *)

Lemma append_nodes_nil (st : topo) : append_nodes [] st = st.
Proof. destruct st. unfold append_nodes. simpl. rewrite app_nil_r. reflexivity. Qed.

Lemma append_nodes_add (n : node) (new : list node) (st : topo) :
  append_nodes new (add_node n st) = append_nodes (n :: new) st.
Proof.
  unfold append_nodes, add_node. simpl. rewrite <- app_assoc. reflexivity.
Qed.

Lemma map_M_tagged (p : string) (vid : Z) (l : list Z) (st : topo) :
  map_M (fun host_n => _add_tagged_host p vid host_n) l st =
  Ok (map (host_name "t" p) l, append_nodes (map (tagged_node p vid) l) st).
Proof.
  revert st. induction l as [|h l IH]; intros st; simpl.
  - unfold ret. rewrite append_nodes_nil. reflexivity.
  - unfold bind at 1. unfold _add_tagged_host at 1. unfold bind at 1.
    unfold modify, ret at 1. unfold bind at 1. rewrite IH.
    unfold ret. rewrite append_nodes_add. reflexivity.
Qed.

Lemma map_M_untagged (p : string) (l : list Z) (st : topo) :
  map_M (fun host_n => _add_untagged_host p host_n true) l st =
  Ok (map (host_name "u" p) l, append_nodes (map (untagged_node p) l) st).
Proof.
  revert st. induction l as [|h l IH]; intros st; simpl.
  - unfold ret. rewrite append_nodes_nil. reflexivity.
  - unfold bind at 1. unfold _add_untagged_host at 1. unfold bind at 1.
    unfold modify, ret at 1. unfold bind at 1. rewrite IH.
    unfold ret. rewrite append_nodes_add. reflexivity.
Qed.

Lemma _add_faucet_switch_tables
  (py_int : string -> result Z) (mininet_dpid : string -> result string)
  (p dpid : string) (hw : option string) (ovs_type : string)
  (st : topo) (name : string) (st' : topo) :
  _add_faucet_switch py_int mininet_dpid p dpid hw ovs_type st
    = Ok (name, st') ->
  name = ("s" ++ p)%string /\
  exists nd,
    st' = add_node nd
            (set_dpid_names <[dpid := name]>
               (set_switch_dpids <[name := dpid]> st)).
Proof.
  unfold _add_faucet_switch, bind, modify, ret, lift. intros Hrun.
  destruct (truthy hw && bool_decide (hw = Some dpid)).
  - destruct (py_int dpid) as [n|e]; [|discriminate].
    destruct (mininet_dpid (py_str (n + 1))) as [md|e]; [|discriminate].
    injection Hrun as <- <-. eauto.
  - destruct (mininet_dpid dpid) as [md|e]; [|discriminate].
    injection Hrun as <- <-. eauto.
Qed.

(** ** Switch names *)

Lemma _get_sid_prefix_inj (s1 s2 : Z) :
  0 <= s1 < 3844 -> 0 <= s2 < 3844 ->
  _get_sid_prefix s1 = _get_sid_prefix s2 -> s1 = s2.
Proof.
  intros H1 H2.
  destruct (_get_sid_prefix_in_range s1 H1) as (a1 & b1 & Ha1 & Hb1 & E1).
  destruct (_get_sid_prefix_in_range s2 H2) as (a2 & b2 & Ha2 & Hb2 & E2).
  rewrite E1, E2. intros Heq. injection Heq as Ea Eb. subst a2 b2.
  pose proof (NoDup_lookup _ _ _ _ id_chars_NoDup Ha1 Ha2) as Hq.
  pose proof (NoDup_lookup _ _ _ _ id_chars_NoDup Hb1 Hb2) as Hr.
  apply Z2Nat.inj in Hq; [|apply Z.div_pos; lia|apply Z.div_pos; lia].
  pose proof (Z.mod_pos_bound s1 62). pose proof (Z.mod_pos_bound s2 62).
  apply Z2Nat.inj in Hr; [|lia|lia].
  rewrite (Z.div_mod s1 62), (Z.div_mod s2 62) by lia. lia.
Qed.

Lemma switch_name_ok (s : Z) :
  0 <= s < 3844 ->
  exists p, _get_sid_prefix s = Ok p /\ switch_name s = ("s" ++ p)%string.
Proof.
  intros Hs. destruct (_get_sid_prefix_in_range s Hs) as (a & b & _ & _ & E).
  unfold switch_name. rewrite E. eauto.
Qed.

Lemma switch_name_inj (s1 s2 : Z) :
  0 <= s1 < 3844 -> 0 <= s2 < 3844 ->
  switch_name s1 = switch_name s2 -> s1 = s2.
Proof.
  intros H1 H2 Heq.
  destruct (switch_name_ok s1 H1) as (p1 & E1 & N1).
  destruct (switch_name_ok s2 H2) as (p2 & E2 & N2).
  rewrite N1, N2 in Heq. apply (inj (String.append "s")) in Heq.
  apply _get_sid_prefix_inj; [assumption|assumption|congruence].
Qed.

Lemma serials_ok_names (get_serialno : nat -> Z) (n j k : nat) :
  serials_ok get_serialno n -> (j < n)%nat -> (k < n)%nat ->
  switch_name (get_serialno j) = switch_name (get_serialno k) -> j = k.
Proof.
  intros [Hrange Hinj] Hj Hk Heq. apply Hinj; [exact Hj|exact Hk|].
  apply switch_name_inj; auto.
Qed.

Lemma serials_ok_le (get_serialno : nat -> Z) (n m : nat) :
  (m <= n)%nat -> serials_ok get_serialno n -> serials_ok get_serialno m.
Proof.
  intros Hle [Hrange Hinj]. split.
  - intros k Hk. apply Hrange. lia.
  - intros j k Hj Hk. apply Hinj; lia.
Qed.

(** ** Registering a new switch *)

Lemma inverse_insert (names dpids : gmap string string) (n d : string) :
  inverse_tables names dpids -> dpids !! n = None -> names !! d = None ->
  inverse_tables (<[d := n]> names) (<[n := d]> dpids).
Proof.
  intros Hinv Hn Hd n' d'. split.
  - intros H. destruct (decide (n = n')) as [<-|Hne].
    + rewrite lookup_insert_eq in H. injection H as <-.
      apply lookup_insert_eq.
    + rewrite lookup_insert_ne in H by exact Hne.
      apply Hinv in H. rewrite lookup_insert_ne; [exact H|].
      intros <-. congruence.
  - intros H. destruct (decide (d = d')) as [<-|Hne].
    + rewrite lookup_insert_eq in H. injection H as <-.
      apply lookup_insert_eq.
    + rewrite lookup_insert_ne in H by exact Hne.
      apply Hinv in H. rewrite lookup_insert_ne; [exact H|].
      intros <-. congruence.
Qed.

Lemma registered_insert (dpids : gmap string string)
  (peers : gmap string (list peer_link)) (n d : string) :
  peers_registered dpids peers -> peers_registered (<[n := d]> dpids) peers.
Proof.
  intros HR k Hk. destruct (decide (n = k)) as [<-|Hne].
  - rewrite lookup_insert_eq. eauto.
  - rewrite lookup_insert_ne by exact Hne. auto.
Qed.

Lemma mirror_register (names dpids : gmap string string)
  (peers : gmap string (list peer_link)) (n d : string) :
  mirror_tables names dpids peers -> peers_registered dpids peers ->
  dpids !! n = None -> names !! d = None ->
  mirror_tables (<[d := n]> names) (<[n := d]> dpids) peers.
Proof.
  intros HM HR Hn Hd A d0 l r HA Hl Hr.
  destruct (decide (n = A)) as [<-|Hne].
  - destruct (HR n) as [x Hx]; [eauto|]. congruence.
  - rewrite lookup_insert_ne in HA by exact Hne.
    destruct (HM A d0 l r HA Hl Hr) as (B & l' & HB & Hl' & Hin).
    exists B, l'. split; [|auto].
    rewrite lookup_insert_ne; [exact HB|]. intros E. rewrite <- E in HB.
    congruence.
Qed.

(** ** The mirror invariant over a whole build *)

Section BuildTables.

Variable py_int : string -> result Z.
Variable mininet_dpid : string -> result string.
Variable ovs_type : string.
Variables n_tagged tagged_vid n_untagged : Z.
Variables links_per_host switch_to_switch_links_arg : Z.
Variable hw_dpid_arg : option string.
Variable switch_map : option (gmap Z string).
Variable stack_ring : bool.
Variable start_port_arg : Z.
Variable port_order_arg : option (list Z).
Variable get_serialno : nat -> Z.

Let body : string -> loop_state -> M loop_state :=
  build_switch py_int mininet_dpid ovs_type n_tagged tagged_vid n_untagged
    links_per_host hw_dpid_arg get_serialno.

Lemma build_switch_tables (done : list string) (dpid : string)
  (ls : loop_state) (st : topo) (ls' : loop_state) (st' : topo) :
  body dpid ls st = Ok (ls', st') ->
  chain_tables_ok get_serialno done ls st ->
  dpid ∉ done ->
  serials_ok get_serialno (S (length done)) ->
  chain_tables_ok get_serialno (done ++ [dpid]) ls' st'.
Proof.
  unfold body, build_switch. intros Hrun Hok Hfresh Hser.
  run_inv Hrun.
  destruct Hok as (Hcalls & Hinv & HM & HR & Hnames & Hdpids).
  rewrite map_M_tagged in Hrun1. injection Hrun1 as <- <-.
  rewrite map_M_untagged in Hrun2. injection Hrun2 as <- <-.
  apply _add_faucet_switch_tables in Hrun3 as (-> & nd & ->).
  apply _add_links_frame in Hrun4.
  destruct (switch_name_ok (get_serialno (length done))) as (p & Hp & Hnm).
  { apply Hser. lia. }
  rewrite Hcalls, Hp in Hrun0. injection Hrun0 as <-.
  rewrite <- Hnm in *. set (name := switch_name (get_serialno (length done))) in *.
  assert (Hn : switch_dpids st !! name = None).
  { destruct (switch_dpids st !! name) as [x|] eqn:E; [|reflexivity].
    destruct (Hnames name) as (j & Hj & Hjn); [eauto|].
    apply (serials_ok_names get_serialno (S (length done))) in Hjn;
      [lia | exact Hser | lia | lia]. }
  assert (Hd : dpid_names st !! dpid = None).
  { destruct (dpid_names st !! dpid) as [x|] eqn:E; [|reflexivity].
    exfalso. apply Hfresh, Hdpids. eauto. }
  assert (E1 : dpid_names st3 = <[dpid := name]> (dpid_names st))
    by (destruct Hrun4 as (-> & _); reflexivity).
  assert (E2 : switch_dpids st3 = <[name := dpid]> (switch_dpids st))
    by (destruct Hrun4 as (_ & -> & _); reflexivity).
  assert (E3 : switch_peer_links st3 = switch_peer_links st)
    by (destruct Hrun4 as (_ & _ & -> & _); reflexivity).
  assert (Hinv3 : inverse_tables (dpid_names st3) (switch_dpids st3)).
  { rewrite E1, E2. apply inverse_insert; assumption. }
  assert (HM3 : mirror_invariant st3).
  { unfold mirror_invariant. rewrite E1, E2, E3.
    apply mirror_register; assumption. }
  assert (HR3 : peers_registered (switch_dpids st3) (switch_peer_links st3)).
  { rewrite E2, E3. apply registered_insert, HR. }
  assert (Hnames3 : forall n, is_Some (switch_dpids st3 !! n) ->
            exists j, (j < length (done ++ [dpid]))%nat /\
                      n = switch_name (get_serialno j)).
  { intros n Hsome. rewrite length_app. simpl. rewrite E2 in Hsome.
    destruct (decide (name = n)) as [<-|Hne].
    - exists (length done). split; [lia | reflexivity].
    - rewrite lookup_insert_ne in Hsome by exact Hne.
      destruct (Hnames n Hsome) as (j & Hj & ->). exists j. split; [lia|auto]. }
  assert (Hdpids3 : forall d, is_Some (dpid_names st3 !! d) ->
            d ∈ done ++ [dpid]).
  { intros d Hsome. rewrite E1 in Hsome. apply elem_of_app.
    destruct (decide (dpid = d)) as [<-|Hne].
    - right. apply list_elem_of_singleton. reflexivity.
    - rewrite lookup_insert_ne in Hsome by exact Hne. left. auto. }
  assert (Hlen : S (serial_calls ls) = length (done ++ [dpid])).
  { rewrite length_app. simpl. lia. }
  destruct (first_switch ls) as [first|].
  - apply bind_ok in Hrun as (ni & st4 & Hadd & Hrun).
    apply ret_ok in Hrun as [-> ->].
    destruct (last_switch ls) as [last|]; [|discriminate].
    apply addLinks_inv in Hadd as [Hfr Hstep].
    destruct (Hstep Hinv3) as [HM' HR'].
    assert (E1' : dpid_names st4 = dpid_names st3) by frame_solve.
    assert (E2' : switch_dpids st4 = switch_dpids st3) by frame_solve.
    unfold chain_tables_ok. simpl. rewrite E1', E2'.
    repeat split; auto.
    + apply Hinv3.
    + apply Hinv3.
    + rewrite <- E2'. auto.
  - apply ret_ok in Hrun as [-> ->].
    unfold chain_tables_ok. simpl. repeat split; auto; apply Hinv3.
Qed.

Lemma for_each_tables (rest : list string) :
  forall (done : list string) (ls : loop_state) (st : topo)
         (ls' : loop_state) (st' : topo),
  for_each rest body ls st = Ok (ls', st') ->
  chain_tables_ok get_serialno done ls st ->
  NoDup (done ++ rest) ->
  serials_ok get_serialno (length done + length rest) ->
  chain_tables_ok get_serialno (done ++ rest) ls' st'.
Proof.
  induction rest as [|d rest IH]; intros done ls st ls' st' Hrun Hok Hnd Hser;
    simpl in Hrun.
  - apply ret_ok in Hrun as [-> ->]. rewrite app_nil_r. exact Hok.
  - apply bind_ok in Hrun as (ls1 & st1 & Hstep & Hrun).
    replace (done ++ d :: rest) with ((done ++ [d]) ++ rest) in *
      by (rewrite <- app_assoc; reflexivity).
    apply (IH (done ++ [d]) ls1 st1); [exact Hrun| |exact Hnd|].
    + apply (build_switch_tables done d ls st); [exact Hstep|exact Hok| |].
      * apply NoDup_app in Hnd as (Hnd & _ & _).
        apply NoDup_app in Hnd as (_ & Hdis & _).
        intros Hin. apply (Hdis d Hin). apply list_elem_of_singleton.
        reflexivity.
      * eapply serials_ok_le; [|exact Hser]. simpl. lia.
    + eapply serials_ok_le; [|exact Hser]. rewrite length_app. simpl. lia.
Qed.

Lemma build_init_tables :
  chain_tables_ok get_serialno [] (mk_loop_state None None ∅ O)
    (build_init n_tagged n_untagged links_per_host switch_to_switch_links_arg
       hw_dpid_arg switch_map start_port_arg port_order_arg).
Proof.
  unfold chain_tables_ok, mirror_invariant, build_init. simpl.
  split; [reflexivity|]. split.
  { intros n d. rewrite !lookup_empty. split; discriminate. }
  split.
  { intros A d l r H. rewrite lookup_empty in H. discriminate. }
  split.
  { intros n [x H]. rewrite lookup_empty in H. discriminate. }
  split; intros x [y H]; rewrite lookup_empty in H; discriminate.
Qed.

(** C5: in the topology a chain or ring build returns, whatever the number
    of switches, of hosts and links per host, of switch-to-switch links,
    and with or without the ring, every peer link stored under a switch
    has its mirror record in the list of the switch its [peer_dpid] names;
    the dpids are distinct and the serial allocator hands out distinct
    serial numbers within the range of the prefix codec. *)
Theorem build_mirror_invariant (dpids : list string) (self : topo) :
  NoDup dpids ->
  serials_ok get_serialno (length dpids) ->
  build py_int mininet_dpid ovs_type n_tagged tagged_vid n_untagged
    links_per_host switch_to_switch_links_arg hw_dpid_arg switch_map
    stack_ring start_port_arg port_order_arg get_serialno dpids = Ok self ->
  mirror_invariant self.
Proof.
  intros Hnd Hser. unfold build, build_loop.
  destruct (bind _ _ _) as [[ls' st']|e] eqn:Hrun; [|discriminate].
  intros Heq. injection Heq as <-.
  apply bind_ok in Hrun as (ls & st & Hloop & Hrun).
  apply (for_each_tables dpids [] _ _ ls st) in Hloop;
    [|apply build_init_tables|exact Hnd|exact Hser].
  destruct Hloop as (_ & Hinv & HM & _).
  destruct stack_ring.
  - destruct (first_switch ls) as [first|]; [|discriminate].
    destruct (last_switch ls) as [last|]; [|discriminate].
    apply bind_ok in Hrun as (ni & st1 & Hadd & Hrun).
    apply ret_ok in Hrun as [_ ->].
    apply addLinks_inv in Hadd as [_ Hstep].
    apply Hstep; assumption.
  - apply ret_ok in Hrun as [_ ->]. exact HM.
Qed.

End BuildTables.

Lemma build_mirror_invariant_witness :
  match build int_of_decimal plain_dpid "system" 1 100 2 1 2 (Some "2"%string)
          None true 5 None count_serialno ["1"; "2"; "3"]%string with
  | Ok self => mirror_invariant self
  | Raise _ => False
  end.
Proof.
  destruct (build int_of_decimal plain_dpid "system" 1 100 2 1 2
              (Some "2"%string) None true 5 None count_serialno
              ["1"; "2"; "3"]%string) as [self|e] eqn:E.
  - apply (build_mirror_invariant int_of_decimal plain_dpid "system" 1 100 2
             1 2 (Some "2"%string) None true 5 None count_serialno
             ["1"; "2"; "3"]%string self).
    + apply (bool_decide_unpack _). vm_compute. exact I.
    + split.
      * intros k Hk. unfold count_serialno. simpl in Hk. lia.
      * intros j k _ _ H. unfold count_serialno in H. lia.
    + exact E.
  - vm_compute in E. discriminate.
Defined.

(** With a dpid given twice the invariant is lost: [dpid_names] keeps
    only the last switch of that dpid, so the link of the first switch
    to the second has no mirror record where the dpid points. *)
Lemma build_mirror_duplicate_dpids :
  exists self,
    build int_of_decimal plain_dpid "system" 0 100 2 1 1 None None false 5
      None count_serialno ["1"; "1"; "1"]%string = Ok self /\
    ~ mirror_invariant self.
Proof.
  eexists. split; [vm_compute; reflexivity|].
  intros HM.
  destruct (HM "s00"%string "1"%string [mk_peer_link 7 "1" 7]
              (mk_peer_link 7 "1" 7)) as (B & l' & HB & Hl & Hin).
  - vm_compute. reflexivity.
  - vm_compute. reflexivity.
  - apply list_elem_of_here.
  - vm_compute in HB. injection HB as <-.
    vm_compute in Hl. injection Hl as <-.
    apply elem_of_cons in Hin as [Hin|Hin]; [discriminate|inversion Hin].
Qed.

(** ** The link builders, run *)

Lemma order_port_run (st : topo) (i : nat) :
  (i < length (port_order st))%nat ->
  order_port (Z.of_nat i) st = Ok (port_at st i, st).
Proof.
  intros Hi. unfold order_port, bind, get, lift, ret, port_at.
  destruct (py_index_nonneg (port_order st) (Z.of_nat i)) as (x & Hx & Hr);
    [lia|].
  rewrite Nat2Z.id in Hx. rewrite Hr, Hx. reflexivity.
Qed.

Lemma ports_range_frame (st st' : topo) (i n : nat) :
  start_port st' = start_port st -> port_order st' = port_order st ->
  ports_range st' i n = ports_range st i n.
Proof.
  intros H1 H2. unfold ports_range, port_at. rewrite H1, H2. reflexivity.
Qed.

Lemma ports_range_S (st : topo) (i n : nat) :
  ports_range st i (S n) = port_at st i :: ports_range st (S i) n.
Proof. reflexivity. Qed.

Lemma ports_range_app (st : topo) (i n m : nat) :
  ports_range st i (n + m) = ports_range st i n ++ ports_range st (i + n) m.
Proof. unfold ports_range. rewrite seq_app, map_app. reflexivity. Qed.

Lemma ports_range_length (st : topo) (i n : nat) :
  length (ports_range st i n) = n.
Proof. unfold ports_range. rewrite length_map, length_seq. reflexivity. Qed.

Lemma py_setdefault_present {V} (d : gmap string (list V)) (k : string)
  (l : list V) :
  d !! k = Some l -> py_setdefault d k [] = d.
Proof. intros H. unfold py_setdefault. rewrite H. reflexivity. Qed.

Lemma py_setdefault_lookup {V} (d : gmap string (list V)) (k : string) :
  py_setdefault d k [] !! k = Some (default [] (d !! k)).
Proof.
  unfold py_setdefault. destruct (d !! k) as [l|] eqn:E; simpl.
  - exact E.
  - apply lookup_insert_eq.
Qed.

Lemma py_setdefault_other {V} (d : gmap string (list V)) (k n : string) :
  n <> k -> py_setdefault d k [] !! n = d !! n.
Proof.
  intros Hne. unfold py_setdefault. destruct (d !! k); [reflexivity|].
  apply lookup_insert_ne. congruence.
Qed.

Lemma append_port_run (sw : string) (p : Z) (st : topo) (l : list Z) :
  switch_ports st !! sw = Some l ->
  append_port sw p st
  = Ok (tt, set_switch_ports (fun _ => <[sw := l ++ [p]]> (switch_ports st)) st).
Proof.
  intros H. unfold append_port, py_append_at, py_getitem. rewrite H.
  reflexivity.
Qed.

Lemma append_peer_link_run (sw : string) (r : peer_link) (st : topo)
  (l : list peer_link) :
  switch_peer_links st !! sw = Some l ->
  append_peer_link sw r st
  = Ok (tt, set_switch_peer_links
              (fun _ => <[sw := l ++ [r]]> (switch_peer_links st)) st).
Proof.
  intros H. unfold append_peer_link, py_append_at, py_getitem. rewrite H.
  reflexivity.
Qed.

Lemma bind_run {A B} (m : M A) (k : A -> M B) (st st1 : topo) (a : A) :
  m st = Ok (a, st1) -> bind m k st = k a st1.
Proof. intros H. unfold bind. rewrite H. reflexivity. Qed.

Lemma bind_modify {B} (f : topo -> topo) (k : unit -> M B) (st : topo) :
  bind (modify f) k st = k tt (f st).
Proof. reflexivity. Qed.

Lemma bind_lift {A B} (r : result A) (k : A -> M B) (st : topo) (a : A) :
  r = Ok a -> bind (lift r) k st = k a st.
Proof. intros ->. reflexivity. Qed.

Lemma bind_get {B} (k : topo -> M B) (st : topo) :
  bind get k st = k st st.
Proof. reflexivity. Qed.

Lemma _add_links_inner (sw host : string) (n : nat) :
  forall (i : nat) (st : topo) (ps : list Z),
  switch_ports st !! sw = Some ps ->
  (i + n <= length (port_order st))%nat ->
  exists st',
    repeat_n n
      (fun index =>
         let* port := order_port index in
         modify (add_link (mk_link sw host port None)) ;;
         modify (set_switch_ports (fun d => py_setdefault d sw [])) ;;
         append_port sw port ;;
         ret (index + 1)) (Z.of_nat i) st
    = Ok (Z.of_nat (i + n), st') /\
    unchanged_but_ports st st' /\
    switch_ports st' = <[sw := ps ++ ports_range st i n]> (switch_ports st).
Proof.
  induction n as [|n IH]; intros i st ps Hps Hlen.
  - exists st. simpl. unfold ret. rewrite Nat.add_0_r.
    split; [reflexivity|]. split; [apply unchanged_but_ports_refl|].
    unfold ports_range. simpl. rewrite app_nil_r.
    symmetry. apply insert_id. exact Hps.
  - simpl.
    erewrite bind_run; [|erewrite bind_run; [|apply order_port_run; lia]].
    2:{ rewrite !bind_modify. erewrite bind_run; [reflexivity|].
        apply (append_port_run sw _ _ ps). simpl.
        rewrite (py_setdefault_present _ _ ps); exact Hps. }
    replace (Z.of_nat i + 1) with (Z.of_nat (S i)) by lia.
    match goal with
    | |- context [repeat_n n _ (Z.of_nat (S i)) ?s] => set (st1 := s)
    end.
    destruct (IH (S i) st1 (ps ++ [port_at st i])) as (st' & Hrun & Hfr & Hp).
    { subst st1. simpl. apply lookup_insert_eq. }
    { subst st1. simpl. lia. }
    exists st'. rewrite Hrun. split; [f_equal; f_equal; lia|].
    split.
    { clear - Hfr. subst st1. destruct st. unfold unchanged_but_ports in *.
      simpl in *. intuition. }
    rewrite Hp. subst st1. simpl.
    rewrite (py_setdefault_present _ _ ps) by exact Hps.
    rewrite insert_insert_eq.
    rewrite (ports_range_frame _ st) by reflexivity.
    rewrite ports_range_S, <- app_assoc.
    simpl. reflexivity.
Qed.

Lemma unchanged_but_ports_trans (a b c : topo) :
  unchanged_but_ports a b -> unchanged_but_ports b c ->
  unchanged_but_ports a c.
Proof. frame_solve. Qed.

Lemma unchanged_names_trans (a b c : topo) :
  unchanged_names a b -> unchanged_names b c -> unchanged_names a c.
Proof. frame_solve. Qed.

Lemma _add_links_outer (sw : string) (L : Z) (hosts : list string) :
  forall (i : nat) (st : topo) (ps : list Z),
  switch_ports st !! sw = Some ps ->
  (i + length hosts * Z.to_nat L <= length (port_order st))%nat ->
  exists st',
    for_each hosts (fun host index =>
      for_range L (fun index =>
        let* port := order_port index in
        modify (add_link (mk_link sw host port None)) ;;
        modify (set_switch_ports (fun d => py_setdefault d sw [])) ;;
        append_port sw port ;;
        ret (index + 1)) index) (Z.of_nat i) st
    = Ok (Z.of_nat (i + length hosts * Z.to_nat L), st') /\
    unchanged_but_ports st st' /\
    switch_ports st'
    = <[sw := ps ++ ports_range st i (length hosts * Z.to_nat L)]>
        (switch_ports st).
Proof.
  induction hosts as [|host hosts IH]; intros i st ps Hps Hlen.
  - exists st. simpl. unfold ret. rewrite Nat.add_0_r.
    split; [reflexivity|]. split; [apply unchanged_but_ports_refl|].
    unfold ports_range. simpl. rewrite app_nil_r.
    symmetry. apply insert_id. exact Hps.
  - simpl in Hlen. simpl for_each. unfold for_range at 1.
    destruct (_add_links_inner sw host (Z.to_nat L) i st ps Hps)
      as (st1 & Hrun1 & Hfr1 & Hp1); [lia|].
    erewrite bind_run by exact Hrun1.
    assert (Hpo : port_order st1 = port_order st) by (clear - Hfr1; frame_solve).
    assert (Hsp : start_port st1 = start_port st) by (clear - Hfr1; frame_solve).
    destruct (IH (i + Z.to_nat L)%nat st1 (ps ++ ports_range st i (Z.to_nat L)))
      as (st' & Hrun & Hfr & Hp).
    { rewrite Hp1. apply lookup_insert_eq. }
    { rewrite Hpo. lia. }
    exists st'. rewrite Hrun. split; [simpl; f_equal; f_equal; lia|].
    split; [eapply unchanged_but_ports_trans; eassumption|].
    rewrite Hp, Hp1, insert_insert_eq.
    rewrite (ports_range_frame st st1) by assumption.
    simpl length. simpl Nat.mul. rewrite ports_range_app, app_assoc.
    reflexivity.
Qed.

(** [_add_links] run to the end: it returns the number of ports it used
    and extends the switch's port list by that many ports of the port
    order, provided the port order is long enough. *)
Lemma _add_links_run (sw : string) (hosts : list string) (L : Z)
  (st : topo) :
  (length hosts * Z.to_nat L <= length (port_order st))%nat ->
  exists st',
    _add_links sw hosts L st
    = Ok (Z.of_nat (length hosts * Z.to_nat L), st') /\
    unchanged_but_ports st st' /\
    switch_ports st'
    = <[sw := default [] (switch_ports st !! sw)
              ++ ports_range st 0 (length hosts * Z.to_nat L)]>
        (switch_ports st).
Proof.
  intros Hlen. unfold _add_links. rewrite bind_modify.
  set (st0 := set_switch_ports (fun d => py_setdefault d sw []) st).
  destruct (_add_links_outer sw L hosts 0 st0
              (default [] (switch_ports st !! sw)))
    as (st' & Hrun & Hfr & Hp).
  { subst st0. simpl. apply py_setdefault_lookup. }
  { subst st0. simpl. exact Hlen. }
  exists st'. change 0 with (Z.of_nat 0). rewrite Hrun.
  split; [reflexivity|]. split.
  { clear - Hfr. subst st0. destruct st. unfold unchanged_but_ports in *.
    simpl in *. intuition. }
  rewrite Hp. subst st0. simpl.
  rewrite (ports_range_frame _ st) by reflexivity.
  unfold py_setdefault. destruct (switch_ports st !! sw) eqn:E;
    [reflexivity|]. apply insert_insert_eq.
Qed.

Lemma link_group_frame (st st' : topo) (a b : nat) (d : string) (k : nat) :
  start_port st' = start_port st -> port_order st' = port_order st ->
  link_group st' a b d k = link_group st a b d k.
Proof.
  intros H1 H2. unfold link_group, port_at. rewrite H1, H2. reflexivity.
Qed.

Lemma link_group_S (st : topo) (a b : nat) (d : string) (k : nat) :
  link_group st a b d (S k)
  = mk_peer_link (port_at st a) d (port_at st b)
    :: link_group st (S a) (S b) d k.
Proof.
  unfold link_group. simpl. rewrite !Nat.add_0_r. f_equal.
  rewrite <- seq_shift, map_map. apply map_ext. intros i.
  rewrite !Nat.add_succ_r. reflexivity.
Qed.

Lemma link_group_length (st : topo) (a b : nat) (d : string) (k : nat) :
  length (link_group st a b d k) = k.
Proof. unfold link_group. rewrite length_map, length_seq. reflexivity. Qed.

Lemma link_group_peer (st : topo) (a b : nat) (d : string) (k : nat)
  (r : peer_link) :
  In r (link_group st a b d k) -> peer_dpid r = d.
Proof.
  unfold link_group. rewrite in_map_iff. intros (i & <- & _). reflexivity.
Qed.

Lemma py_incr_run (d : gmap string Z) (k : string) (v : nat) :
  d !! k = Some (Z.of_nat v) ->
  py_incr d k = Ok (<[k := Z.of_nat (S v)]> d).
Proof.
  intros H. unfold py_incr, py_getitem. rewrite H. simpl.
  do 2 f_equal. lia.
Qed.

Lemma py_getitem_run {V} (d : gmap string V) (k : string) (v : V) :
  d !! k = Some v -> py_getitem d k = Ok v.
Proof. intros H. unfold py_getitem. rewrite H. reflexivity. Qed.

(** One iteration of the loop of [addLinks], between two different
    switches. *)
Lemma addLinks_body_run (src dst d1 d2 : string) (a b : nat)
  (ni : gmap string Z) (st : topo) (ps pd : list Z) (l1 l2 : list peer_link) :
  src <> dst ->
  ni !! src = Some (Z.of_nat a) -> ni !! dst = Some (Z.of_nat b) ->
  switch_ports st !! src = Some ps -> switch_ports st !! dst = Some pd ->
  switch_peer_links st !! src = Some l1 ->
  switch_peer_links st !! dst = Some l2 ->
  (a < length (port_order st))%nat -> (b < length (port_order st))%nat ->
  exists st1,
    (let* index1 := lift (py_getitem ni src) in
     let* index2 := lift (py_getitem ni dst) in
     let* port1 := order_port index1 in
     let* port2 := order_port index2 in
     modify (add_link (mk_link src dst port1 (Some port2))) ;;
     append_port src port1 ;;
     append_port dst port2 ;;
     append_peer_link src (mk_peer_link port1 d2 port2) ;;
     append_peer_link dst (mk_peer_link port2 d1 port1) ;;
     let* next_index := lift (py_incr ni src) in
     let* next_index := lift (py_incr next_index dst) in
     ret next_index) st
    = Ok (<[dst := Z.of_nat (S b)]> (<[src := Z.of_nat (S a)]> ni), st1) /\
    unchanged_names st st1 /\
    switch_ports st1
    = <[dst := pd ++ [port_at st b]]>
        (<[src := ps ++ [port_at st a]]> (switch_ports st)) /\
    switch_peer_links st1
    = <[dst := l2 ++ [mk_peer_link (port_at st b) d1 (port_at st a)]]>
        (<[src := l1 ++ [mk_peer_link (port_at st a) d2 (port_at st b)]]>
           (switch_peer_links st)).
Proof.
  intros Hne Ha Hb Hps Hpd Hl1 Hl2 Hla Hlb.
  erewrite bind_lift by (apply py_getitem_run; exact Ha).
  erewrite bind_lift by (apply py_getitem_run; exact Hb).
  erewrite bind_run by (apply order_port_run; exact Hla).
  erewrite bind_run by (apply order_port_run; exact Hlb).
  rewrite bind_modify.
  erewrite bind_run by (apply (append_port_run src _ _ ps); exact Hps).
  erewrite bind_run.
  2:{ apply (append_port_run dst _ _ pd). simpl.
      rewrite lookup_insert_ne by congruence. exact Hpd. }
  erewrite bind_run by (apply (append_peer_link_run src _ _ l1); exact Hl1).
  erewrite bind_run.
  2:{ apply (append_peer_link_run dst _ _ l2). simpl.
      rewrite lookup_insert_ne by congruence. exact Hl2. }
  erewrite bind_lift by (apply py_incr_run; exact Ha).
  erewrite bind_lift.
  2:{ apply py_incr_run. rewrite lookup_insert_ne by congruence. exact Hb. }
  unfold ret. eexists. split; [reflexivity|].
  split; [destruct st; unfold unchanged_names; simpl; intuition|].
  split; reflexivity.
Qed.

Lemma addLinks_inner (src dst d1 d2 : string) (Hne : src <> dst) (k : nat) :
  forall (a b : nat) (ni : gmap string Z) (st : topo)
    (ps pd : list Z) (l1 l2 : list peer_link),
  ni !! src = Some (Z.of_nat a) -> ni !! dst = Some (Z.of_nat b) ->
  switch_ports st !! src = Some ps -> switch_ports st !! dst = Some pd ->
  switch_peer_links st !! src = Some l1 ->
  switch_peer_links st !! dst = Some l2 ->
  (a + k <= length (port_order st))%nat ->
  (b + k <= length (port_order st))%nat ->
  exists ni' st',
    repeat_n k (fun next_index =>
      let* index1 := lift (py_getitem next_index src) in
      let* index2 := lift (py_getitem next_index dst) in
      let* port1 := order_port index1 in
      let* port2 := order_port index2 in
      modify (add_link (mk_link src dst port1 (Some port2))) ;;
      append_port src port1 ;;
      append_port dst port2 ;;
      append_peer_link src (mk_peer_link port1 d2 port2) ;;
      append_peer_link dst (mk_peer_link port2 d1 port1) ;;
      let* next_index := lift (py_incr next_index src) in
      let* next_index := lift (py_incr next_index dst) in
      ret next_index) ni st
    = Ok (ni', st') /\
    linked src dst d1 d2 a b k ni st ni' st'.
Proof.
  induction k as [|k IH]; intros a b ni st ps pd l1 l2
    Ha Hb Hps Hpd Hl1 Hl2 Hla Hlb.
  - exists ni, st. split; [reflexivity|]. unfold linked.
    rewrite !Nat.add_0_r, Ha, Hb, Hps, Hpd, Hl1, Hl2. simpl.
    unfold ports_range, link_group. simpl. rewrite !app_nil_r.
    split; [apply unchanged_names_refl|]. intuition.
  - destruct (addLinks_body_run src dst d1 d2 a b ni st ps pd l1 l2)
      as (st1 & Hrun1 & Hfr1 & Hp1 & Hq1); try assumption; try lia.
    assert (Hpo : port_order st1 = port_order st) by (clear - Hfr1; frame_solve).
    assert (Hsp : start_port st1 = start_port st) by (clear - Hfr1; frame_solve).
    edestruct (IH (S a) (S b)
                 (<[dst := Z.of_nat (S b)]> (<[src := Z.of_nat (S a)]> ni))
                 st1) as (ni' & st' & Hrun & Hlk).
    { rewrite lookup_insert_ne by congruence. apply lookup_insert_eq. }
    { apply lookup_insert_eq. }
    { rewrite Hp1, lookup_insert_ne by congruence. apply lookup_insert_eq. }
    { rewrite Hp1. apply lookup_insert_eq. }
    { rewrite Hq1, lookup_insert_ne by congruence. apply lookup_insert_eq. }
    { rewrite Hq1. apply lookup_insert_eq. }
    { rewrite Hpo. lia. }
    { rewrite Hpo. lia. }
    exists ni', st'. simpl repeat_n. erewrite bind_run by exact Hrun1.
    split; [exact Hrun|].
    destruct Hlk as (Hfr & Hn1 & Hn2 & Hn3 & Hs1 & Hs2 & Hs3 & Hr1 & Hr2 & Hr3).
    unfold linked. rewrite Hps, Hpd, Hl1, Hl2. simpl.
    split; [eapply unchanged_names_trans; eassumption|].
    split; [rewrite Hn1; do 2 f_equal; lia|].
    split; [rewrite Hn2; do 2 f_equal; lia|].
    split.
    { intros n H1 H2. rewrite Hn3 by assumption.
      rewrite !lookup_insert_ne by congruence. reflexivity. }
    split.
    { rewrite Hs1, Hp1, lookup_insert_ne by congruence.
      rewrite lookup_insert_eq. simpl.
      rewrite (ports_range_frame st st1) by assumption.
      rewrite ports_range_S, <- app_assoc. reflexivity. }
    split.
    { rewrite Hs2, Hp1, lookup_insert_eq. simpl.
      rewrite (ports_range_frame st st1) by assumption.
      rewrite ports_range_S, <- app_assoc. reflexivity. }
    split.
    { intros n H1 H2. rewrite Hs3 by assumption. rewrite Hp1.
      rewrite !lookup_insert_ne by congruence. reflexivity. }
    split.
    { rewrite Hr1, Hq1, lookup_insert_ne by congruence.
      rewrite lookup_insert_eq. simpl.
      rewrite (link_group_frame st st1) by assumption.
      rewrite link_group_S, <- app_assoc. reflexivity. }
    split.
    { rewrite Hr2, Hq1, lookup_insert_eq. simpl.
      rewrite (link_group_frame st st1) by assumption.
      rewrite link_group_S, <- app_assoc. reflexivity. }
    intros n H1 H2. rewrite Hr3 by assumption. rewrite Hq1.
    rewrite !lookup_insert_ne by congruence. reflexivity.
Qed.

(** [addLinks] between two different switches, run to the end. *)
Lemma addLinks_run (src dst d1 d2 : string) (a b : nat)
  (ni : gmap string Z) (st : topo) (ps pd : list Z) :
  src <> dst ->
  switch_dpids st !! src = Some d1 -> switch_dpids st !! dst = Some d2 ->
  ni !! src = Some (Z.of_nat a) -> ni !! dst = Some (Z.of_nat b) ->
  switch_ports st !! src = Some ps -> switch_ports st !! dst = Some pd ->
  (a + Z.to_nat (switch_to_switch_links st) <= length (port_order st))%nat ->
  (b + Z.to_nat (switch_to_switch_links st) <= length (port_order st))%nat ->
  exists ni' st',
    addLinks src dst ni st = Ok (ni', st') /\
    linked src dst d1 d2 a b (Z.to_nat (switch_to_switch_links st))
      ni st ni' st'.
Proof.
  intros Hne Hd1 Hd2 Ha Hb Hps Hpd Hla Hlb.
  unfold addLinks. rewrite !bind_modify, bind_get.
  set (st0 := set_switch_peer_links (fun d => py_setdefault d dst [])
                (set_switch_peer_links (fun d => py_setdefault d src []) st)).
  assert (E1 : switch_dpids st0 = switch_dpids st) by reflexivity.
  assert (E2 : switch_ports st0 = switch_ports st) by reflexivity.
  assert (E3 : port_order st0 = port_order st) by reflexivity.
  assert (E4 : switch_to_switch_links st0 = switch_to_switch_links st)
    by reflexivity.
  assert (E5 : start_port st0 = start_port st) by reflexivity.
  assert (E6 : switch_peer_links st0
               = py_setdefault (py_setdefault (switch_peer_links st) src [])
                   dst []) by reflexivity.
  assert (Hfr0 : unchanged_names st st0).
  { subst st0. destruct st. unfold unchanged_names. simpl. intuition. }
  erewrite bind_lift by (apply py_getitem_run; rewrite E1; exact Hd1).
  erewrite bind_lift by (apply py_getitem_run; rewrite E1; exact Hd2).
  unfold for_range. rewrite E4.
  edestruct (addLinks_inner src dst d1 d2 Hne
               (Z.to_nat (switch_to_switch_links st)) a b ni st0 ps pd)
    as (ni' & st' & Hrun & Hlk); try eassumption.
  { rewrite E6, py_setdefault_other by congruence.
    apply py_setdefault_lookup. }
  { rewrite E6. apply py_setdefault_lookup. }
  exists ni', st'. split; [exact Hrun|].
  destruct Hlk as (Hfr & Hn1 & Hn2 & Hn3 & Hs1 & Hs2 & Hs3 & Hr1 & Hr2 & Hr3).
  unfold linked.
  rewrite (ports_range_frame st st0) in Hs1, Hs2 by assumption.
  rewrite (link_group_frame st st0) in Hr1, Hr2 by assumption.
  rewrite E2 in Hs1, Hs2. rewrite E6 in Hr1, Hr2.
  rewrite py_setdefault_other, py_setdefault_lookup in Hr1 by congruence.
  rewrite py_setdefault_lookup, py_setdefault_other in Hr2 by congruence.
  simpl in Hr1, Hr2.
  split; [exact (unchanged_names_trans _ _ _ Hfr0 Hfr)|].
  repeat (split; [assumption|]).
  intros n H1 H2. rewrite Hr3 by assumption. rewrite E6.
  rewrite !py_setdefault_other by congruence. reflexivity.
Qed.

(** ** The main loop of [build], run *)

Lemma extend_port_order_length_ge (seed : option (list Z)) (n : Z) :
  n + 1 <= Z.of_nat (length (extend_port_order seed n)).
Proof.
  rewrite extend_port_order_unfold, length_app.
  unfold py_range. rewrite length_seqZ. lia.
Qed.

Lemma chain_degree_old (i j : nat) :
  (j + 1 < i)%nat -> chain_degree (S i) j = chain_degree i j.
Proof.
  intros H. unfold chain_degree.
  destruct (Nat.ltb_spec (j + 1) (S i)), (Nat.ltb_spec (j + 1) i); lia.
Qed.

Lemma chain_degree_last (i : nat) :
  chain_degree (S i) i = if (0 <? i)%nat then 1%nat else 0%nat.
Proof.
  unfold chain_degree.
  destruct (Nat.ltb_spec (i + 1) (S i)), (Nat.ltb_spec 0 i); lia.
Qed.

Lemma chain_degree_prev (i : nat) :
  chain_degree (S (S i)) i = S (chain_degree (S i) i).
Proof.
  unfold chain_degree.
  destruct (Nat.ltb_spec (i + 1) (S (S i))), (Nat.ltb_spec (i + 1) (S i)),
    (Nat.ltb_spec 0 i); lia.
Qed.

Lemma chain_degree_le (i j : nat) : (chain_degree i j <= 2)%nat.
Proof.
  unfold chain_degree.
  destruct (Nat.ltb_spec 0 j), (Nat.ltb_spec (j + 1) i); lia.
Qed.

Lemma chain_peers_old (st0 : topo) (ds : list string) (h k i j : nat) :
  (j + 1 < i)%nat ->
  chain_peers st0 ds h k (S i) j = chain_peers st0 ds h k i j.
Proof.
  intros H. unfold chain_peers.
  destruct (Nat.ltb_spec (j + 1) (S i)), (Nat.ltb_spec (j + 1) i);
    try lia; reflexivity.
Qed.

Lemma chain_peers_prev (st0 : topo) (ds : list string) (h k i : nat)
  (d : string) :
  ds !! S i = Some d ->
  chain_peers st0 ds h k (S (S i)) i
  = chain_peers st0 ds h k (S i) i
    ++ link_group st0 (h + k * chain_degree (S i) i) h d k.
Proof.
  intros Hd. unfold chain_peers. rewrite chain_degree_last.
  destruct (Nat.ltb_spec (i + 1) (S (S i))), (Nat.ltb_spec (i + 1) (S i));
    try lia.
  replace (i + 1)%nat with (S i) by lia. rewrite Hd. simpl.
  rewrite app_nil_r. reflexivity.
Qed.

Lemma chain_peers_new (st0 : topo) (ds : list string) (h k i : nat)
  (d : string) :
  ds !! i = Some d ->
  chain_peers st0 ds h k (S (S i)) (S i)
  = link_group st0 h (h + k * chain_degree (S i) i) d k.
Proof.
  intros Hd. unfold chain_peers. rewrite chain_degree_last.
  destruct (Nat.ltb_spec (S i + 1) (S (S i))); try lia.
  replace (S i - 1)%nat with i by lia. rewrite Hd. simpl.
  rewrite app_nil_r. reflexivity.
Qed.

Lemma chain_peers_single (st0 : topo) (ds : list string) (h k : nat) :
  chain_peers st0 ds h k 1 0 = [].
Proof. reflexivity. Qed.

Lemma _add_faucet_switch_run
  (py_int : string -> result Z) (mininet_dpid : string -> result string)
  (p dpid : string) (hw : option string) (ovs_type : string) (st : topo) :
  is_ok (switch_datapath py_int mininet_dpid hw dpid) = true ->
  exists nd,
    _add_faucet_switch py_int mininet_dpid p dpid hw ovs_type st
    = Ok (("s" ++ p)%string,
          add_node nd
            (set_dpid_names <[dpid := ("s" ++ p)%string]>
               (set_switch_dpids <[("s" ++ p)%string := dpid]> st))).
Proof.
  unfold switch_datapath, _add_faucet_switch, bind, modify, ret, lift.
  destruct (truthy hw && bool_decide (hw = Some dpid)).
  - destruct (py_int dpid) as [n|e]; [|discriminate]. simpl.
    destruct (mininet_dpid (py_str (n + 1))) as [md|e]; [|discriminate].
    eauto.
  - destruct (mininet_dpid dpid) as [md|e]; [|discriminate]. eauto.
Qed.

Lemma ports_range_app0 (st : topo) (n m : nat) :
  ports_range st 0 n ++ ports_range st n m = ports_range st 0 (n + m).
Proof. exact (eq_sym (ports_range_app st 0 n m)). Qed.

Section BuildRun.

Variable py_int : string -> result Z.
Variable mininet_dpid : string -> result string.
Variable ovs_type : string.
Variables n_tagged tagged_vid n_untagged : Z.
Variables links_per_host switch_to_switch_links_arg : Z.
Variable hw_dpid_arg : option string.
Variable switch_map : option (gmap Z string).
Variable start_port_arg : Z.
Variable port_order_arg : option (list Z).
Variable get_serialno : nat -> Z.
Variable ds : list string.

Hypothesis Htagged : 0 <= n_tagged.
Hypothesis Huntagged : 0 <= n_untagged.
Hypothesis Hlinks : 0 <= links_per_host.
Hypothesis Hpeers : 0 <= switch_to_switch_links_arg.
Hypothesis Hserials : serials_ok get_serialno (length ds).
Hypothesis Hfactory :
  forall d, d ∈ ds ->
    is_ok (switch_datapath py_int mininet_dpid hw_dpid_arg d) = true.

Let h : nat :=
  ((Z.to_nat n_tagged + Z.to_nat n_untagged) * Z.to_nat links_per_host)%nat.
Let k : nat := Z.to_nat switch_to_switch_links_arg.
Let st0 : topo :=
  build_init n_tagged n_untagged links_per_host switch_to_switch_links_arg
    hw_dpid_arg switch_map start_port_arg port_order_arg.
Local Abbreviation nm j := (switch_name (get_serialno j)).
Let body : string -> loop_state -> M loop_state :=
  build_switch py_int mininet_dpid ovs_type n_tagged tagged_vid n_untagged
    links_per_host hw_dpid_arg get_serialno.

Lemma port_order_long : (h + 2 * k <= length (port_order st0))%nat.
Proof.
  subst st0 h k. unfold build_init. simpl.
  pose proof (extend_port_order_length_ge port_order_arg
                ((n_tagged + n_untagged) * links_per_host
                 + 2 * switch_to_switch_links_arg)) as Hge.
  nia.
Qed.

Lemma nm_inj (i j : nat) :
  (i < length ds)%nat -> (j < length ds)%nat -> nm i = nm j -> i = j.
Proof. intros Hi Hj. apply (serials_ok_names _ _ _ _ Hserials Hi Hj). Qed.

Lemma build_switch_run (i : nat) (d : string) (ls : loop_state)
  (st : topo) :
  ds !! i = Some d ->
  chain_shape get_serialno ds st0 h k i ls st ->
  exists ls' st',
    body d ls st = Ok (ls', st') /\
    chain_shape get_serialno ds st0 h k (S i) ls' st'.
Proof.
  intros Hd (Hcalls & Hfirst & Hlast & Hctx & Hsw & Hfresh).
  pose proof (lookup_lt_Some _ _ _ Hd) as Hi.
  pose proof port_order_long as Hlong.
  destruct Hctx as (Cx1 & Cx2 & Cx3 & Cx4 & Cx5).
  destruct (switch_name_ok (get_serialno i)) as (p & Hp & Hname).
  { apply Hserials. exact Hi. }
  subst body. unfold build_switch. rewrite Hcalls.
  erewrite bind_lift by exact Hp.
  erewrite bind_run by apply map_M_tagged.
  erewrite bind_run by apply map_M_untagged.
  match goal with
  | |- context [bind (_add_faucet_switch _ _ _ _ _ _) _ ?s] =>
      destruct (_add_faucet_switch_run py_int mininet_dpid p d hw_dpid_arg
                  ovs_type s) as (nd & Hsrun)
  end.
  { apply Hfactory. eapply list_elem_of_lookup_2. exact Hd. }
  erewrite bind_run by exact Hsrun. clear Hsrun.
  rewrite <- Hname.
  match goal with
  | |- context [bind (_add_links _ ?hs _) _ ?s] =>
      set (hosts := hs); set (st2 := s)
  end.
  assert (Hhosts : (length hosts * Z.to_nat links_per_host)%nat = h).
  { subst hosts h. rewrite length_app, !length_map. unfold py_range.
    rewrite !length_seqZ, !Z.sub_0_r. reflexivity. }
  assert (D2 : switch_dpids st2 = <[nm i := d]> (switch_dpids st))
    by reflexivity.
  assert (P2 : switch_ports st2 = switch_ports st) by reflexivity.
  assert (Q2 : switch_peer_links st2 = switch_peer_links st) by reflexivity.
  assert (O2 : port_order st2 = port_order st) by reflexivity.
  assert (S2 : start_port st2 = start_port st) by reflexivity.
  assert (K2 : switch_to_switch_links st2 = switch_to_switch_links st)
    by reflexivity.
  assert (W2 : hw_dpid st2 = hw_dpid st) by reflexivity.
  assert (V2 : hw_ports st2 = hw_ports st) by reflexivity.
  assert (Hnew : forall j, (j < i)%nat -> nm i <> nm j).
  { intros j Hj E. apply nm_inj in E; lia. }
  destruct (Hfresh (nm i) Hnew) as (Fp & Fq).
  destruct (_add_links_run (nm i) hosts links_per_host st2)
    as (st3 & Hal & Hfr3 & Hp3).
  { rewrite Hhosts, O2, Cx4. lia. }
  rewrite Hhosts in Hal, Hp3.
  erewrite bind_run by exact Hal. clear Hal.
  rewrite P2, Fp in Hp3. simpl in Hp3.
  rewrite (ports_range_frame st0 st2) in Hp3 by congruence.
  destruct Hfr3 as (_ & D3 & Q3 & _ & W3 & V3 & S3 & O3 & K3).
  rewrite D2 in D3. rewrite Q2 in Q3.
  assert (Hctx3 : same_context st0 st3)
    by (unfold same_context; repeat split; congruence).
  clearbody st2. clear D2 P2 Q2 hosts Hhosts.
  rewrite Hfirst. destruct i as [|i].
  - (* the first switch *)
    unfold ret. eexists _, st3. split; [reflexivity|].
    unfold chain_shape. cbv zeta beta. simpl.
    split; [reflexivity|]. split; [reflexivity|]. split; [reflexivity|].
    split; [exact Hctx3|]. split.
    + intros j Hj. assert (j = 0%nat) as -> by lia.
      rewrite Hp3, D3, Q3, !lookup_insert_eq, Fq.
      unfold chain_degree. simpl. rewrite Nat.mul_0_r, Nat.add_0_r.
      rewrite Hd. auto.
    + intros n Hn. specialize (Hn 0%nat ltac:(lia)).
      rewrite Hp3, Q3, lookup_insert_ne by congruence.
      apply Hfresh. intros j Hj. lia.
  - (* a further switch, linked to the one before it *)
    rewrite Hlast. replace (S i - 1)%nat with i by lia.
    destruct (Hsw i ltac:(lia)) as (Hpi & Hni & Hdi & Hqi).
    destruct (lookup_lt_is_Some_2 ds i ltac:(lia)) as (d1 & Hd1).
    rewrite Hd1 in Hdi.
    assert (Hne : nm i <> nm (S i)).
    { intros E. apply nm_inj in E; lia. }
    assert (Hdeg : (chain_degree (S i) i <= 1)%nat).
    { rewrite chain_degree_last. destruct (0 <? i)%nat; lia. }
    destruct (addLinks_run (nm i) (nm (S i)) d1 d
                (h + k * chain_degree (S i) i) h
                (<[nm (S i) := Z.of_nat h]> (next_index ls)) st3
                (ports_range st0 0 (h + k * chain_degree (S i) i))
                (ports_range st0 0 h))
      as (ni' & st' & Hrun & Hlk).
    { exact Hne. }
    { rewrite D3, lookup_insert_ne by congruence. exact Hdi. }
    { rewrite D3. apply lookup_insert_eq. }
    { rewrite lookup_insert_ne by congruence. exact Hni. }
    { apply lookup_insert_eq. }
    { rewrite Hp3, lookup_insert_ne by congruence. exact Hpi. }
    { rewrite Hp3. apply lookup_insert_eq. }
    { rewrite K3, K2, Cx5, O3, O2, Cx4.
      change (switch_to_switch_links st0) with switch_to_switch_links_arg.
      fold k. nia. }
    { rewrite K3, K2, Cx5, O3, O2, Cx4.
      change (switch_to_switch_links st0) with switch_to_switch_links_arg.
      fold k. nia. }
    assert (Hk : Z.to_nat (switch_to_switch_links st3) = k).
    { rewrite K3, K2, Cx5. reflexivity. }
    rewrite Hk in Hlk.
    erewrite bind_run by exact Hrun. unfold ret.
    eexists _, st'. split; [reflexivity|].
    destruct Hlk as (Hfr & Hn1 & Hn2 & Hn3 & Hs1 & Hs2 & Hs3 & Hr1 & Hr2 & Hr3).
    rewrite (ports_range_frame st0 st3) in Hs1, Hs2 by congruence.
    rewrite (link_group_frame st0 st3) in Hr1, Hr2 by congruence.
    rewrite Hp3 in Hs1, Hs2. rewrite Q3 in Hr1, Hr2.
    rewrite lookup_insert_ne, Hpi in Hs1 by congruence.
    rewrite lookup_insert_eq in Hs2. rewrite Hqi in Hr1. rewrite Fq in Hr2.
    simpl in Hs1, Hs2, Hr1, Hr2.
    rewrite ports_range_app0 in Hs1, Hs2.
    unfold chain_shape. cbv zeta beta. simpl serial_calls. simpl first_switch.
    simpl last_switch. simpl next_index.
    split; [reflexivity|]. split; [reflexivity|].
    split; [replace (S (S i) - 1)%nat with (S i) by lia; reflexivity|].
    split.
    { destruct Hfr as (_ & _ & _ & W4 & V4 & S4 & O4 & K4).
      unfold same_context in *. repeat split; intuition congruence. }
    split.
    + intros j Hj.
      destruct (decide (j = S i)) as [->|Hj1];
        [|destruct (decide (j = i)) as [->|Hj2]].
      * (* the new switch *)
        rewrite Hs2, Hn2, Hr2.
        destruct Hfr as (_ & D4 & _). rewrite D4, D3, lookup_insert_eq.
        rewrite chain_degree_last. simpl (0 <? S i)%nat. cbv iota.
        rewrite Nat.mul_1_r, (chain_peers_new _ _ _ _ _ _ Hd1), Hd.
        auto.
      * (* the switch before it *)
        rewrite Hs1, Hn1, Hr1.
        destruct Hfr as (_ & D4 & _).
        rewrite D4, D3, lookup_insert_ne, Hdi by congruence.
        rewrite chain_degree_prev, (chain_peers_prev _ _ _ _ _ _ Hd).
        replace (h + k * S (chain_degree (S i) i))%nat
          with (h + k * chain_degree (S i) i + k)%nat by lia.
        split; [reflexivity|]. split; [reflexivity|].
        split; [symmetry; exact Hd1|].
        destruct i; reflexivity.
      * (* the switches further back *)
        assert (Hji : (j + 1 < S i)%nat) by lia.
        assert (j <> i /\ j <> S i) as [E1 E2] by lia.
        assert (nm j <> nm i) by (intros E; apply nm_inj in E; lia).
        assert (nm j <> nm (S i)) by (intros E; apply nm_inj in E; lia).
        destruct (Hsw j ltac:(lia)) as (Hpj & Hnj & Hdj & Hqj).
        rewrite Hs3, Hn3, Hr3 by assumption.
        destruct Hfr as (_ & D4 & _).
        rewrite D4, D3, Hp3, Q3, !lookup_insert_ne by congruence.
        rewrite chain_degree_old, chain_peers_old by assumption.
        rewrite Hpj, Hnj, Hdj, Hqj.
        destruct i as [|i]; [lia|]. auto.
    + intros n Hn.
      assert (n <> nm i) by (apply Hn; lia).
      assert (n <> nm (S i)) by (apply Hn; lia).
      rewrite Hs3, Hr3 by assumption.
      rewrite Hp3, Q3, lookup_insert_ne by congruence.
      apply Hfresh. intros j Hj. apply Hn. lia.
Qed.

Lemma init_shape :
  chain_shape get_serialno ds st0 h k 0 (mk_loop_state None None ∅ O) st0.
Proof.
  unfold chain_shape. cbv zeta beta. simpl.
  split; [reflexivity|]. split; [reflexivity|]. split; [reflexivity|].
  split; [unfold same_context; auto|].
  split; [intros j Hj; lia|].
  intros n _. split; apply lookup_empty.
Qed.

Lemma for_each_run (rest : list string) :
  forall (done : list string) (ls : loop_state) (st : topo),
  ds = done ++ rest ->
  chain_shape get_serialno ds st0 h k (length done) ls st ->
  exists ls' st',
    for_each rest body ls st = Ok (ls', st') /\
    chain_shape get_serialno ds st0 h k (length ds) ls' st'.
Proof.
  induction rest as [|d rest IH]; intros done ls st Hds Hshape.
  - exists ls, st. split; [reflexivity|].
    assert (length ds = length done) as ->
      by (rewrite Hds, app_nil_r; reflexivity).
    exact Hshape.
  - destruct (build_switch_run (length done) d ls st) as (ls1 & st1 & H1 & S1).
    { rewrite Hds. apply list_lookup_middle. reflexivity. }
    { exact Hshape. }
    destruct (IH (done ++ [d]) ls1 st1) as (ls' & st' & Hrun & S').
    { rewrite Hds, <- app_assoc. reflexivity. }
    { rewrite length_app, Nat.add_1_r. exact S1. }
    exists ls', st'. simpl for_each. erewrite bind_run by exact H1.
    split; assumption.
Qed.

(** The main loop of [build] returns, with the tables of a chain. *)
Lemma build_loop_run :
  exists ls st,
    for_each ds body (mk_loop_state None None ∅ O) st0 = Ok (ls, st) /\
    chain_shape get_serialno ds st0 h k (length ds) ls st /\
    (NoDup ds -> inverse_tables (dpid_names st) (switch_dpids st)).
Proof.
  destruct (for_each_run ds [] (mk_loop_state None None ∅ O) st0)
    as (ls & st & Hrun & Hshape); [reflexivity|apply init_shape|].
  exists ls, st. split; [exact Hrun|]. split; [exact Hshape|].
  intros Hnd.
  pose proof (for_each_tables py_int mininet_dpid ovs_type n_tagged
                tagged_vid n_untagged links_per_host hw_dpid_arg
                get_serialno ds [] _ _ _ _ Hrun) as Ht.
  destruct Ht as (_ & Hinv & _).
  - apply build_init_tables.
  - exact Hnd.
  - exact Hserials.
  - exact Hinv.
Qed.

(** A build without the ring returns the chain. *)
Lemma build_chain_run :
  exists ls self,
    build py_int mininet_dpid ovs_type n_tagged tagged_vid n_untagged
      links_per_host switch_to_switch_links_arg hw_dpid_arg switch_map
      false start_port_arg port_order_arg get_serialno ds = Ok self /\
    chain_shape get_serialno ds st0 h k (length ds) ls self /\
    (NoDup ds -> inverse_tables (dpid_names self) (switch_dpids self)).
Proof.
  destruct build_loop_run as (ls & st & Hrun & Hshape & Hinv).
  exists ls, st. split; [|split; assumption].
  unfold build, build_loop. fold st0. fold body.
  erewrite bind_run by exact Hrun. reflexivity.
Qed.

(** A build with the ring returns the chain with one more [addLinks],
    from the first switch to the last. *)
Lemma build_ring_run :
  (2 <= length ds)%nat ->
  exists ls chain ni self d0 dl,
    build py_int mininet_dpid ovs_type n_tagged tagged_vid n_untagged
      links_per_host switch_to_switch_links_arg hw_dpid_arg switch_map
      false start_port_arg port_order_arg get_serialno ds = Ok chain /\
    build py_int mininet_dpid ovs_type n_tagged tagged_vid n_untagged
      links_per_host switch_to_switch_links_arg hw_dpid_arg switch_map
      true start_port_arg port_order_arg get_serialno ds = Ok self /\
    chain_shape get_serialno ds st0 h k (length ds) ls chain /\
    ds !! 0%nat = Some d0 /\ ds !! (length ds - 1)%nat = Some dl /\
    linked (nm 0) (nm (length ds - 1)) d0 dl (h + k) (h + k) k
      (next_index ls) chain ni self /\
    (NoDup ds -> inverse_tables (dpid_names chain) (switch_dpids chain)).
Proof.
  intros HN.
  destruct build_loop_run as (ls & st & Hrun & Hshape & Hinv).
  pose proof Hshape as (Hcalls & Hfirst & Hlast & Hctx & Hsw & Hfresh).
  pose proof port_order_long as Hlong.
  destruct Hctx as (Cx1 & Cx2 & Cx3 & Cx4 & Cx5).
  destruct (lookup_lt_is_Some_2 ds 0 ltac:(lia)) as (d0 & Hd0).
  destruct (lookup_lt_is_Some_2 ds (length ds - 1) ltac:(lia)) as (dl & Hdl).
  destruct (Hsw 0%nat ltac:(lia)) as (Hp0 & Hn0 & Hdp0 & _).
  destruct (Hsw (length ds - 1)%nat ltac:(lia)) as (Hpl & Hnl & Hdpl & _).
  assert (Hdeg0 : chain_degree (length ds) 0 = 1%nat).
  { unfold chain_degree. simpl.
    destruct (Nat.ltb_spec 1 (length ds)); [reflexivity|lia]. }
  assert (Hdegl : chain_degree (length ds) (length ds - 1) = 1%nat).
  { unfold chain_degree.
    destruct (Nat.ltb_spec 0 (length ds - 1)),
      (Nat.ltb_spec (length ds - 1 + 1) (length ds)); lia. }
  rewrite Hdeg0, Nat.mul_1_r in Hp0, Hn0.
  rewrite Hdegl, Nat.mul_1_r in Hpl, Hnl.
  rewrite Hd0 in Hdp0. rewrite Hdl in Hdpl.
  assert (Hk : Z.to_nat (switch_to_switch_links st) = k).
  { rewrite Cx5. reflexivity. }
  destruct (addLinks_run (nm 0) (nm (length ds - 1)) d0 dl (h + k) (h + k)
              (next_index ls) st (ports_range st0 0 (h + k))
              (ports_range st0 0 (h + k)))
    as (ni & st' & Hadd & Hlk); try assumption.
  { intros E. apply nm_inj in E; lia. }
  { rewrite Hk, Cx4. lia. }
  { rewrite Hk, Cx4. lia. }
  rewrite Hk in Hlk.
  exists ls, st, ni, st', d0, dl.
  split.
  { unfold build, build_loop. fold st0. fold body.
    erewrite bind_run by exact Hrun. reflexivity. }
  split.
  { unfold build, build_loop. fold st0. fold body.
    erewrite bind_run by exact Hrun.
    rewrite Hfirst, Hlast. destruct (length ds) as [|n] eqn:En; [lia|].
    replace (S n - 1)%nat with n in * by lia.
    erewrite bind_run by exact Hadd. reflexivity. }
  repeat (split; [assumption|]). exact Hinv.
Qed.

End BuildRun.

(** ** Port counts of a chain *)

(** C6: a chain build (no ring) of N >= 2 switches with no tagged hosts,
    U untagged hosts, L links per host and K switch-to-switch links
    returns, and the port list recorded for the first and for the last
    switch has length U*L + K, that of every switch in between
    U*L + 2K.  The counts are not negative, the serial allocator hands
    out distinct serial numbers in the range of the prefix codec, and
    [int] and [mininet_dpid] accept the dpids. *)
Theorem build_chain_port_counts
  (py_int : string -> result Z) (mininet_dpid : string -> result string)
  (ovs_type : string) (tagged_vid n_untagged links_per_host : Z)
  (switch_to_switch_links_arg : Z) (hw_dpid_arg : option string)
  (switch_map : option (gmap Z string)) (start_port_arg : Z)
  (port_order_arg : option (list Z)) (get_serialno : nat -> Z)
  (dpids : list string) :
  0 <= n_untagged -> 0 <= links_per_host ->
  0 <= switch_to_switch_links_arg ->
  (2 <= length dpids)%nat ->
  serials_ok get_serialno (length dpids) ->
  (forall d, d ∈ dpids ->
     is_ok (switch_datapath py_int mininet_dpid hw_dpid_arg d) = true) ->
  exists self,
    build py_int mininet_dpid ovs_type 0 tagged_vid n_untagged
      links_per_host switch_to_switch_links_arg hw_dpid_arg switch_map
      false start_port_arg port_order_arg get_serialno dpids = Ok self /\
    forall j, (j < length dpids)%nat ->
      exists ports,
        switch_dpids self !! switch_name (get_serialno j) = dpids !! j /\
        switch_ports self !! switch_name (get_serialno j) = Some ports /\
        Z.of_nat (length ports)
        = if (j =? 0)%nat || (j + 1 =? length dpids)%nat
          then n_untagged * links_per_host + switch_to_switch_links_arg
          else n_untagged * links_per_host + 2 * switch_to_switch_links_arg.
Proof.
  intros HU HL HK HN Hser Hfac.
  destruct (build_chain_run py_int mininet_dpid ovs_type 0 tagged_vid
              n_untagged links_per_host switch_to_switch_links_arg
              hw_dpid_arg switch_map start_port_arg port_order_arg
              get_serialno dpids) as (ls & self & Hrun & Hshape & _);
    try assumption; [lia|].
  exists self. split; [exact Hrun|].
  intros j Hj. destruct Hshape as (_ & _ & _ & _ & Hsw & _).
  destruct (Hsw j Hj) as (Hp & _ & Hd & _).
  eexists. split; [exact Hd|]. split; [exact Hp|].
  rewrite ports_range_length. unfold chain_degree.
  destruct (Nat.eqb_spec j 0), (Nat.eqb_spec (j + 1) (length dpids)),
    (Nat.ltb_spec 0 j), (Nat.ltb_spec (j + 1) (length dpids));
    simpl; try lia; nia.
Qed.

Lemma build_chain_port_counts_witness :
  exists self,
    build int_of_decimal plain_dpid "system" 0 100 2 3 2 None None
      false 5 None count_serialno ["1"; "2"; "3"; "4"]%string = Ok self /\
    forall j, (j < 4)%nat ->
      exists ports,
        switch_dpids self !! switch_name (count_serialno j)
        = ["1"; "2"; "3"; "4"]%string !! j /\
        switch_ports self !! switch_name (count_serialno j) = Some ports /\
        Z.of_nat (length ports)
        = if (j =? 0)%nat || (j + 1 =? 4)%nat
          then 2 * 3 + 2 else 2 * 3 + 2 * 2.
Proof.
  apply (build_chain_port_counts int_of_decimal plain_dpid "system" 100 2 3
           2 None None 5 None count_serialno ["1"; "2"; "3"; "4"]%string).
  - lia.
  - lia.
  - lia.
  - simpl. lia.
  - split.
    + intros k Hk. unfold count_serialno. simpl in Hk. lia.
    + intros j k _ _ H. unfold count_serialno in H. lia.
  - intros d _. reflexivity.
Defined.

(** C7: the chain of three switches with two untagged hosts each, one
    link per host, one switch-to-switch link, no ring, start port 5 and
    the default port order: the build returns and records the ports
    5, 6, 7 for the first switch, 5, 6, 7, 8 for the second and 5, 6, 7
    for the third. *)
Theorem build_chain_three
  (py_int : string -> result Z) (mininet_dpid : string -> result string)
  (ovs_type : string) (tagged_vid : Z) (hw_dpid_arg : option string)
  (switch_map : option (gmap Z string)) (get_serialno : nat -> Z)
  (d0 d1 d2 : string) :
  serials_ok get_serialno 3 ->
  (forall d, d ∈ [d0; d1; d2] ->
     is_ok (switch_datapath py_int mininet_dpid hw_dpid_arg d) = true) ->
  exists self,
    build py_int mininet_dpid ovs_type 0 tagged_vid 2 1 1 hw_dpid_arg
      switch_map false 5 None get_serialno [d0; d1; d2] = Ok self /\
    switch_dpids self !! switch_name (get_serialno 0%nat) = Some d0 /\
    switch_dpids self !! switch_name (get_serialno 1%nat) = Some d1 /\
    switch_dpids self !! switch_name (get_serialno 2%nat) = Some d2 /\
    switch_ports self !! switch_name (get_serialno 0%nat) = Some [5; 6; 7] /\
    switch_ports self !! switch_name (get_serialno 1%nat)
      = Some [5; 6; 7; 8] /\
    switch_ports self !! switch_name (get_serialno 2%nat) = Some [5; 6; 7].
Proof.
  intros Hser Hfac.
  destruct (build_chain_run py_int mininet_dpid ovs_type 0 tagged_vid 2 1 1
              hw_dpid_arg switch_map 5 None get_serialno [d0; d1; d2])
    as (ls & self & Hrun & Hshape & _); try assumption; try lia.
  exists self. split; [exact Hrun|].
  destruct Hshape as (_ & _ & _ & _ & Hsw & _).
  destruct (Hsw 0%nat ltac:(simpl; lia)) as (Hp0 & _ & Hd0 & _).
  destruct (Hsw 1%nat ltac:(simpl; lia)) as (Hp1 & _ & Hd1 & _).
  destruct (Hsw 2%nat ltac:(simpl; lia)) as (Hp2 & _ & Hd2 & _).
  repeat split; assumption.
Qed.

Lemma build_chain_three_witness :
  exists self,
    build int_of_decimal plain_dpid "system" 0 100 2 1 1 None None false 5
      None count_serialno ["1"; "2"; "3"]%string = Ok self /\
    switch_dpids self !! switch_name (count_serialno 0%nat) = Some "1"%string /\
    switch_dpids self !! switch_name (count_serialno 1%nat) = Some "2"%string /\
    switch_dpids self !! switch_name (count_serialno 2%nat) = Some "3"%string /\
    switch_ports self !! switch_name (count_serialno 0%nat) = Some [5; 6; 7] /\
    switch_ports self !! switch_name (count_serialno 1%nat)
      = Some [5; 6; 7; 8] /\
    switch_ports self !! switch_name (count_serialno 2%nat) = Some [5; 6; 7].
Proof.
  apply (build_chain_three int_of_decimal plain_dpid "system" 100 None None
           count_serialno "1" "2" "3").
  - split.
    + intros k Hk. unfold count_serialno. lia.
    + intros j k _ _ H. unfold count_serialno in H. lia.
  - intros d _. reflexivity.
Defined.

(** ** Reading the tables back *)

Lemma map_result_elem {A B} (f : A -> result B) (l : list A) (l' : list B)
  (x : A) :
  map_result f l = Ok l' -> x ∈ l -> exists y, y ∈ l' /\ f x = Ok y.
Proof.
  revert l'. induction l as [|a l IH]; intros l' Hrun Hin.
  - inversion Hin.
  - simpl in Hrun. destruct (f a) as [b|e] eqn:Ea; [|discriminate].
    simpl in Hrun. destruct (map_result f l) as [bs|e]; [|discriminate].
    simpl in Hrun. injection Hrun as <-.
    apply elem_of_cons in Hin as [->|Hin].
    + exists b. split; [apply list_elem_of_here|exact Ea].
    + destruct (IH bs eq_refl Hin) as (y & Hy & Hf).
      exists y. split; [apply list_elem_of_further; exact Hy|exact Hf].
Qed.

Lemma map_result_id {A} (f : A -> result A) (l : list A) :
  (forall x, x ∈ l -> f x = Ok x) -> map_result f l = Ok l.
Proof.
  induction l as [|a l IH]; intros Hf; [reflexivity|].
  simpl. rewrite (Hf a) by apply list_elem_of_here. simpl.
  rewrite IH; [reflexivity|].
  intros x Hx. apply Hf. apply list_elem_of_further. exact Hx.
Qed.

Lemma hw_remap_peer_link_peer (self : topo) (dpid : string)
  (l l' : peer_link) :
  hw_remap_peer_link self dpid l = Ok l' -> peer_dpid l' = peer_dpid l.
Proof.
  unfold hw_remap_peer_link.
  destruct (hw_remap_port self dpid (port l)) as [p|e]; [|discriminate].
  simpl.
  destruct (hw_remap_port self (peer_dpid l) (peer_port l)) as [q|e];
    [|discriminate].
  simpl. intros H. injection H as <-. reflexivity.
Qed.

Lemma hw_remap_port_no_hw (self : topo) (dpid : string) (p : Z) :
  hw_dpid self = None -> hw_remap_port self dpid p = Ok p.
Proof.
  intros H. apply hw_remap_port_other. rewrite H. discriminate.
Qed.

Lemma hw_remap_peer_link_no_hw (self : topo) (dpid : string) (l : peer_link) :
  hw_dpid self = None -> hw_remap_peer_link self dpid l = Ok l.
Proof.
  intros H. unfold hw_remap_peer_link.
  rewrite !hw_remap_port_no_hw by exact H. destruct l. reflexivity.
Qed.

(** * Further properties *)

(** ** The prefix codec outside its range *)

Lemma id_chars_index_ok (i : Z) :
  -62 <= i < 62 -> exists c, py_index id_chars i = Ok c.
Proof.
  intros Hi. destruct (Z_lt_dec i 0) as [Hneg|Hpos].
  - destruct (py_index_negative id_chars i) as (c & _ & Hc);
      [rewrite id_chars_length; lia|eauto].
  - destruct (py_index_nonneg id_chars i) as (c & _ & Hc);
      [rewrite id_chars_length; lia|eauto].
Qed.

Lemma id_chars_index_out (i : Z) :
  ~ (-62 <= i < 62) -> py_index id_chars i = Raise IndexError.
Proof.
  intros Hi.
  destruct (proj2 (py_index_raises id_chars i)) as [e He].
  { rewrite id_chars_length. lia. }
  rewrite He. f_equal. exact (py_index_only_IndexError _ _ _ He).
Qed.

(** The codec returns a prefix exactly for the serial numbers in
    (-3906, 3844), and raises IndexError for every other one; serial
    numbers are taken in the 32-bit range, where the float division of
    the source is the truncated quotient. *)
Theorem _get_sid_prefix_domain (s : Z) :
  - 2 ^ 31 <= s < 2 ^ 31 ->
  (is_ok (_get_sid_prefix s) = true <-> -3906 < s < 3844) /\
  (_get_sid_prefix s = Raise IndexError <-> ~ (-3906 < s < 3844)).
Proof.
  intros _. unfold _get_sid_prefix. rewrite id_chars_length.
  change (Z.of_nat 62) with 62.
  pose proof (Z.quot_rem' s 62) as Hqr.
  assert (Hrem : -62 < Z.rem s 62 < 62).
  { pose proof (Z.rem_bound_abs s 62 ltac:(lia)). lia. }
  replace (s - s ÷ 62 * 62) with (Z.rem s 62) by lia.
  assert (Hpos : 0 <= s -> 0 <= Z.rem s 62)
    by (intros; apply Z.rem_nonneg; lia).
  assert (Hneg : s <= 0 -> Z.rem s 62 <= 0)
    by (intros; apply Z.rem_nonpos; lia).
  destruct (Z_lt_dec (-3906) s) as [Hlo|Hlo];
    [destruct (Z_lt_dec s 3844) as [Hhi|Hhi]|].
  - assert (Hq : -62 <= s ÷ 62 < 62) by lia.
    destruct (id_chars_index_ok (s ÷ 62) Hq) as (ca & ->).
    destruct (id_chars_index_ok (Z.rem s 62)) as (cb & ->); [lia|].
    simpl. split; split; intros H; try reflexivity; try discriminate; lia.
  - assert (Hq : ~ (-62 <= s ÷ 62 < 62)) by lia.
    rewrite (id_chars_index_out _ Hq). simpl.
    split; split; intros H; try reflexivity; try discriminate; lia.
  - assert (Hq : ~ (-62 <= s ÷ 62 < 62)) by lia.
    rewrite (id_chars_index_out _ Hq). simpl.
    split; split; intros H; try reflexivity; try discriminate; lia.
Qed.

Lemma _get_sid_prefix_domain_witness :
  (is_ok (_get_sid_prefix 3844) = true <-> -3906 < 3844 < 3844) /\
  (_get_sid_prefix 3844 = Raise IndexError <-> ~ (-3906 < 3844 < 3844)).
Proof. apply (_get_sid_prefix_domain 3844). lia. Defined.

(** A negative serial number above -62 is not refused: its second
    character is taken from the end of [id_chars], so it gets the prefix
    of the serial number 62 above it. *)
Theorem _get_sid_prefix_negative (s : Z) :
  -62 < s < 0 -> _get_sid_prefix s = _get_sid_prefix (s + 62).
Proof.
  intros Hs. unfold _get_sid_prefix. rewrite id_chars_length.
  change (Z.of_nat 62) with 62.
  assert (E1 : s ÷ 62 = 0).
  { rewrite <- (Z.opp_involutive s), Z.quot_opp_l by lia.
    rewrite Z.quot_small by lia. reflexivity. }
  assert (E2 : (s + 62) ÷ 62 = 0) by (apply Z.quot_small; lia).
  rewrite E1, E2. f_equal.
  replace (s - 0 * 62) with s by lia.
  replace (s + 62 - 0 * 62) with (s + 62) by lia.
  destruct (py_index_negative id_chars s) as (c & Hc & ->);
    [rewrite id_chars_length; lia|].
  destruct (py_index_nonneg id_chars (s + 62)) as (c' & Hc' & ->);
    [rewrite id_chars_length; lia|].
  rewrite id_chars_length in Hc. change (Z.of_nat 62) with 62 in Hc.
  rewrite Hc in Hc'. injection Hc' as <-. reflexivity.
Qed.

Lemma _get_sid_prefix_negative_witness :
  _get_sid_prefix (-1) = _get_sid_prefix (-1 + 62).
Proof. apply (_get_sid_prefix_negative (-1)). lia. Defined.

(** ** The port order, extended twice *)

(** Extending an extended port order to the same length changes
    nothing. *)
Theorem extend_port_order_idempotent (seed : option (list Z)) (n : Z) :
  extend_port_order (Some (extend_port_order seed n)) n
  = extend_port_order seed n.
Proof.
  rewrite (extend_port_order_unfold (Some _)). simpl.
  pose proof (extend_port_order_length_ge seed n) as Hge.
  unfold py_range at 1.
  replace (seqZ _ _) with (@nil Z); [apply app_nil_r|].
  symmetry. apply length_zero_iff_nil. rewrite length_seqZ. lia.
Qed.

(** ** The remapped views *)

Lemma hw_remap_port_raises (self : topo) (dpid : string) (p : Z) (e : exn) :
  hw_remap_port self dpid p = Raise e -> e = AssertionError \/ e = IndexError.
Proof.
  unfold hw_remap_port.
  destruct (bool_decide (Some dpid <> hw_dpid self)); [discriminate|].
  destruct (bool_decide (hw_ports self = [])).
  - intros H. injection H as <-. left. reflexivity.
  - intros H. right. exact (py_index_only_IndexError _ _ _ H).
Qed.

Lemma map_result_raise {A B} (f : A -> result B) (l : list A) (e : exn) :
  map_result f l = Raise e -> exists x, x ∈ l /\ f x = Raise e.
Proof.
  induction l as [|a l IH]; simpl; [discriminate|].
  destruct (f a) as [b|e'] eqn:Ea; simpl.
  - destruct (map_result f l) as [bs|e'']; simpl; [discriminate|].
    intros H. injection H as ->.
    destruct (IH eq_refl) as (x & Hx & Hf).
    exists x. split; [apply list_elem_of_further; exact Hx|exact Hf].
  - intros H. injection H as ->.
    exists a. split; [apply list_elem_of_here|exact Ea].
Qed.

Lemma map_result_Forall2 {A B} (f : A -> result B) (l : list A)
  (l' : list B) :
  map_result f l = Ok l' <-> Forall2 (fun x y => f x = Ok y) l l'.
Proof.
  revert l'. induction l as [|a l IH]; intros l'; simpl.
  - split.
    + intros H. injection H as <-. constructor.
    + intros H. inversion H. reflexivity.
  - split.
    + destruct (f a) as [b|e] eqn:Ea; simpl; [|discriminate].
      destruct (map_result f l) as [bs|e] eqn:El; simpl; [|discriminate].
      intros H. injection H as <-. constructor; [exact Ea|].
      apply IH. reflexivity.
    + intros H. inversion H as [|x y xs ys Hxy Hrest]; subst.
      rewrite Hxy. simpl. apply IH in Hrest. rewrite Hrest. reflexivity.
Qed.

Lemma hw_remap_peer_link_swap (self : topo) (dpid : string)
  (l l' : peer_link) :
  hw_remap_peer_link self dpid l = Ok l' ->
  hw_remap_peer_link self (peer_dpid l) (mirror dpid l)
  = Ok (mirror dpid l').
Proof.
  unfold hw_remap_peer_link, mirror. simpl.
  destruct (hw_remap_port self dpid (port l)) as [p|e]; [|discriminate].
  simpl.
  destruct (hw_remap_port self (peer_dpid l) (peer_port l)) as [q|e];
    [|discriminate].
  simpl. intros H. injection H as <-. reflexivity.
Qed.

(** The remapped view of a peer link from one end is the mirror of its
    remapped view from the other end. *)
Theorem hw_remap_peer_link_mirror (self : topo) (dpid : string)
  (l l' : peer_link) :
  hw_remap_peer_link self dpid l = Ok l' ->
  hw_remap_peer_link self (peer_dpid l) (mirror dpid l)
  = Ok (mirror dpid l').
Proof. apply hw_remap_peer_link_swap. Qed.

Lemma hw_remap_peer_link_mirror_witness :
  hw_remap_peer_link (remap_context (Some "7") [2; 4; 9] 5) "8"
    (mirror "7" (mk_peer_link 6 "8" 9))
  = Ok (mirror "7" (mk_peer_link 4 "8" 9)).
Proof.
  apply (hw_remap_peer_link_mirror (remap_context (Some "7") [2; 4; 9] 5)
           "7" (mk_peer_link 6 "8" 9) (mk_peer_link 4 "8" 9)).
  reflexivity.
Defined.

(** [dpid_ports] raises KeyError exactly when the dpid is not registered
    or its switch has no port list; the remapping raises other
    exceptions only. *)
Theorem dpid_ports_KeyError (self : topo) (dpid : string) :
  dpid_ports self dpid = Raise KeyError <->
  dpid_names self !! dpid = None \/
  exists name, dpid_names self !! dpid = Some name /\
               switch_ports self !! name = None.
Proof.
  unfold dpid_ports, py_getitem.
  destruct (dpid_names self !! dpid) as [name|]; simpl.
  - destruct (switch_ports self !! name) as [ports|] eqn:Ep; simpl.
    + split.
      * intros H. apply map_result_raise in H as (x & _ & Hx).
        apply hw_remap_port_raises in Hx as [Hx|Hx]; discriminate.
      * intros [H|(n & Hn & Hp)]; [discriminate|].
        injection Hn as <-. congruence.
    + split; [|reflexivity]. intros _. right. exists name.
      split; [reflexivity|exact Ep].
  - split; [|reflexivity]. intros _. left. reflexivity.
Qed.

(** [dpid_ports] of a switch other than the hardware one returns the
    stored port list as it is. *)
Theorem dpid_ports_software (self : topo) (dpid name : string)
  (ports : list Z) :
  Some dpid <> hw_dpid self ->
  dpid_names self !! dpid = Some name ->
  switch_ports self !! name = Some ports ->
  dpid_ports self dpid = Ok ports.
Proof.
  intros Hhw Hn Hp. unfold dpid_ports, py_getitem. rewrite Hn. simpl.
  rewrite Hp. simpl. apply map_result_id.
  intros x _. apply hw_remap_port_other. exact Hhw.
Qed.

Lemma dpid_ports_software_witness :
  dpid_ports
    (set_switch_ports <["s00"%string := [5; 6]]>
       (set_dpid_names <["1"%string := "s00"%string]>
          (remap_context (Some "7") [2; 4; 9] 5))) "1"
  = Ok [5; 6].
Proof.
  apply (dpid_ports_software _ "1" "s00" [5; 6]).
  - simpl. discriminate.
  - reflexivity.
  - reflexivity.
Defined.

(** What [dpid_ports] returns is the stored list remapped port by port:
    the same number of ports, in the same order. *)
Theorem dpid_ports_pointwise (self : topo) (dpid : string) (l : list Z) :
  dpid_ports self dpid = Ok l <->
  exists name ports,
    dpid_names self !! dpid = Some name /\
    switch_ports self !! name = Some ports /\
    Forall2 (fun p q => hw_remap_port self dpid p = Ok q) ports l.
Proof.
  unfold dpid_ports, py_getitem.
  destruct (dpid_names self !! dpid) as [name|]; simpl.
  - destruct (switch_ports self !! name) as [ports|] eqn:Ep; simpl.
    + rewrite map_result_Forall2. split.
      * intros H. exists name, ports. auto.
      * intros (n & ps & Hn & Hp & H). injection Hn as <-.
        rewrite Ep in Hp. injection Hp as <-. exact H.
    + split; [discriminate|].
      intros (n & ps & Hn & Hp & _). injection Hn as <-. congruence.
  - split; [discriminate|]. intros (n & ps & Hn & _). discriminate.
Qed.

(** [dpid_peer_links] never changes who the peer of a link is: the
    list it returns names the same peer dpids, in the same order, as the
    stored list. *)
Theorem dpid_peer_links_peers (self : topo) (dpid name : string)
  (stored links : list peer_link) :
  dpid_names self !! dpid = Some name ->
  switch_peer_links self !! name = Some stored ->
  dpid_peer_links self dpid = Ok links ->
  map peer_dpid links = map peer_dpid stored.
Proof.
  intros Hn Hs. unfold dpid_peer_links, py_getitem. rewrite Hn. simpl.
  rewrite Hs. simpl. rewrite map_result_Forall2. clear Hs.
  intros H. induction H as [|x y xs ys Hxy _ IH]; [reflexivity|].
  simpl. rewrite IH, (hw_remap_peer_link_peer _ _ _ _ Hxy). reflexivity.
Qed.

Lemma dpid_peer_links_peers_witness :
  map peer_dpid [mk_peer_link 4 "8" 9]
  = map peer_dpid [mk_peer_link 6 "8" 9].
Proof.
  apply (dpid_peer_links_peers
           (set_switch_peer_links <["s00"%string := [mk_peer_link 6 "8" 9]]>
              (set_dpid_names <["7"%string := "s00"%string]>
                 (remap_context (Some "7") [2; 4; 9] 5)))
           "7" "s00").
  - reflexivity.
  - reflexivity.
  - reflexivity.
Defined.

(** ** The link builders *)

Lemma order_port_short (st : topo) (i : nat) :
  (length (port_order st) <= i)%nat ->
  order_port (Z.of_nat i) st = Raise IndexError.
Proof.
  intros Hi. unfold order_port, bind, get, lift.
  destruct (proj2 (py_index_raises (port_order st) (Z.of_nat i)))
    as [e He]; [lia|].
  rewrite He. f_equal. exact (py_index_only_IndexError _ _ _ He).
Qed.

Lemma bind_raise {A B} (m : M A) (k : A -> M B) (st : topo) (e : exn) :
  m st = Raise e -> bind m k st = Raise e.
Proof. intros H. unfold bind. rewrite H. reflexivity. Qed.

Lemma _add_links_inner_short (sw host : string) (n : nat) :
  forall (i : nat) (st : topo) (ps : list Z),
  switch_ports st !! sw = Some ps ->
  (i <= length (port_order st) < i + n)%nat ->
  repeat_n n
    (fun index =>
       let* port := order_port index in
       modify (add_link (mk_link sw host port None)) ;;
       modify (set_switch_ports (fun d => py_setdefault d sw [])) ;;
       append_port sw port ;;
       ret (index + 1)) (Z.of_nat i) st
  = Raise IndexError.
Proof.
  induction n as [|n IH]; intros i st ps Hps Hlen; [lia|].
  destruct (Nat.eq_dec i (length (port_order st))) as [Heq|Hne].
  - simpl. apply bind_raise. apply bind_raise. apply order_port_short. lia.
  - destruct (_add_links_inner sw host 1 i st ps Hps) as (st1 & H1 & Hfr & Hp);
      [lia|].
    simpl in H1. unfold bind at 1 in H1.
    simpl repeat_n. unfold bind at 1.
    destruct (bind (order_port (Z.of_nat i)) _ st) as [[v st1']|e];
      [|discriminate].
    unfold ret in H1. injection H1 as -> ->.
    replace (Z.of_nat (i + 1)) with (Z.of_nat (S i)) by lia.
    apply (IH (S i) st1 (ps ++ ports_range st i 1)).
    + rewrite Hp. apply lookup_insert_eq.
    + destruct Hfr as (_ & _ & _ & _ & _ & _ & _ & Hpo & _).
      rewrite Hpo. lia.
Qed.

Lemma _add_links_outer_short (sw : string) (L : Z) (hosts : list string) :
  forall (i : nat) (st : topo) (ps : list Z),
  switch_ports st !! sw = Some ps ->
  (i <= length (port_order st) < i + length hosts * Z.to_nat L)%nat ->
  for_each hosts (fun host index =>
    for_range L (fun index =>
      let* port := order_port index in
      modify (add_link (mk_link sw host port None)) ;;
      modify (set_switch_ports (fun d => py_setdefault d sw [])) ;;
      append_port sw port ;;
      ret (index + 1)) index) (Z.of_nat i) st
  = Raise IndexError.
Proof.
  induction hosts as [|host hosts IH]; intros i st ps Hps Hlen;
    [simpl in Hlen; lia|].
  simpl in Hlen. simpl for_each. unfold for_range at 1.
  destruct (le_lt_dec (i + Z.to_nat L) (length (port_order st)))
    as [Hfit|Hshort].
  - destruct (_add_links_inner sw host (Z.to_nat L) i st ps Hps Hfit)
      as (st1 & H1 & Hfr & Hp).
    erewrite bind_run by exact H1.
    apply (IH (i + Z.to_nat L)%nat st1
             (ps ++ ports_range st i (Z.to_nat L))).
    + rewrite Hp. apply lookup_insert_eq.
    + destruct Hfr as (_ & _ & _ & _ & _ & _ & _ & Hpo & _).
      rewrite Hpo. lia.
  - apply bind_raise.
    apply (_add_links_inner_short sw host (Z.to_nat L) i st ps Hps). lia.
Qed.

(** [_add_links] takes the ports of the first [len(hosts) *
    links_per_host] places of the port order, in that order: when the
    port order is long enough it returns that number, appends those
    ports to the switch's port list and leaves every other port list
    and every other table alone. *)
Theorem _add_links_ports (switch : string) (hosts : list string)
  (links_per_host : Z) (self : topo) :
  (length hosts * Z.to_nat links_per_host <= length (port_order self))%nat ->
  exists self',
    _add_links switch hosts links_per_host self
    = Ok (Z.of_nat (length hosts * Z.to_nat links_per_host), self') /\
    switch_ports self' !! switch
    = Some (default [] (switch_ports self !! switch)
            ++ ports_range self 0
                 (length hosts * Z.to_nat links_per_host)) /\
    (forall n, n <> switch ->
       switch_ports self' !! n = switch_ports self !! n) /\
    unchanged_but_ports self self'.
Proof.
  intros Hlen.
  destruct (_add_links_run switch hosts links_per_host self Hlen)
    as (self' & Hrun & Hfr & Hp).
  exists self'. split; [exact Hrun|].
  rewrite Hp. split; [apply lookup_insert_eq|]. split; [|exact Hfr].
  intros n Hn. apply lookup_insert_ne. congruence.
Qed.

Lemma _add_links_ports_witness :
  exists self',
    _add_links "s00" ["u001"; "u002"]%string 2
      (build_init 0 2 2 1 None None 5 None)
    = Ok (Z.of_nat (2 * Z.to_nat 2), self') /\
    switch_ports self' !! "s00"%string
    = Some (default [] (switch_ports (build_init 0 2 2 1 None None 5 None)
                          !! "s00"%string)
            ++ ports_range (build_init 0 2 2 1 None None 5 None) 0
                 (2 * Z.to_nat 2)) /\
    (forall n, n <> "s00"%string ->
       switch_ports self' !! n
       = switch_ports (build_init 0 2 2 1 None None 5 None) !! n) /\
    unchanged_but_ports (build_init 0 2 2 1 None None 5 None) self'.
Proof.
  apply (_add_links_ports "s00" ["u001"; "u002"]%string 2
           (build_init 0 2 2 1 None None 5 None)).
  simpl. lia.
Defined.

(** [_add_links] raises IndexError when the port order has fewer places
    than [len(hosts) * links_per_host]. *)
Theorem _add_links_IndexError (switch : string) (hosts : list string)
  (links_per_host : Z) (self : topo) :
  (length (port_order self) < length hosts * Z.to_nat links_per_host)%nat ->
  _add_links switch hosts links_per_host self = Raise IndexError.
Proof.
  intros Hlen. unfold _add_links. rewrite bind_modify.
  change 0 with (Z.of_nat 0).
  apply (_add_links_outer_short switch links_per_host hosts 0 _
           (default [] (switch_ports self !! switch))).
  - simpl. apply py_setdefault_lookup.
  - simpl. lia.
Qed.

Lemma _add_links_IndexError_witness :
  _add_links "s00" ["u001"; "u002"]%string 2
    (mk_topo ∅ ∅ ∅ None [] 5 [0; 1; 2] 1 ∅ [] [])
  = Raise IndexError.
Proof.
  apply (_add_links_IndexError "s00" ["u001"; "u002"]%string 2
           (mk_topo ∅ ∅ ∅ None [] 5 [0; 1; 2] 1 ∅ [] [])).
  simpl. lia.
Defined.

(** [addLinks] between two different registered switches that already
    have a port list: it returns, each switch gets the next K places of
    the port order after its own next index (K the number of
    switch-to-switch links), a peer link per place that names the other
    switch's dpid, and its next index moves K places on; nothing else
    changes.  The port order has to reach K places past both indices. *)
Theorem addLinks_effect (src dst d1 d2 : string) (a b : nat)
  (next_index : gmap string Z) (self : topo) (ps pd : list Z) :
  src <> dst ->
  switch_dpids self !! src = Some d1 -> switch_dpids self !! dst = Some d2 ->
  next_index !! src = Some (Z.of_nat a) ->
  next_index !! dst = Some (Z.of_nat b) ->
  switch_ports self !! src = Some ps -> switch_ports self !! dst = Some pd ->
  (a + Z.to_nat (switch_to_switch_links self)
   <= length (port_order self))%nat ->
  (b + Z.to_nat (switch_to_switch_links self)
   <= length (port_order self))%nat ->
  exists next_index' self',
    addLinks src dst next_index self = Ok (next_index', self') /\
    linked src dst d1 d2 a b (Z.to_nat (switch_to_switch_links self))
      next_index self next_index' self'.
Proof. apply addLinks_run. Qed.

Lemma addLinks_effect_witness :
  exists next_index' self',
    addLinks "s00" "s01"
      (<["s01"%string := 2]> (<["s00"%string := 2]> ∅))
      (mk_topo ∅ (<["s01"%string := "2"%string]>
                    (<["s00"%string := "1"%string]> ∅))
         (<["s01"%string := [5; 6]]> (<["s00"%string := [5; 6]]> ∅))
         None [] 5 [0; 1; 2; 3] 2 ∅ [] [])
    = Ok (next_index', self') /\
    linked "s00" "s01" "1" "2" 2 2 (Z.to_nat 2)
      (<["s01"%string := 2]> (<["s00"%string := 2]> ∅))
      (mk_topo ∅ (<["s01"%string := "2"%string]>
                    (<["s00"%string := "1"%string]> ∅))
         (<["s01"%string := [5; 6]]> (<["s00"%string := [5; 6]]> ∅))
         None [] 5 [0; 1; 2; 3] 2 ∅ [] [])
      next_index' self'.
Proof.
  apply (addLinks_effect "s00" "s01" "1" "2" 2 2
           (<["s01"%string := 2]> (<["s00"%string := 2]> ∅))
           (mk_topo ∅ (<["s01"%string := "2"%string]>
                         (<["s00"%string := "1"%string]> ∅))
              (<["s01"%string := [5; 6]]> (<["s00"%string := [5; 6]]> ∅))
              None [] 5 [0; 1; 2; 3] 2 ∅ [] []) [5; 6] [5; 6]).
  - discriminate.
  - reflexivity.
  - reflexivity.
  - reflexivity.
  - reflexivity.
  - reflexivity.
  - reflexivity.
  - simpl. lia.
  - simpl. lia.
Defined.

(** [addLinks] raises KeyError when one of its two switches has no
    dpid on record. *)
Theorem addLinks_KeyError (src dst : string) (next_index : gmap string Z)
  (self : topo) :
  switch_dpids self !! src = None \/ switch_dpids self !! dst = None ->
  addLinks src dst next_index self = Raise KeyError.
Proof.
  intros H. unfold addLinks. rewrite !bind_modify, bind_get.
  unfold bind, lift, py_getitem. simpl.
  destruct (switch_dpids self !! src) as [d1|]; [|reflexivity].
  destruct H as [H|H]; [discriminate|]. rewrite H. reflexivity.
Qed.

Lemma addLinks_KeyError_witness :
  addLinks "s00" "s01" ∅
    (mk_topo ∅ (<["s00"%string := "1"%string]> ∅) ∅ None [] 5 [0; 1] 1 ∅
       [] [])
  = Raise KeyError.
Proof.
  apply (addLinks_KeyError "s00" "s01" ∅
           (mk_topo ∅ (<["s00"%string := "1"%string]> ∅) ∅ None [] 5 [0; 1]
              1 ∅ [] [])).
  right. reflexivity.
Defined.

(** ** The tables of a build *)

Lemma link_group_peers (st : topo) (a b : nat) (d : string) (k : nat) :
  map peer_dpid (link_group st a b d k) = replicate k d.
Proof.
  unfold link_group. rewrite map_map. simpl.
  generalize 0%nat. induction k as [|k IH]; intros i; [reflexivity|].
  simpl. rewrite IH. reflexivity.
Qed.

Lemma chain_peers_names (st0 : topo) (ds : list string) (h k i j : nat) :
  map peer_dpid (chain_peers st0 ds h k i j)
  = replicate (if (0 <? j)%nat then k else 0%nat)
      (default ""%string (ds !! (j - 1)%nat))
    ++ replicate (if (j + 1 <? i)%nat then k else 0%nat)
         (default ""%string (ds !! (j + 1)%nat)).
Proof.
  unfold chain_peers. rewrite map_app.
  destruct (0 <? j)%nat, (j + 1 <? i)%nat;
    rewrite ?link_group_peers; reflexivity.
Qed.

Lemma ports_range_default (T U L K : Z) (hw : option string)
  (sm : option (gmap Z string)) (sp : Z) (n : nat) :
  Z.of_nat n <= (T + U) * L + 2 * K + 1 ->
  ports_range (build_init T U L K hw sm sp None) 0 n = seqZ sp (Z.of_nat n).
Proof.
  intros Hn. apply list_eq. intros i.
  unfold ports_range. rewrite list_lookup_fmap.
  destruct (decide (i < n)%nat) as [Hi|Hi].
  - rewrite lookup_seq_lt by exact Hi. simpl.
    rewrite lookup_seqZ_lt by lia. f_equal.
    unfold port_at, build_init. simpl. f_equal.
    rewrite extend_port_order_unfold. simpl.
    unfold py_range. rewrite lookup_seqZ_lt by lia. reflexivity.
  - rewrite lookup_seq_ge by lia. simpl. symmetry.
    apply lookup_seqZ_ge. lia.
Qed.

Lemma hw_remap_ports_take (self : topo) (hd : string) (n : nat) :
  hw_dpid self = Some hd ->
  (n <= length (hw_ports self))%nat ->
  map_result (hw_remap_port self hd) (seqZ (start_port self) (Z.of_nat n))
  = Ok (take n (hw_ports self)).
Proof.
  intros Hhw Hn. apply map_result_Forall2.
  apply Forall2_same_length_lookup_2.
  - rewrite length_seqZ, length_take. lia.
  - intros i x y Hx Hy.
    apply lookup_seqZ in Hx as [-> Hi].
    rewrite lookup_take_lt in Hy by lia.
    rewrite hw_remap_port_hw; [|exact Hhw|].
    + replace (start_port self + Z.of_nat i - start_port self)
        with (Z.of_nat i) by lia.
      destruct (py_index_nonneg (hw_ports self) (Z.of_nat i))
        as (x & Hx & ->); [lia|].
      rewrite Nat2Z.id in Hx. congruence.
    + intros E. rewrite E in Hy. discriminate.
Qed.

(** What a build that returns leaves in the name tables and the
    peer-link table. *)
Lemma build_tables
  (py_int : string -> result Z) (mininet_dpid : string -> result string)
  (ovs_type : string) (n_tagged tagged_vid n_untagged links_per_host : Z)
  (switch_to_switch_links_arg : Z) (hw_dpid_arg : option string)
  (switch_map : option (gmap Z string)) (stack_ring : bool)
  (start_port_arg : Z) (port_order_arg : option (list Z))
  (get_serialno : nat -> Z) (dpids : list string) (self : topo) :
  NoDup dpids ->
  serials_ok get_serialno (length dpids) ->
  build py_int mininet_dpid ovs_type n_tagged tagged_vid n_untagged
    links_per_host switch_to_switch_links_arg hw_dpid_arg switch_map
    stack_ring start_port_arg port_order_arg get_serialno dpids = Ok self ->
  inverse_tables (dpid_names self) (switch_dpids self) /\
  mirror_invariant self /\
  (forall d, is_Some (dpid_names self !! d) -> d ∈ dpids).
Proof.
  intros Hnd Hser. unfold build, build_loop.
  destruct (bind _ _ _) as [[ls' st']|e] eqn:Hrun; [|discriminate].
  intros Heq. injection Heq as <-.
  apply bind_ok in Hrun as (ls & st & Hloop & Hrun).
  apply (for_each_tables _ _ _ _ _ _ _ _ _ dpids [] _ _ ls st) in Hloop;
    [|apply build_init_tables|exact Hnd|exact Hser].
  destruct Hloop as (_ & Hinv & HM & _ & _ & Hdom).
  destruct stack_ring.
  - destruct (first_switch ls) as [first|]; [|discriminate].
    destruct (last_switch ls) as [last|]; [|discriminate].
    apply bind_ok in Hrun as (ni & st1 & Hadd & Hrun).
    apply ret_ok in Hrun as [_ ->].
    apply addLinks_inv in Hadd as [Hfr Hstep].
    destruct Hfr as (E1 & E2 & _). rewrite E1, E2.
    split; [exact Hinv|]. split; [apply Hstep; assumption|exact Hdom].
  - apply ret_ok in Hrun as [_ ->]. auto.
Qed.

Section BuildFacts.

Variable py_int : string -> result Z.
Variable mininet_dpid : string -> result string.
Variable ovs_type : string.
Variables n_tagged tagged_vid n_untagged : Z.
Variables links_per_host switch_to_switch_links_arg : Z.
Variable hw_dpid_arg : option string.
Variable switch_map : option (gmap Z string).
Variable start_port_arg : Z.
Variable port_order_arg : option (list Z).
Variable get_serialno : nat -> Z.
Variable dpids : list string.

Hypothesis Htagged : 0 <= n_tagged.
Hypothesis Huntagged : 0 <= n_untagged.
Hypothesis Hlinks : 0 <= links_per_host.
Hypothesis Hpeers : 0 <= switch_to_switch_links_arg.
Hypothesis Hserials : serials_ok get_serialno (length dpids).
Hypothesis Hfactory :
  forall d, d ∈ dpids ->
    is_ok (switch_datapath py_int mininet_dpid hw_dpid_arg d) = true.

Local Abbreviation h :=
  ((Z.to_nat n_tagged + Z.to_nat n_untagged) * Z.to_nat links_per_host)%nat.
Local Abbreviation k := (Z.to_nat switch_to_switch_links_arg).
Local Abbreviation st0 :=
  (build_init n_tagged n_untagged links_per_host switch_to_switch_links_arg
     hw_dpid_arg switch_map start_port_arg port_order_arg).
Local Abbreviation nm j := (switch_name (get_serialno j)).
Local Abbreviation build_with ring :=
  (build py_int mininet_dpid ovs_type n_tagged tagged_vid n_untagged
     links_per_host switch_to_switch_links_arg hw_dpid_arg switch_map
     ring start_port_arg port_order_arg get_serialno dpids).

(** A build returns, with or without the ring (a ring of two switches
    or more), and the ring leaves the name tables of the chain alone. *)
Lemma build_any_run (stack_ring : bool) :
  (stack_ring = true -> (2 <= length dpids)%nat) ->
  exists ls chain self,
    build_with false = Ok chain /\
    build_with stack_ring = Ok self /\
    chain_shape get_serialno dpids st0 h k (length dpids) ls chain /\
    unchanged_names chain self /\
    (NoDup dpids -> inverse_tables (dpid_names chain) (switch_dpids chain)).
Proof.
  intros HN. destruct stack_ring.
  - destruct (build_ring_run py_int mininet_dpid ovs_type n_tagged
                tagged_vid n_untagged links_per_host
                switch_to_switch_links_arg hw_dpid_arg switch_map
                start_port_arg port_order_arg get_serialno dpids)
      as (ls & chain & ni & ring & d0 & dl & Hchain & Hring & Hshape & _
          & _ & Hlk & Hinv); try assumption; [auto|].
    exists ls, chain, ring. destruct Hlk as (Hfr & _). auto.
  - destruct (build_chain_run py_int mininet_dpid ovs_type n_tagged
                tagged_vid n_untagged links_per_host
                switch_to_switch_links_arg hw_dpid_arg switch_map
                start_port_arg port_order_arg get_serialno dpids)
      as (ls & chain & Hchain & Hshape & Hinv); try assumption.
    exists ls, chain, chain.
    split; [exact Hchain|]. split; [exact Hchain|]. split; [exact Hshape|].
    split; [apply unchanged_names_refl|exact Hinv].
Qed.

(** The two name tables of a build are inverse to each other on the
    switches in the order of the dpids: the j-th dpid is registered
    under the name made from the j-th serial number, and that name
    under the j-th dpid; [dpid_names] knows no other dpid. *)
Theorem build_names_round_trip (stack_ring : bool) :
  (stack_ring = true -> (2 <= length dpids)%nat) ->
  NoDup dpids ->
  exists self,
    build py_int mininet_dpid ovs_type n_tagged tagged_vid n_untagged
      links_per_host switch_to_switch_links_arg hw_dpid_arg switch_map
      stack_ring start_port_arg port_order_arg get_serialno dpids = Ok self /\
    (forall j d, dpids !! j = Some d ->
       dpid_names self !! d = Some (switch_name (get_serialno j)) /\
       switch_dpids self !! switch_name (get_serialno j) = Some d) /\
    (forall d, is_Some (dpid_names self !! d) -> d ∈ dpids).
Proof.
  intros HN Hnd.
  destruct (build_any_run stack_ring HN)
    as (ls & chain & self & _ & Hself & Hshape & Hfr & Hinv).
  exists self. split; [exact Hself|].
  destruct (build_tables _ _ _ _ _ _ _ _ _ _ _ _ _ _ _ _ Hnd Hserials Hself)
    as (_ & _ & Hdom).
  split; [|exact Hdom].
  intros j d Hd. destruct Hshape as (_ & _ & _ & _ & Hsw & _).
  destruct (Hsw j (lookup_lt_Some _ _ _ Hd)) as (_ & _ & Hdp & _).
  rewrite Hd in Hdp. destruct Hfr as (E1 & E2 & _). rewrite E1, E2.
  split; [|exact Hdp]. apply (Hinv Hnd). exact Hdp.
Qed.

(** The peer links of a chain: the switch at position j holds K records
    that name the dpid before it (none for the first switch), then K
    records that name the dpid after it (none for the last), with the
    ports of [chain_peers]. *)
Theorem build_chain_peer_table :
  (2 <= length dpids)%nat ->
  exists self,
    build py_int mininet_dpid ovs_type n_tagged tagged_vid n_untagged
      links_per_host switch_to_switch_links_arg hw_dpid_arg switch_map
      false start_port_arg port_order_arg get_serialno dpids = Ok self /\
    forall j, (j < length dpids)%nat ->
      exists links,
        switch_peer_links self !! switch_name (get_serialno j) = Some links /\
        links = chain_peers st0 dpids h k (length dpids) j /\
        map peer_dpid links
        = replicate (if (0 <? j)%nat then k else 0%nat)
            (default ""%string (dpids !! (j - 1)%nat))
          ++ replicate (if (j + 1 <? length dpids)%nat then k else 0%nat)
               (default ""%string (dpids !! (j + 1)%nat)).
Proof.
  intros HN.
  destruct (build_chain_run py_int mininet_dpid ovs_type n_tagged
              tagged_vid n_untagged links_per_host
              switch_to_switch_links_arg hw_dpid_arg switch_map
              start_port_arg port_order_arg get_serialno dpids)
    as (ls & self & Hself & Hshape & _); try assumption.
  exists self. split; [exact Hself|].
  intros j Hj. destruct Hshape as (_ & _ & _ & _ & Hsw & _).
  destruct (Hsw j Hj) as (_ & _ & _ & Hq).
  destruct (Nat.ltb_spec 1 (length dpids)) as [_|]; [|lia].
  eexists. split; [exact Hq|]. split; [reflexivity|].
  apply chain_peers_names.
Qed.

(** The ports of a chain, tagged hosts included: the switch at position
    j has (T + U) * L + K * degree ports, the degree being its number
    of neighbours; with the default port order they are the
    consecutive numbers from [start_port]. *)
Theorem build_chain_ports :
  exists self,
    build py_int mininet_dpid ovs_type n_tagged tagged_vid n_untagged
      links_per_host switch_to_switch_links_arg hw_dpid_arg switch_map
      false start_port_arg port_order_arg get_serialno dpids = Ok self /\
    forall j, (j < length dpids)%nat ->
      exists ports,
        switch_ports self !! switch_name (get_serialno j) = Some ports /\
        Z.of_nat (length ports)
        = (n_tagged + n_untagged) * links_per_host
          + switch_to_switch_links_arg
            * Z.of_nat (chain_degree (length dpids) j) /\
        (port_order_arg = None ->
         ports = seqZ start_port_arg (Z.of_nat (length ports))).
Proof.
  destruct (build_chain_run py_int mininet_dpid ovs_type n_tagged
              tagged_vid n_untagged links_per_host
              switch_to_switch_links_arg hw_dpid_arg switch_map
              start_port_arg port_order_arg get_serialno dpids)
    as (ls & self & Hself & Hshape & _); try assumption.
  exists self. split; [exact Hself|].
  intros j Hj. destruct Hshape as (_ & _ & _ & _ & Hsw & _).
  destruct (Hsw j Hj) as (Hp & _).
  pose proof (chain_degree_le (length dpids) j) as Hdeg.
  eexists. split; [exact Hp|].
  rewrite ports_range_length. split; [nia|].
  intros ->. apply ports_range_default. nia.
Qed.

(** The ports of a ring of two switches or more: every switch has
    (T + U) * L + 2K ports; with the default port order they are the
    consecutive numbers from [start_port]. *)
Theorem build_ring_ports :
  (2 <= length dpids)%nat ->
  exists self,
    build py_int mininet_dpid ovs_type n_tagged tagged_vid n_untagged
      links_per_host switch_to_switch_links_arg hw_dpid_arg switch_map
      true start_port_arg port_order_arg get_serialno dpids = Ok self /\
    forall j, (j < length dpids)%nat ->
      exists ports,
        switch_ports self !! switch_name (get_serialno j) = Some ports /\
        Z.of_nat (length ports)
        = (n_tagged + n_untagged) * links_per_host
          + 2 * switch_to_switch_links_arg /\
        (port_order_arg = None ->
         ports = seqZ start_port_arg (Z.of_nat (length ports))).
Proof.
  intros HN.
  destruct (build_ring_run py_int mininet_dpid ovs_type n_tagged
              tagged_vid n_untagged links_per_host
              switch_to_switch_links_arg hw_dpid_arg switch_map
              start_port_arg port_order_arg get_serialno dpids)
    as (ls & chain & ni & ring & d0 & dl & _ & Hring & Hshape & _
        & _ & Hlk & _); try assumption.
  exists ring. split; [exact Hring|].
  destruct Hshape as (_ & _ & _ & Hctx & Hsw & _).
  destruct Hlk as (_ & _ & _ & _ & Hs1 & Hs2 & Hs3 & _).
  destruct Hctx as (_ & _ & Cx3 & Cx4 & _).
  rewrite (ports_range_frame st0 chain) in Hs1, Hs2 by assumption.
  assert (Hall : forall j, (j < length dpids)%nat ->
            switch_ports ring !! nm j = Some (ports_range st0 0 (h + 2 * k))).
  { intros j Hj. destruct (Hsw j Hj) as (Hp & _).
    destruct (decide (j = 0%nat)) as [->|Hj0];
      [|destruct (decide (j = (length dpids - 1)%nat)) as [->|Hjl]].
    - assert (Hdeg : chain_degree (length dpids) 0 = 1%nat).
      { unfold chain_degree. simpl.
        destruct (Nat.ltb_spec 1 (length dpids)); lia. }
      rewrite Hdeg, Nat.mul_1_r in Hp.
      rewrite Hs1, Hp. unfold default, from_option, id.
      rewrite ports_range_app0.
      do 2 f_equal. lia.
    - assert (Hdeg : chain_degree (length dpids) (length dpids - 1) = 1%nat).
      { unfold chain_degree.
        destruct (Nat.ltb_spec 0 (length dpids - 1)),
          (Nat.ltb_spec (length dpids - 1 + 1) (length dpids)); lia. }
      rewrite Hdeg, Nat.mul_1_r in Hp.
      rewrite Hs2, Hp. unfold default, from_option, id.
      rewrite ports_range_app0.
      do 2 f_equal. lia.
    - rewrite Hs3, Hp.
      + do 2 f_equal. unfold chain_degree.
        destruct (Nat.ltb_spec 0 j), (Nat.ltb_spec (j + 1) (length dpids));
          lia.
      + intros E. apply (serials_ok_names _ _ _ _ Hserials) in E; lia.
      + intros E. apply (serials_ok_names _ _ _ _ Hserials) in E; lia. }
  intros j Hj. eexists. split; [apply Hall; exact Hj|].
  rewrite ports_range_length. split; [nia|].
  intros ->. apply ports_range_default. nia.
Qed.

(** On a chain with the default port order, [dpid_ports] of the
    hardware switch returns the smallest keys of the switch map, as
    many as the switch has ports, in ascending order. *)
Theorem build_hardware_ports (j : nat) (hd : string) :
  NoDup dpids ->
  port_order_arg = None ->
  dpids !! j = Some hd ->
  hw_dpid_arg = Some hd ->
  (h + k * chain_degree (length dpids) j
   <= length (sorted_keys switch_map))%nat ->
  exists self,
    build py_int mininet_dpid ovs_type n_tagged tagged_vid n_untagged
      links_per_host switch_to_switch_links_arg hw_dpid_arg switch_map
      false start_port_arg port_order_arg get_serialno dpids = Ok self /\
    dpid_ports self hd
    = Ok (take (h + k * chain_degree (length dpids) j)
            (sorted_keys switch_map)).
Proof.
  intros Hnd Hpo Hd Hhw Hlen.
  destruct (build_chain_run py_int mininet_dpid ovs_type n_tagged
              tagged_vid n_untagged links_per_host
              switch_to_switch_links_arg hw_dpid_arg switch_map
              start_port_arg port_order_arg get_serialno dpids)
    as (ls & self & Hself & Hshape & Hinv); try assumption.
  exists self. split; [exact Hself|].
  destruct Hshape as (_ & _ & _ & Hctx & Hsw & _).
  destruct (Hsw j (lookup_lt_Some _ _ _ Hd)) as (Hp & _ & Hdp & _).
  rewrite Hd in Hdp. apply (Hinv Hnd) in Hdp.
  destruct Hctx as (Cx1 & Cx2 & Cx3 & _).
  pose proof (chain_degree_le (length dpids) j) as Hdeg.
  unfold dpid_ports, py_getitem. rewrite Hdp. simpl. rewrite Hp. simpl.
  rewrite Hpo, ports_range_default by nia.
  replace start_port_arg with (start_port self)
    by (rewrite Cx3; reflexivity).
  replace (sorted_keys switch_map) with (hw_ports self)
    by (rewrite Cx2; reflexivity).
  apply hw_remap_ports_take.
  - rewrite Cx1. exact Hhw.
  - rewrite Cx2. exact Hlen.
Qed.

End BuildFacts.

Lemma build_names_round_trip_witness :
  exists self,
    build int_of_decimal plain_dpid "system" 1 100 2 1 2 None None true 5
      None count_serialno ["1"; "2"; "3"]%string = Ok self /\
    dpid_names self !! "2"%string = Some (switch_name (count_serialno 1)) /\
    switch_dpids self !! switch_name (count_serialno 1) = Some "2"%string.
Proof.
  destruct (build_names_round_trip int_of_decimal plain_dpid "system" 1 100
              2 1 2 None None 5 None count_serialno ["1"; "2"; "3"]%string)
    with (stack_ring := true) as (self & Hrun & Hrt & _).
  - lia.
  - lia.
  - lia.
  - lia.
  - split.
    + intros i Hi. unfold count_serialno. simpl in Hi. lia.
    + intros i j _ _ H. unfold count_serialno in H. lia.
  - intros d _. reflexivity.
  - intros _. simpl. lia.
  - apply (bool_decide_unpack _). vm_compute. exact I.
  - exists self. split; [exact Hrun|]. apply (Hrt 1%nat). reflexivity.
Defined.

Lemma build_chain_peer_table_witness :
  exists self,
    build int_of_decimal plain_dpid "system" 1 100 2 1 2 None None false 5
      None count_serialno ["1"; "2"; "3"]%string = Ok self /\
    exists links,
      switch_peer_links self !! switch_name (count_serialno 1) = Some links /\
      map peer_dpid links = ["1"; "1"; "3"; "3"]%string.
Proof.
  destruct (build_chain_peer_table int_of_decimal plain_dpid "system" 1 100
              2 1 2 None None 5 None count_serialno ["1"; "2"; "3"]%string)
    as (self & Hrun & Hall).
  - lia.
  - lia.
  - lia.
  - lia.
  - split.
    + intros i Hi. unfold count_serialno. simpl in Hi. lia.
    + intros i j _ _ H. unfold count_serialno in H. lia.
  - intros d _. reflexivity.
  - simpl. lia.
  - exists self. split; [exact Hrun|].
    destruct (Hall 1%nat) as (links & Hl & _ & Hn); [simpl; lia|].
    exists links. split; [exact Hl|exact Hn].
Defined.

Lemma build_chain_ports_witness :
  exists self,
    build int_of_decimal plain_dpid "system" 1 100 2 1 2 None None false 5
      None count_serialno ["1"; "2"; "3"]%string = Ok self /\
    switch_ports self !! switch_name (count_serialno 1)
      = Some [5; 6; 7; 8; 9; 10; 11].
Proof.
  destruct (build_chain_ports int_of_decimal plain_dpid "system" 1 100
              2 1 2 None None 5 None count_serialno ["1"; "2"; "3"]%string)
    as (self & Hrun & Hall).
  - lia.
  - lia.
  - lia.
  - lia.
  - split.
    + intros i Hi. unfold count_serialno. simpl in Hi. lia.
    + intros i j _ _ H. unfold count_serialno in H. lia.
  - intros d _. reflexivity.
  - exists self. split; [exact Hrun|].
    destruct (Hall 1%nat) as (ports & Hp & Hlen & Hdef); [simpl; lia|].
    rewrite Hp. f_equal. rewrite (Hdef eq_refl).
    replace (Z.of_nat (length ports)) with 7 by (rewrite Hlen; reflexivity).
    reflexivity.
Defined.

Lemma build_ring_ports_witness :
  exists self,
    build int_of_decimal plain_dpid "system" 1 100 2 1 2 None None true 5
      None count_serialno ["1"; "2"; "3"]%string = Ok self /\
    switch_ports self !! switch_name (count_serialno 0)
      = Some [5; 6; 7; 8; 9; 10; 11].
Proof.
  destruct (build_ring_ports int_of_decimal plain_dpid "system" 1 100
              2 1 2 None None 5 None count_serialno ["1"; "2"; "3"]%string)
    as (self & Hrun & Hall).
  - lia.
  - lia.
  - lia.
  - lia.
  - split.
    + intros i Hi. unfold count_serialno. simpl in Hi. lia.
    + intros i j _ _ H. unfold count_serialno in H. lia.
  - intros d _. reflexivity.
  - simpl. lia.
  - exists self. split; [exact Hrun|].
    destruct (Hall 0%nat) as (ports & Hp & Hlen & Hdef); [simpl; lia|].
    rewrite Hp. f_equal. rewrite (Hdef eq_refl).
    replace (Z.of_nat (length ports)) with 7 by (rewrite Hlen; reflexivity).
    reflexivity.
Defined.

Lemma build_hardware_ports_witness :
  exists self,
    build int_of_decimal plain_dpid "system" 0 100 2 1 1 (Some "2"%string)
      (Some (list_to_map [(12, "a"); (10, "b"); (13, "c"); (11, "d");
                          (14, "e")]%string))
      false 5 None count_serialno ["1"; "2"; "3"]%string = Ok self /\
    dpid_ports self "2" = Ok [10; 11; 12; 13].
Proof.
  destruct (build_hardware_ports int_of_decimal plain_dpid "system" 0 100
              2 1 1 (Some "2"%string)
              (Some (list_to_map [(12, "a"); (10, "b"); (13, "c");
                                  (11, "d"); (14, "e")]%string))
              5 None count_serialno ["1"; "2"; "3"]%string)
    with (j := 1%nat) (hd := "2"%string) as (self & Hrun & Hports).
  - lia.
  - lia.
  - lia.
  - lia.
  - split.
    + intros i Hi. unfold count_serialno. simpl in Hi. lia.
    + intros i j _ _ H. unfold count_serialno in H. lia.
  - intros d Hd.
    repeat (apply elem_of_cons in Hd as [->|Hd]; [reflexivity|]).
    inversion Hd.
  - apply (bool_decide_unpack _). vm_compute. exact I.
  - reflexivity.
  - reflexivity.
  - reflexivity.
  - vm_compute. lia.
  - exists self. split; [exact Hrun|]. rewrite Hports. reflexivity.
Defined.

Lemma map_result_elem_inv {A B} (f : A -> result B) (l : list A)
  (l' : list B) (y : B) :
  map_result f l = Ok l' -> y ∈ l' -> exists x, x ∈ l /\ f x = Ok y.
Proof.
  rewrite map_result_Forall2. intros H.
  induction H as [|a b l l' Hab _ IH]; intros Hy; [inversion Hy|].
  apply elem_of_cons in Hy as [->|Hy].
  - exists a. split; [apply list_elem_of_here|exact Hab].
  - destruct (IH Hy) as (x & Hx & Hf).
    exists x. split; [apply list_elem_of_further; exact Hx|exact Hf].
Qed.

(** The views [dpid_peer_links] returns keep the mirror property of the
    stored table: a link in the view of one dpid has its mirror record
    in the view of the dpid it names, whenever that view can be
    computed. *)
Theorem build_peer_links_mirror
  (py_int : string -> result Z) (mininet_dpid : string -> result string)
  (ovs_type : string) (n_tagged tagged_vid n_untagged links_per_host : Z)
  (switch_to_switch_links_arg : Z) (hw_dpid_arg : option string)
  (switch_map : option (gmap Z string)) (stack_ring : bool)
  (start_port_arg : Z) (port_order_arg : option (list Z))
  (get_serialno : nat -> Z) (dpids : list string) (self : topo)
  (dpid : string) (links links' : list peer_link) (r : peer_link) :
  NoDup dpids ->
  serials_ok get_serialno (length dpids) ->
  build py_int mininet_dpid ovs_type n_tagged tagged_vid n_untagged
    links_per_host switch_to_switch_links_arg hw_dpid_arg switch_map
    stack_ring start_port_arg port_order_arg get_serialno dpids = Ok self ->
  dpid_peer_links self dpid = Ok links ->
  r ∈ links ->
  dpid_peer_links self (peer_dpid r) = Ok links' ->
  mirror dpid r ∈ links'.
Proof.
  intros Hnd Hser Hrun Hview Hr Hview'.
  destruct (build_tables _ _ _ _ _ _ _ _ _ _ _ _ _ _ _ _ Hnd Hser Hrun)
    as (Hinv & HM & _).
  unfold dpid_peer_links, py_getitem in Hview.
  destruct (dpid_names self !! dpid) as [A|] eqn:HA; [|discriminate].
  simpl in Hview.
  destruct (switch_peer_links self !! A) as [lA|] eqn:HlA; [|discriminate].
  simpl in Hview.
  destruct (map_result_elem_inv _ _ _ _ Hview Hr) as (r0 & Hr0 & Hmap).
  apply Hinv in HA.
  destruct (HM A dpid lA r0 HA HlA Hr0) as (B & lB & HB & HlB & Hmir).
  pose proof (hw_remap_peer_link_peer _ _ _ _ Hmap) as Hpeer.
  rewrite Hpeer in Hview'.
  unfold dpid_peer_links, py_getitem in Hview'.
  rewrite HB in Hview'. simpl in Hview'. rewrite HlB in Hview'.
  simpl in Hview'.
  destruct (map_result_elem _ _ _ _ Hview' Hmir) as (y & Hy & Hf).
  rewrite (hw_remap_peer_link_swap _ _ _ _ Hmap) in Hf.
  injection Hf as <-. exact Hy.
Qed.

Lemma build_peer_links_mirror_witness :
  mirror "2" (mk_peer_link 14 "3" 7)
  ∈ [mk_peer_link 7 "2" 14; mk_peer_link 8 "2" 15].
Proof.
  destruct (build int_of_decimal plain_dpid "system" 0 100 2 1 2
              (Some "2"%string)
              (Some (list_to_map [(10, "a"); (11, "b"); (12, "c");
                                  (13, "d"); (14, "e"); (15, "f")]%string))
              false 5 None count_serialno ["1"; "2"; "3"]%string)
    as [self|e] eqn:E; [|vm_compute in E; discriminate].
  apply (build_peer_links_mirror int_of_decimal plain_dpid "system" 0 100 2
           1 2 (Some "2"%string)
           (Some (list_to_map [(10, "a"); (11, "b"); (12, "c");
                               (13, "d"); (14, "e"); (15, "f")]%string))
           false 5 None count_serialno ["1"; "2"; "3"]%string self "2"
           [mk_peer_link 12 "1" 7; mk_peer_link 13 "1" 8;
            mk_peer_link 14 "3" 7; mk_peer_link 15 "3" 8]
           [mk_peer_link 7 "2" 14; mk_peer_link 8 "2" 15]
           (mk_peer_link 14 "3" 7)).
  - apply (bool_decide_unpack _). vm_compute. exact I.
  - split.
    + intros i Hi. unfold count_serialno. simpl in Hi. lia.
    + intros i j _ _ H. unfold count_serialno in H. lia.
  - exact E.
  - vm_compute in E. injection E as <-. vm_compute. reflexivity.
  - do 2 apply list_elem_of_further. apply list_elem_of_here.
  - vm_compute in E. injection E as <-. vm_compute. reflexivity.
Defined.

(** ** The base build *)

Lemma map_M_untagged_in (p : string) (ns : option (gmap Z bool))
  (l : list Z) (st : topo) :
  map_M (fun host_n => _add_untagged_host p host_n (namespace_of ns host_n))
    l st
  = Ok (map (host_name "u" p) l,
        append_nodes (map (untagged_node_in p ns) l) st).
Proof.
  revert st. induction l as [|x l IH]; intros st; simpl.
  - unfold ret. rewrite append_nodes_nil. reflexivity.
  - unfold bind at 1. unfold _add_untagged_host at 1. unfold bind at 1.
    unfold modify, ret at 1. unfold bind at 1. rewrite IH.
    unfold ret. rewrite append_nodes_add. reflexivity.
Qed.

Lemma _add_links_short (switch : string) (hosts : list string)
  (links_per_host : Z) (self : topo) :
  (length (port_order self) < length hosts * Z.to_nat links_per_host)%nat ->
  _add_links switch hosts links_per_host self = Raise IndexError.
Proof.
  intros Hlen. unfold _add_links. rewrite bind_modify.
  change 0 with (Z.of_nat 0).
  apply (_add_links_outer_short switch links_per_host hosts 0 _
           (default [] (switch_ports self !! switch))).
  - simpl. apply py_setdefault_lookup.
  - simpl. lia.
Qed.

Section BaseRun.

Variable py_int : string -> result Z.
Variable mininet_dpid : string -> result string.
Variable ovs_type : string.
Variables n_tagged tagged_vid n_untagged links_per_host n_extended : Z.
Variables e_cls_arg tmpdir_arg : option string.
Variable hw_dpid_arg : option string.
Variable switch_map : option (gmap Z string).
Variable host_namespace : option (gmap Z bool).
Variable start_port_arg : Z.
Variable port_order_arg : option (list Z).
Variable get_serialno : nat -> Z.
Variable dpids : list string.

Hypothesis Hserials : serials_ok get_serialno (length dpids).
Hypothesis Hfactory :
  forall d, d ∈ dpids ->
    is_ok (switch_datapath py_int mininet_dpid hw_dpid_arg d) = true.

Local Abbreviation hosts_n :=
  (Z.to_nat n_tagged + Z.to_nat n_untagged + Z.to_nat n_extended)%nat.
Local Abbreviation h := (hosts_n * Z.to_nat links_per_host)%nat.
Local Abbreviation st0 :=
  (base_build_init n_tagged n_untagged n_extended hw_dpid_arg switch_map
     start_port_arg port_order_arg).
Local Abbreviation nm j := (switch_name (get_serialno j)).
Local Abbreviation body :=
  (base_build_switch py_int mininet_dpid ovs_type n_tagged tagged_vid
     n_untagged links_per_host n_extended e_cls_arg tmpdir_arg hw_dpid_arg
     host_namespace get_serialno).

(** One turn of the loop up to the call of [_add_links]: the state the
    links are added to, and the host names they are added for. *)
Lemma base_build_switch_front (i : nat) (d : string)
  (ls : nat * list extended_host) (st : topo) :
  dpids !! i = Some d -> fst ls = i ->
  exists p hosts st2 ext,
    switch_name (get_serialno i) = ("s" ++ p)%string /\
    length hosts = hosts_n /\
    switch_dpids st2 = <[nm i := d]> (switch_dpids st) /\
    switch_ports st2 = switch_ports st /\
    same_context st st2 /\
    body d ls st
    = match _add_links (nm i) hosts links_per_host st2 with
      | Ok (_, st3) => Ok ((S i, snd ls ++ ext), st3)
      | Raise e => Raise e
      end.
Proof.
  intros Hd Hcalls.
  pose proof (lookup_lt_Some _ _ _ Hd) as Hi.
  destruct (switch_name_ok (get_serialno i)) as (p & Hp & Hname).
  { apply Hserials. exact Hi. }
  unfold base_build_switch. rewrite Hcalls.
  erewrite bind_lift by exact Hp.
  erewrite bind_run by apply map_M_tagged.
  erewrite bind_run by apply map_M_untagged_in.
  match goal with
  | |- context [bind (_add_faucet_switch _ _ _ _ _ _) _ ?s] =>
      destruct (_add_faucet_switch_run py_int mininet_dpid p d hw_dpid_arg
                  ovs_type s) as (nd & Hsrun)
  end.
  { apply Hfactory. eapply list_elem_of_lookup_2. exact Hd. }
  erewrite bind_run by exact Hsrun. clear Hsrun.
  rewrite <- Hname.
  match goal with
  | |- context [bind (_add_links _ ?hs _) _ ?s] =>
      exists p, hs, s
  end.
  eexists. split; [exact Hname|].
  split.
  { rewrite !length_app, !length_map. unfold py_range.
    rewrite !length_seqZ, !Z.sub_0_r. lia. }
  split; [reflexivity|]. split; [reflexivity|].
  split; [unfold same_context; simpl; auto|].
  unfold bind, ret.
  destruct (_add_links _ _ _ _) as [[v st3]|e]; reflexivity.
Qed.

Lemma base_build_switch_run (i : nat) (d : string)
  (ls : nat * list extended_host) (st : topo) :
  (h <= length (port_order st0))%nat ->
  dpids !! i = Some d ->
  base_shape get_serialno dpids st0 h i ls st ->
  exists ls' st',
    body d ls st = Ok (ls', st') /\
    base_shape get_serialno dpids st0 h (S i) ls' st'.
Proof.
  intros Hlong Hd (Hcalls & Hctx & Hsw & Hfresh).
  pose proof (lookup_lt_Some _ _ _ Hd) as Hi.
  destruct (base_build_switch_front i d ls st Hd Hcalls)
    as (p & hosts & st2 & ext & Hname & Hhosts & D2 & P2 & Hctx2 & Hbody).
  rewrite Hbody. clear Hbody.
  destruct Hctx as (Cx1 & Cx2 & Cx3 & Cx4 & Cx5).
  destruct Hctx2 as (Cy1 & Cy2 & Cy3 & Cy4 & Cy5).
  assert (Hnew : forall j, (j < i)%nat -> nm i <> nm j).
  { intros j Hj E.
    apply (serials_ok_names _ _ _ _ Hserials) in E; lia. }
  pose proof (Hfresh (nm i) Hnew) as Fp.
  destruct (_add_links_run (nm i) hosts links_per_host st2)
    as (st3 & Hal & Hfr3 & Hp3).
  { rewrite Hhosts, Cy4, Cx4. exact Hlong. }
  rewrite Hhosts in Hal, Hp3. rewrite Hal.
  rewrite P2, Fp in Hp3. simpl in Hp3.
  rewrite (ports_range_frame st0 st2) in Hp3 by congruence.
  destruct Hfr3 as (_ & D3 & _ & _ & W3 & V3 & S3 & O3 & K3).
  rewrite D2 in D3.
  eexists _, st3. split; [reflexivity|].
  unfold base_shape. simpl fst.
  split; [reflexivity|].
  split; [unfold same_context; repeat split; congruence|].
  split.
  - intros j Hj. destruct (decide (j = i)) as [->|Hji].
    + rewrite Hp3, D3, !lookup_insert_eq, Hd. auto.
    + assert (nm j <> nm i).
      { intros E. apply (serials_ok_names _ _ _ _ Hserials) in E; lia. }
      rewrite Hp3, D3, !lookup_insert_ne by congruence.
      apply Hsw. lia.
  - intros n Hn. assert (n <> nm i) by (apply Hn; lia).
    rewrite Hp3, lookup_insert_ne by congruence.
    apply Hfresh. intros j Hj. apply Hn. lia.
Qed.

Lemma base_for_each_run (rest : list string) :
  (h <= length (port_order st0))%nat ->
  forall (done : list string) (ls : nat * list extended_host) (st : topo),
  dpids = done ++ rest ->
  base_shape get_serialno dpids st0 h (length done) ls st ->
  exists ls' st',
    for_each rest body ls st = Ok (ls', st') /\
    base_shape get_serialno dpids st0 h (length dpids) ls' st'.
Proof.
  intros Hlong.
  induction rest as [|d rest IH]; intros done ls st Hds Hshape.
  - exists ls, st. split; [reflexivity|].
    assert (length dpids = length done) as ->
      by (rewrite Hds, app_nil_r; reflexivity).
    exact Hshape.
  - destruct (base_build_switch_run (length done) d ls st Hlong)
      as (ls1 & st1 & H1 & S1).
    { rewrite Hds. apply list_lookup_middle. reflexivity. }
    { exact Hshape. }
    destruct (IH (done ++ [d]) ls1 st1) as (ls' & st' & Hrun & S').
    { rewrite Hds, <- app_assoc. reflexivity. }
    { rewrite length_app, Nat.add_1_r. exact S1. }
    exists ls', st'. simpl for_each. erewrite bind_run by exact H1.
    split; assumption.
Qed.

Lemma base_init_shape :
  base_shape get_serialno dpids st0 h 0 (O, []) st0.
Proof.
  unfold base_shape. simpl.
  split; [reflexivity|]. split; [unfold same_context; auto|].
  split; [intros j Hj; lia|]. intros n _. apply lookup_empty.
Qed.

(** The base build returns when the port order covers the host links of
    a switch. *)
Lemma base_build_run :
  (h <= length (port_order st0))%nat ->
  exists self log,
    base_build py_int mininet_dpid ovs_type n_tagged tagged_vid n_untagged
      links_per_host n_extended e_cls_arg tmpdir_arg hw_dpid_arg switch_map
      host_namespace start_port_arg port_order_arg get_serialno dpids
    = Ok (self, log) /\
    forall j, (j < length dpids)%nat ->
      switch_ports self !! nm j = Some (ports_range st0 0 h) /\
      switch_dpids self !! nm j = dpids !! j.
Proof.
  intros Hlong.
  destruct (base_for_each_run dpids Hlong [] (O, []) st0)
    as ([calls log] & self & Hrun & Hshape);
    [reflexivity|apply base_init_shape|].
  exists self, log. unfold base_build. rewrite Hrun.
  split; [reflexivity|]. destruct Hshape as (_ & _ & Hsw & _). exact Hsw.
Qed.

(** The base build raises IndexError at its first switch when the port
    order does not cover the host links of a switch. *)
Lemma base_build_short (d : string) (rest : list string) :
  dpids = d :: rest ->
  (length (port_order st0) < h)%nat ->
  base_build py_int mininet_dpid ovs_type n_tagged tagged_vid n_untagged
    links_per_host n_extended e_cls_arg tmpdir_arg hw_dpid_arg switch_map
    host_namespace start_port_arg port_order_arg get_serialno dpids
  = Raise IndexError.
Proof.
  intros Hds Hshort.
  assert (Hd : dpids !! 0%nat = Some d) by (rewrite Hds; reflexivity).
  destruct (base_build_switch_front 0 d (O, []) st0 Hd eq_refl)
    as (p & hosts & st2 & ext & Hname & Hhosts & D2 & P2 & Hctx2 & Hbody).
  unfold base_build. rewrite Hds. simpl for_each.
  apply (f_equal (fun r => match r with
                           | Ok (_, log, self) => Ok (self, log)
                           | Raise e => Raise e
                           end)
           (x := bind (body d (O, [])) _ st0) (y := Raise IndexError)).
  apply bind_raise. rewrite Hbody.
  rewrite _add_links_short; [reflexivity|].
  destruct Hctx2 as (_ & _ & _ & Cy4 & _). rewrite Hhosts, Cy4. exact Hshort.
Qed.

End BaseRun.

Lemma extend_port_order_default_length (n : Z) :
  length (extend_port_order None n) = Z.to_nat (n + 1).
Proof.
  rewrite extend_port_order_unfold. simpl. unfold py_range.
  rewrite length_seqZ. f_equal. lia.
Qed.

Lemma ports_range_base_default (T U E : Z) (hw : option string)
  (sm : option (gmap Z string)) (sp : Z) (n : nat) :
  Z.of_nat n <= T + U + E + 1 ->
  ports_range (base_build_init T U E hw sm sp None) 0 n
  = seqZ sp (Z.of_nat n).
Proof.
  intros Hn. apply list_eq. intros i.
  unfold ports_range. rewrite list_lookup_fmap.
  destruct (decide (i < n)%nat) as [Hi|Hi].
  - rewrite lookup_seq_lt by exact Hi. simpl.
    rewrite lookup_seqZ_lt by lia. f_equal.
    unfold port_at, base_build_init. simpl. f_equal.
    rewrite extend_port_order_unfold. simpl.
    unfold py_range. rewrite lookup_seqZ_lt by lia. reflexivity.
  - rewrite lookup_seq_ge by lia. simpl. symmetry.
    apply lookup_seqZ_ge. lia.
Qed.

(** With the default port order the base build raises IndexError as
    soon as a switch needs more host links than it has hosts plus one:
    the port order is extended to the number of hosts, not to the
    number of host links. *)
Theorem base_build_IndexError
  (py_int : string -> result Z) (mininet_dpid : string -> result string)
  (ovs_type : string)
  (n_tagged tagged_vid n_untagged links_per_host n_extended : Z)
  (e_cls_arg tmpdir_arg hw_dpid_arg : option string)
  (switch_map : option (gmap Z string))
  (host_namespace : option (gmap Z bool)) (start_port_arg : Z)
  (get_serialno : nat -> Z) (d : string) (rest : list string) :
  0 <= n_tagged -> 0 <= n_untagged -> 0 <= n_extended ->
  n_tagged + n_untagged + n_extended + 1
    < (n_tagged + n_untagged + n_extended) * links_per_host ->
  serials_ok get_serialno (length (d :: rest)) ->
  (forall d', d' ∈ d :: rest ->
     is_ok (switch_datapath py_int mininet_dpid hw_dpid_arg d') = true) ->
  base_build py_int mininet_dpid ovs_type n_tagged tagged_vid n_untagged
    links_per_host n_extended e_cls_arg tmpdir_arg hw_dpid_arg switch_map
    host_namespace start_port_arg None get_serialno (d :: rest)
  = Raise IndexError.
Proof.
  intros HT HU HE Hshort Hser Hfac.
  apply (base_build_short py_int mininet_dpid ovs_type n_tagged tagged_vid
           n_untagged links_per_host n_extended e_cls_arg tmpdir_arg
           hw_dpid_arg switch_map host_namespace start_port_arg None
           get_serialno (d :: rest) Hser Hfac d rest eq_refl).
  unfold base_build_init. simpl port_order.
  rewrite extend_port_order_default_length. nia.
Qed.

Lemma base_build_IndexError_witness :
  base_build int_of_decimal plain_dpid "system" 0 100 2 2 0 None None None
    None None 5 None count_serialno ["1"]%string
  = Raise IndexError.
Proof.
  apply (base_build_IndexError int_of_decimal plain_dpid "system" 0 100 2 2
           0 None None None None None 5 count_serialno "1" []).
  - lia.
  - lia.
  - lia.
  - lia.
  - split.
    + intros i Hi. unfold count_serialno. simpl in Hi. lia.
    + intros i j _ _ H. unfold count_serialno in H. lia.
  - intros d' _. reflexivity.
Defined.

(** The base build returns when no switch needs more host links than it
    has hosts plus one (one link per host, say): every switch then has
    one port per host link, the j-th dpid is registered under the j-th
    switch name, and with the default port order the ports are the
    consecutive numbers from [start_port]. *)
Theorem base_build_ports
  (py_int : string -> result Z) (mininet_dpid : string -> result string)
  (ovs_type : string)
  (n_tagged tagged_vid n_untagged links_per_host n_extended : Z)
  (e_cls_arg tmpdir_arg hw_dpid_arg : option string)
  (switch_map : option (gmap Z string))
  (host_namespace : option (gmap Z bool)) (start_port_arg : Z)
  (port_order_arg : option (list Z)) (get_serialno : nat -> Z)
  (dpids : list string) :
  0 <= n_tagged -> 0 <= n_untagged -> 0 <= n_extended ->
  0 <= links_per_host ->
  (n_tagged + n_untagged + n_extended) * links_per_host
    <= n_tagged + n_untagged + n_extended + 1 ->
  serials_ok get_serialno (length dpids) ->
  (forall d, d ∈ dpids ->
     is_ok (switch_datapath py_int mininet_dpid hw_dpid_arg d) = true) ->
  exists self log,
    base_build py_int mininet_dpid ovs_type n_tagged tagged_vid n_untagged
      links_per_host n_extended e_cls_arg tmpdir_arg hw_dpid_arg switch_map
      host_namespace start_port_arg port_order_arg get_serialno dpids
    = Ok (self, log) /\
    forall j, (j < length dpids)%nat ->
      exists ports,
        switch_ports self !! switch_name (get_serialno j) = Some ports /\
        switch_dpids self !! switch_name (get_serialno j) = dpids !! j /\
        Z.of_nat (length ports)
        = (n_tagged + n_untagged + n_extended) * links_per_host /\
        (port_order_arg = None ->
         ports = seqZ start_port_arg (Z.of_nat (length ports))).
Proof.
  intros HT HU HE HL Hfit Hser Hfac.
  destruct (base_build_run py_int mininet_dpid ovs_type n_tagged tagged_vid
              n_untagged links_per_host n_extended e_cls_arg tmpdir_arg
              hw_dpid_arg switch_map host_namespace start_port_arg
              port_order_arg get_serialno dpids Hser Hfac)
    as (self & log & Hrun & Hsw).
  { unfold base_build_init. simpl port_order.
    pose proof (extend_port_order_length_ge port_order_arg
                  (n_tagged + n_untagged + n_extended)).
    nia. }
  exists self, log. split; [exact Hrun|].
  intros j Hj. destruct (Hsw j Hj) as (Hp & Hd).
  eexists. split; [exact Hp|]. split; [exact Hd|].
  rewrite ports_range_length. split; [nia|].
  intros ->. apply ports_range_base_default. nia.
Qed.

Lemma base_build_ports_witness :
  exists self log,
    base_build int_of_decimal plain_dpid "system" 1 100 2 1 1 (Some "E") None
      None None (Some (<[1 := false]> ∅)) 5 None count_serialno
      ["1"; "2"]%string
    = Ok (self, log) /\
    switch_ports self !! switch_name (count_serialno 1) = Some [5; 6; 7; 8].
Proof.
  destruct (base_build_ports int_of_decimal plain_dpid "system" 1 100 2 1 1
              (Some "E"%string) None None None (Some (<[1 := false]> ∅)) 5
              None count_serialno ["1"; "2"]%string)
    as (self & log & Hrun & Hall).
  - lia.
  - lia.
  - lia.
  - lia.
  - lia.
  - split.
    + intros i Hi. unfold count_serialno. simpl in Hi. lia.
    + intros i j _ _ H. unfold count_serialno in H. lia.
  - intros d _. reflexivity.
  - exists self, log. split; [exact Hrun|].
    destruct (Hall 1%nat) as (ports & Hp & _ & Hlen & Hdef); [simpl; lia|].
    rewrite Hp. f_equal. rewrite (Hdef eq_refl).
    replace (Z.of_nat (length ports)) with 4 by (rewrite Hlen; reflexivity).
    reflexivity.
Defined.

(** ** The node log of a build *)

Lemma py_str_inj (a b : Z) : py_str a = py_str b -> a = b.
Proof.
  unfold py_str. intros H.
  assert (Hnn : forall n, Z.to_int n <> Decimal.Pos Decimal.Nil
                          /\ Z.to_int n <> Decimal.Neg Decimal.Nil).
  { intros n. split; intros E; pose proof (f_equal Z.of_int E) as E';
      rewrite DecimalZ.of_to in E'; simpl in E'; subst n; discriminate E. }
  apply (f_equal NilZero.int_of_string) in H.
  rewrite !NilZero.isi in H by apply Hnn.
  injection H as H. apply DecimalZ.to_int_inj. exact H.
Qed.

Lemma host_name_inj (role p : string) (a b : Z) :
  host_name role p a = host_name role p b -> a = b.
Proof.
  unfold host_name. intros H.
  apply (inj (String.append role)) in H.
  apply (inj (String.append p)) in H.
  apply py_str_inj in H. lia.
Qed.

Lemma _add_faucet_switch_node
  (py_int : string -> result Z) (mininet_dpid : string -> result string)
  (p dpid : string) (hw : option string) (ovs_type : string)
  (st : topo) (name : string) (st' : topo) :
  _add_faucet_switch py_int mininet_dpid p dpid hw ovs_type st
    = Ok (name, st') ->
  name = ("s" ++ p)%string /\
  exists nd,
    node_name nd = name /\
    nodes st' = nodes st ++ [nd].
Proof.
  unfold _add_faucet_switch, bind, modify, ret, lift. intros Hrun.
  destruct (truthy hw && bool_decide (hw = Some dpid)).
  - destruct (py_int dpid) as [n|e]; [|discriminate].
    destruct (mininet_dpid (py_str (n + 1))) as [md|e]; [|discriminate].
    injection Hrun as <- <-. split; [reflexivity|].
    eexists. split; [|reflexivity]. reflexivity.
  - destruct (mininet_dpid dpid) as [md|e]; [|discriminate].
    injection Hrun as <- <-. split; [reflexivity|].
    eexists. split; [|reflexivity]. reflexivity.
Qed.

Lemma sid_prefix_of_ok (s : Z) :
  0 <= s < 3844 ->
  exists ca cb,
    sid_prefix_of s = String ca (String cb EmptyString) /\
    _get_sid_prefix s = Ok (sid_prefix_of s).
Proof.
  intros Hs. destruct (_get_sid_prefix_in_range s Hs) as (a & b & _ & _ & E).
  unfold sid_prefix_of. rewrite E. eauto.
Qed.

Lemma sid_prefix_of_inj (s1 s2 : Z) :
  0 <= s1 < 3844 -> 0 <= s2 < 3844 ->
  sid_prefix_of s1 = sid_prefix_of s2 -> s1 = s2.
Proof.
  intros H1 H2 E.
  destruct (sid_prefix_of_ok s1 H1) as (_ & _ & _ & E1).
  destruct (sid_prefix_of_ok s2 H2) as (_ & _ & _ & E2).
  apply _get_sid_prefix_inj; [assumption|assumption|]. congruence.
Qed.

Lemma switch_node_names_shape (T U : Z) (ca cb : ascii) (x : string) :
  x ∈ switch_node_names T U (String ca (String cb EmptyString)) ->
  exists c rest, x = String c (String ca (String cb rest)).
Proof.
  unfold switch_node_names. rewrite !elem_of_app.
  intros [H|[H|H]].
  - apply list_elem_of_fmap in H as (n & -> & _).
    eexists _, _. reflexivity.
  - apply list_elem_of_fmap in H as (n & -> & _).
    eexists _, _. reflexivity.
  - apply list_elem_of_singleton in H as ->. eexists _, _. reflexivity.
Qed.

Lemma switch_node_names_NoDup (T U : Z) (p : string) :
  NoDup (switch_node_names T U p).
Proof.
  unfold switch_node_names, py_range.
  apply NoDup_app. split; [|split].
  - apply NoDup_fmap_2_strong; [|apply NoDup_seqZ].
    intros a b _ _ H. exact (host_name_inj _ _ _ _ H).
  - intros x Hx Hin.
    apply list_elem_of_fmap in Hx as (n & -> & _).
    apply elem_of_app in Hin as [Hin|Hin].
    + apply list_elem_of_fmap in Hin as (m & Hm & _). discriminate.
    + apply list_elem_of_singleton in Hin. discriminate.
  - apply NoDup_app. split; [|split].
    + apply NoDup_fmap_2_strong; [|apply NoDup_seqZ].
      intros a b _ _ H. exact (host_name_inj _ _ _ _ H).
    + intros x Hx Hin.
      apply list_elem_of_fmap in Hx as (n & -> & _).
      apply list_elem_of_singleton in Hin. discriminate.
    + apply NoDup_singleton.
Qed.

Lemma flat_map_bind {A B} (f : A -> list B) (l : list A) :
  flat_map f l = l ≫= f.
Proof. induction l as [|x l IH]; [reflexivity|]. simpl. rewrite IH. reflexivity. Qed.

Lemma node_names_NoDup (T U : Z) (get_serialno : nat -> Z) (n : nat) :
  serials_ok get_serialno n ->
  NoDup (flat_map
           (fun j => switch_node_names T U (sid_prefix_of (get_serialno j)))
           (seq 0 n)).
Proof.
  intros [Hrange Hinj]. rewrite flat_map_bind. apply NoDup_bind.
  - intros j1 j2 x Hj1 Hj2 H1 H2.
    apply elem_of_seq in Hj1. apply elem_of_seq in Hj2.
    destruct (sid_prefix_of_ok (get_serialno j1)) as (a1 & b1 & E1 & _);
      [apply Hrange; lia|].
    destruct (sid_prefix_of_ok (get_serialno j2)) as (a2 & b2 & E2 & _);
      [apply Hrange; lia|].
    rewrite E1 in H1. rewrite E2 in H2.
    apply switch_node_names_shape in H1 as (c1 & r1 & ->).
    apply switch_node_names_shape in H2 as (c2 & r2 & H2).
    injection H2 as _ <- <- _.
    apply Hinj; [lia|lia|].
    apply sid_prefix_of_inj; [apply Hrange; lia|apply Hrange; lia|].
    congruence.
  - intros j _. apply switch_node_names_NoDup.
  - apply NoDup_seq.
Qed.

Section BuildNodes.

Variable py_int : string -> result Z.
Variable mininet_dpid : string -> result string.
Variable ovs_type : string.
Variables n_tagged tagged_vid n_untagged : Z.
Variables links_per_host switch_to_switch_links_arg : Z.
Variable hw_dpid_arg : option string.
Variable switch_map : option (gmap Z string).
Variable stack_ring : bool.
Variable start_port_arg : Z.
Variable port_order_arg : option (list Z).
Variable get_serialno : nat -> Z.

Local Abbreviation body :=
  (build_switch py_int mininet_dpid ovs_type n_tagged tagged_vid n_untagged
     links_per_host hw_dpid_arg get_serialno).
Local Abbreviation names_upto i :=
  (flat_map
     (fun j => switch_node_names n_tagged n_untagged
                 (sid_prefix_of (get_serialno j)))
     (seq 0 i)).

Lemma build_switch_nodes (dpid : string) (ls : loop_state) (st : topo)
  (ls' : loop_state) (st' : topo) :
  0 <= get_serialno (serial_calls ls) < 3844 ->
  body dpid ls st = Ok (ls', st') ->
  serial_calls ls' = S (serial_calls ls) /\
  map node_name (nodes st')
  = map node_name (nodes st)
    ++ switch_node_names n_tagged n_untagged
         (sid_prefix_of (get_serialno (serial_calls ls))).
Proof.
  intros Hs. unfold build_switch. intros Hrun. run_inv Hrun.
  destruct (sid_prefix_of_ok _ Hs) as (_ & _ & _ & Hp).
  rewrite Hp in Hrun0. injection Hrun0 as <-.
  rewrite map_M_tagged in Hrun1. injection Hrun1 as <- <-.
  rewrite map_M_untagged in Hrun2. injection Hrun2 as <- <-.
  apply _add_faucet_switch_node in Hrun3 as (-> & nd & Hnd & Hnodes).
  apply _add_links_frame in Hrun4.
  assert (E : nodes st3 = nodes st2) by (destruct Hrun4 as (_ & _ & _ & E & _); exact E).
  assert (Hall : map node_name (nodes st3)
                 = map node_name (nodes st)
                   ++ switch_node_names n_tagged n_untagged
                        (sid_prefix_of (get_serialno (serial_calls ls)))).
  { rewrite E, Hnodes. unfold append_nodes. simpl nodes.
    rewrite !map_app, !map_map. simpl. rewrite Hnd.
    unfold switch_node_names. rewrite <- !app_assoc. reflexivity. }
  destruct (first_switch ls) as [first|].
  - apply bind_ok in Hrun as (ni & st4 & Hadd & Hrun).
    apply ret_ok in Hrun as [-> ->].
    destruct (last_switch ls) as [last|]; [|discriminate].
    apply addLinks_inv in Hadd as [(_ & _ & E4 & _) _].
    simpl. rewrite E4. split; [reflexivity|exact Hall].
  - apply ret_ok in Hrun as [-> ->]. simpl. split; [reflexivity|exact Hall].
Qed.

Lemma for_each_nodes (rest : list string) :
  forall (ls : loop_state) (st : topo) (ls' : loop_state) (st' : topo),
  (forall k, (k < serial_calls ls + length rest)%nat ->
     0 <= get_serialno k < 3844) ->
  for_each rest body ls st = Ok (ls', st') ->
  map node_name (nodes st) = names_upto (serial_calls ls) ->
  serial_calls ls' = (serial_calls ls + length rest)%nat /\
  map node_name (nodes st') = names_upto (serial_calls ls + length rest).
Proof.
  induction rest as [|d rest IH]; intros ls st ls' st' Hser Hrun Hnames;
    simpl in Hrun.
  - apply ret_ok in Hrun as [-> ->]. simpl. rewrite Nat.add_0_r. auto.
  - apply bind_ok in Hrun as (ls1 & st1 & Hstep & Hrun).
    apply build_switch_nodes in Hstep as (Hc & Hn);
      [|apply Hser; simpl; lia].
    destruct (IH ls1 st1 ls' st') as (Hc' & Hn').
    + intros k Hk. apply Hser. simpl. lia.
    + exact Hrun.
    + rewrite Hn, Hnames, Hc.
      rewrite seq_S, flat_map_app. simpl. rewrite app_nil_r. reflexivity.
    + rewrite Hc in Hc', Hn'. simpl length.
      replace (serial_calls ls + S (length rest))%nat
        with (S (serial_calls ls) + length rest)%nat by lia.
      auto.
Qed.

(** The nodes of a build: the loop adds, switch by switch, the tagged
    hosts t<prefix>1.., the untagged hosts u<prefix>1.. and the switch
    s<prefix>, and no two nodes get the same name. *)
Theorem build_node_names (dpids : list string) (self : topo) :
  serials_ok get_serialno (length dpids) ->
  build py_int mininet_dpid ovs_type n_tagged tagged_vid n_untagged
    links_per_host switch_to_switch_links_arg hw_dpid_arg switch_map
    stack_ring start_port_arg port_order_arg get_serialno dpids = Ok self ->
  map node_name (nodes self)
  = flat_map
      (fun j => switch_node_names n_tagged n_untagged
                  (sid_prefix_of (get_serialno j)))
      (seq 0 (length dpids)) /\
  NoDup (map node_name (nodes self)).
Proof.
  intros Hser. unfold build, build_loop.
  destruct (bind _ _ _) as [[ls' st']|e] eqn:Hrun; [|discriminate].
  intros Heq. injection Heq as <-.
  apply bind_ok in Hrun as (ls & st & Hloop & Hrun).
  apply for_each_nodes in Hloop as (_ & Hn);
    [|intros k Hk; apply Hser; simpl in Hk; lia|reflexivity].
  simpl in Hn.
  assert (E : nodes st' = nodes st).
  { destruct stack_ring.
    - destruct (first_switch ls) as [first|]; [|discriminate].
      destruct (last_switch ls) as [last|]; [|discriminate].
      apply bind_ok in Hrun as (ni & st1 & Hadd & Hrun).
      apply ret_ok in Hrun as [_ ->].
      apply addLinks_inv in Hadd as [(_ & _ & E & _) _]. exact E.
    - apply ret_ok in Hrun as [_ ->]. reflexivity. }
  rewrite E, Hn. split; [reflexivity|].
  apply node_names_NoDup. exact Hser.
Qed.

End BuildNodes.

Lemma build_node_names_witness :
  NoDup (map node_name
           (nodes
              (match build int_of_decimal plain_dpid "system" 1 100 2 1 1
                       None None false 5 None count_serialno
                       ["1"; "2"]%string with
               | Ok self => self
               | Raise _ => remap_context None [] 5
               end))).
Proof.
  destruct (build int_of_decimal plain_dpid "system" 1 100 2 1 1 None None
              false 5 None count_serialno ["1"; "2"]%string)
    as [self|e] eqn:E; [|vm_compute in E; discriminate].
  apply (build_node_names int_of_decimal plain_dpid "system" 1 100 2 1 1
           None None false 5 None count_serialno ["1"; "2"]%string self).
  - split.
    + intros i Hi. unfold count_serialno. simpl in Hi. lia.
    + intros i j _ _ H. unfold count_serialno in H. lia.
  - exact E.
Defined.

(** ** The TLS arguments of a controller *)

Lemma string_app_assoc (a b c : string) :
  ((a ++ b) ++ c)%string = (a ++ b ++ c)%string.
Proof.
  induction a as [|x a IH]; [reflexivity|].
  change (String x ((a ++ b) ++ c) = String x (a ++ b ++ c))%string.
  f_equal. exact IH.
Qed.

Lemma concat_snoc (sep : string) (l : list string) (x y : string) :
  String.concat sep ((x :: l) ++ [y])
  = (String.concat sep (x :: l) ++ sep ++ y)%string.
Proof.
  revert x. induction l as [|z l IH]; intros x; [reflexivity|].
  change (String.concat sep ((x :: z :: l) ++ [y]))
    with (x ++ sep ++ String.concat sep ((z :: l) ++ [y]))%string.
  rewrite IH.
  change (String.concat sep (x :: z :: l))
    with (x ++ sep ++ String.concat sep (z :: l))%string.
  rewrite !string_app_assoc. reflexivity.
Qed.

Lemma concat_dashes_nonempty (sep s : string) (l : list string) :
  String.concat sep (("--" ++ s)%string :: l) <> ""%string.
Proof. destruct l; discriminate. Qed.

(** The TLS listen port is passed exactly when a certificate parameter
    is set: with none set the argument string is empty, otherwise it is
    a non-empty string of certificate arguments followed by the listen
    port argument. *)
Theorem _tls_cargs_listen_port (ofctl_port : Z)
  (ctl_privkey ctl_cert ca_certs : option string) :
  if truthy ctl_privkey || truthy ctl_cert || truthy ca_certs
  then exists certs,
         certs <> ""%string /\
         _tls_cargs ofctl_port ctl_privkey ctl_cert ca_certs
         = (certs ++ " --ryu-ofp-ssl-listen-port=" ++ py_str ofctl_port)%string
  else _tls_cargs ofctl_port ctl_privkey ctl_cert ca_certs = ""%string.
Proof.
  unfold _tls_cargs. simpl fold_left.
  destruct (truthy ctl_privkey), (truthy ctl_cert), (truthy ca_certs);
    simpl orb; cbv iota; try reflexivity;
    simpl app; cbv beta iota;
    match goal with
    | |- context [String.concat " " [?a; ?b; ?c; ?y]] =>
        change [a; b; c; y] with ((a :: [b; c]) ++ [y])
    | |- context [String.concat " " [?a; ?b; ?y]] =>
        change [a; b; y] with ((a :: [b]) ++ [y])
    | |- context [String.concat " " [?a; ?y]] =>
        change [a; y] with ((a :: []) ++ [y])
    end;
    rewrite concat_snoc;
    eexists; (split; [apply concat_dashes_nonempty|reflexivity]).
Qed.

(** ** A ring of one switch *)

Lemma flat_map_seq_S {B} (f : nat -> list B) (k : nat) :
  flat_map f (seq 0 (S k)) = f 0%nat ++ flat_map (fun i => f (S i)) (seq 0 k).
Proof.
  simpl. f_equal.
  rewrite <- seq_shift, !flat_map_concat_map, map_map. reflexivity.
Qed.

Lemma self_ports_S (st : topo) (a k : nat) :
  self_ports st a (S k)
  = [port_at st a; port_at st a] ++ self_ports st (a + 2) k.
Proof.
  unfold self_ports. rewrite flat_map_seq_S.
  replace (a + 2 * 0)%nat with a by lia. f_equal.
  apply flat_map_ext. intros i.
  replace (a + 2 * S i)%nat with (a + 2 + 2 * i)%nat by lia. reflexivity.
Qed.

Lemma self_links_S (st : topo) (a : nat) (d : string) (k : nat) :
  self_links st a d (S k)
  = [mk_peer_link (port_at st a) d (port_at st a);
     mk_peer_link (port_at st a) d (port_at st a)]
    ++ self_links st (a + 2) d k.
Proof.
  unfold self_links. rewrite flat_map_seq_S.
  replace (a + 2 * 0)%nat with a by lia. f_equal.
  apply flat_map_ext. intros i.
  replace (a + 2 * S i)%nat with (a + 2 + 2 * i)%nat by lia. reflexivity.
Qed.

Lemma self_ports_frame (st st' : topo) (a k : nat) :
  start_port st' = start_port st -> port_order st' = port_order st ->
  self_ports st' a k = self_ports st a k.
Proof.
  intros H1 H2. unfold self_ports, port_at. rewrite H1, H2. reflexivity.
Qed.

Lemma self_links_frame (st st' : topo) (a : nat) (d : string) (k : nat) :
  start_port st' = start_port st -> port_order st' = port_order st ->
  self_links st' a d k = self_links st a d k.
Proof.
  intros H1 H2. unfold self_links, port_at. rewrite H1, H2. reflexivity.
Qed.

Lemma self_ports_length (st : topo) (a k : nat) :
  length (self_ports st a k) = (2 * k)%nat.
Proof.
  revert a. induction k as [|k IH]; intros a; [reflexivity|].
  rewrite self_ports_S, length_app, IH. simpl. lia.
Qed.

Lemma self_links_loops (st : topo) (a : nat) (d : string) (k : nat) :
  Forall (fun r => peer_dpid r = d /\ port r = peer_port r)
    (self_links st a d k).
Proof.
  revert a. induction k as [|k IH]; intros a; [constructor|].
  rewrite self_links_S. simpl.
  constructor; [auto|]. constructor; [auto|]. apply IH.
Qed.

(** One turn of the loop of [addLinks] from a switch to itself. *)
Lemma addLinks_self_body (s d : string) (a : nat) (ni : gmap string Z)
  (st : topo) (ps : list Z) (l : list peer_link) :
  ni !! s = Some (Z.of_nat a) ->
  switch_ports st !! s = Some ps ->
  switch_peer_links st !! s = Some l ->
  (a < length (port_order st))%nat ->
  exists ni1 st1,
    (let* index1 := lift (py_getitem ni s) in
     let* index2 := lift (py_getitem ni s) in
     let* port1 := order_port index1 in
     let* port2 := order_port index2 in
     modify (add_link (mk_link s s port1 (Some port2))) ;;
     append_port s port1 ;;
     append_port s port2 ;;
     append_peer_link s (mk_peer_link port1 d port2) ;;
     append_peer_link s (mk_peer_link port2 d port1) ;;
     let* next_index := lift (py_incr ni s) in
     let* next_index := lift (py_incr next_index s) in
     ret next_index) st
    = Ok (ni1, st1) /\
    ni1 !! s = Some (Z.of_nat (a + 2)) /\
    unchanged_names st st1 /\
    switch_ports st1 !! s = Some (ps ++ [port_at st a; port_at st a]) /\
    switch_peer_links st1 !! s
    = Some (l ++ [mk_peer_link (port_at st a) d (port_at st a);
                  mk_peer_link (port_at st a) d (port_at st a)]).
Proof.
  intros Ha Hps Hl Hla.
  erewrite bind_lift by (apply py_getitem_run; exact Ha).
  erewrite bind_lift by (apply py_getitem_run; exact Ha).
  erewrite bind_run by (apply order_port_run; exact Hla).
  erewrite bind_run by (apply order_port_run; exact Hla).
  rewrite bind_modify.
  erewrite bind_run by (apply (append_port_run s _ _ ps); exact Hps).
  erewrite bind_run.
  2:{ apply (append_port_run s _ _ (ps ++ [port_at st a])). simpl.
      apply lookup_insert_eq. }
  erewrite bind_run by (apply (append_peer_link_run s _ _ l); exact Hl).
  erewrite bind_run.
  2:{ apply (append_peer_link_run s _ _
               (l ++ [mk_peer_link (port_at st a) d (port_at st a)])).
      simpl. apply lookup_insert_eq. }
  erewrite bind_lift by (apply py_incr_run; exact Ha).
  erewrite bind_lift by (apply py_incr_run; apply lookup_insert_eq).
  unfold ret. eexists _, _. split; [reflexivity|].
  split; [rewrite lookup_insert_eq; do 2 f_equal; lia|].
  split; [destruct st; unfold unchanged_names; simpl; intuition|].
  simpl. rewrite !lookup_insert_eq, <- !app_assoc. split; reflexivity.
Qed.

Lemma addLinks_self_inner (s d : string) (k : nat) :
  forall (a : nat) (ni : gmap string Z) (st : topo) (ps : list Z)
    (l : list peer_link),
  ni !! s = Some (Z.of_nat a) ->
  switch_ports st !! s = Some ps ->
  switch_peer_links st !! s = Some l ->
  (a + 2 * k <= length (port_order st) + 1)%nat ->
  exists ni' st',
    repeat_n k (fun next_index =>
      let* index1 := lift (py_getitem next_index s) in
      let* index2 := lift (py_getitem next_index s) in
      let* port1 := order_port index1 in
      let* port2 := order_port index2 in
      modify (add_link (mk_link s s port1 (Some port2))) ;;
      append_port s port1 ;;
      append_port s port2 ;;
      append_peer_link s (mk_peer_link port1 d port2) ;;
      append_peer_link s (mk_peer_link port2 d port1) ;;
      let* next_index := lift (py_incr next_index s) in
      let* next_index := lift (py_incr next_index s) in
      ret next_index) ni st
    = Ok (ni', st') /\
    unchanged_names st st' /\
    switch_ports st' !! s = Some (ps ++ self_ports st a k) /\
    switch_peer_links st' !! s = Some (l ++ self_links st a d k).
Proof.
  induction k as [|k IH]; intros a ni st ps l Ha Hps Hl Hlen.
  - exists ni, st. split; [reflexivity|].
    split; [apply unchanged_names_refl|].
    unfold self_ports, self_links. simpl. rewrite !app_nil_r. auto.
  - destruct (addLinks_self_body s d a ni st ps l Ha Hps Hl)
      as (ni1 & st1 & Hrun1 & Hn1 & Hfr1 & Hp1 & Hq1); [lia|].
    assert (Hpo : port_order st1 = port_order st) by (clear - Hfr1; frame_solve).
    assert (Hsp : start_port st1 = start_port st) by (clear - Hfr1; frame_solve).
    destruct (IH (a + 2)%nat ni1 st1 _ _ Hn1 Hp1 Hq1)
      as (ni' & st' & Hrun & Hfr & Hp & Hq); [rewrite Hpo; lia|].
    exists ni', st'. simpl repeat_n. erewrite bind_run by exact Hrun1.
    split; [exact Hrun|].
    split; [eapply unchanged_names_trans; eassumption|].
    rewrite Hp, Hq.
    rewrite (self_ports_frame st st1), (self_links_frame st st1)
      by assumption.
    rewrite self_ports_S, self_links_S, <- !app_assoc. auto.
Qed.

(** [addLinks] from a registered switch to itself. *)
Lemma addLinks_self_run (s d : string) (a : nat) (ni : gmap string Z)
  (st : topo) (ps : list Z) :
  switch_dpids st !! s = Some d ->
  ni !! s = Some (Z.of_nat a) ->
  switch_ports st !! s = Some ps ->
  (a + 2 * Z.to_nat (switch_to_switch_links st)
   <= length (port_order st) + 1)%nat ->
  exists ni' st',
    addLinks s s ni st = Ok (ni', st') /\
    unchanged_names st st' /\
    switch_ports st' !! s
    = Some (ps ++ self_ports st a (Z.to_nat (switch_to_switch_links st))) /\
    switch_peer_links st' !! s
    = Some (default [] (switch_peer_links st !! s)
            ++ self_links st a d (Z.to_nat (switch_to_switch_links st))).
Proof.
  intros Hd Ha Hps Hlen.
  unfold addLinks. rewrite !bind_modify, bind_get.
  set (st0 := set_switch_peer_links (fun m => py_setdefault m s [])
                (set_switch_peer_links (fun m => py_setdefault m s []) st)).
  assert (E6 : switch_peer_links st0 !! s
               = Some (default [] (switch_peer_links st !! s))).
  { subst st0. simpl. rewrite py_setdefault_lookup, py_setdefault_lookup.
    reflexivity. }
  assert (Hfr0 : unchanged_names st st0).
  { subst st0. destruct st. unfold unchanged_names. simpl. intuition. }
  erewrite bind_lift by (apply py_getitem_run; exact Hd).
  erewrite bind_lift by (apply py_getitem_run; exact Hd).
  unfold for_range.
  change (switch_to_switch_links st0) with (switch_to_switch_links st).
  destruct (addLinks_self_inner s d (Z.to_nat (switch_to_switch_links st))
              a ni st0 ps _ Ha Hps E6 Hlen)
    as (ni' & st' & Hrun & Hfr & Hp & Hq).
  exists ni', st'. split; [exact Hrun|].
  split; [exact (unchanged_names_trans _ _ _ Hfr0 Hfr)|].
  rewrite Hp, Hq. split; reflexivity.
Qed.

(** A ring build of a single switch links the switch to itself: the
    build returns, each of the K links takes one place of the port order
    for both of its ends, so the port list holds the host ports and
    then each link port twice, and every peer link names the switch's
    own dpid with the same port at both ends. *)
Theorem build_ring_single
  (py_int : string -> result Z) (mininet_dpid : string -> result string)
  (ovs_type : string) (n_tagged tagged_vid n_untagged links_per_host : Z)
  (switch_to_switch_links_arg : Z) (hw_dpid_arg : option string)
  (switch_map : option (gmap Z string)) (start_port_arg : Z)
  (port_order_arg : option (list Z)) (get_serialno : nat -> Z)
  (d : string) :
  0 <= n_tagged -> 0 <= n_untagged -> 0 <= links_per_host ->
  0 <= switch_to_switch_links_arg ->
  0 <= get_serialno 0%nat < 3844 ->
  is_ok (switch_datapath py_int mininet_dpid hw_dpid_arg d) = true ->
  exists self ports links,
    build py_int mininet_dpid ovs_type n_tagged tagged_vid n_untagged
      links_per_host switch_to_switch_links_arg hw_dpid_arg switch_map
      true start_port_arg port_order_arg get_serialno [d] = Ok self /\
    switch_ports self !! switch_name (get_serialno 0%nat) = Some ports /\
    switch_peer_links self !! switch_name (get_serialno 0%nat)
      = Some links /\
    ports
    = ports_range
        (build_init n_tagged n_untagged links_per_host
           switch_to_switch_links_arg hw_dpid_arg switch_map start_port_arg
           port_order_arg) 0
        ((Z.to_nat n_tagged + Z.to_nat n_untagged)
         * Z.to_nat links_per_host)
      ++ self_ports
           (build_init n_tagged n_untagged links_per_host
              switch_to_switch_links_arg hw_dpid_arg switch_map
              start_port_arg port_order_arg)
           ((Z.to_nat n_tagged + Z.to_nat n_untagged)
            * Z.to_nat links_per_host)
           (Z.to_nat switch_to_switch_links_arg) /\
    Z.of_nat (length ports)
    = (n_tagged + n_untagged) * links_per_host
      + 2 * switch_to_switch_links_arg /\
    Z.of_nat (length links) = 2 * switch_to_switch_links_arg /\
    Forall (fun r => peer_dpid r = d /\ port r = peer_port r) links.
Proof.
  intros HT HU HL HK Hs Hfac.
  assert (Hser : serials_ok get_serialno (length [d])).
  { split.
    - intros i Hi. simpl in Hi. assert (i = 0%nat) as -> by lia. exact Hs.
    - intros i j Hi Hj _. simpl in Hi, Hj. lia. }
  assert (Hfacs : forall d', d' ∈ [d] ->
            is_ok (switch_datapath py_int mininet_dpid hw_dpid_arg d') = true).
  { intros d' Hd'. apply list_elem_of_singleton in Hd' as ->. exact Hfac. }
  destruct (build_loop_run py_int mininet_dpid ovs_type n_tagged tagged_vid
              n_untagged links_per_host switch_to_switch_links_arg
              hw_dpid_arg switch_map start_port_arg port_order_arg
              get_serialno [d] HT HU HL HK Hser Hfacs)
    as (ls & st & Hrun & Hshape & _).
  pose proof (port_order_long n_tagged n_untagged links_per_host
                switch_to_switch_links_arg hw_dpid_arg switch_map
                start_port_arg port_order_arg HT HU HL HK) as Hlong.
  destruct Hshape as (_ & Hfirst & Hlast & Hctx & Hsw & _).
  simpl in Hfirst, Hlast.
  destruct (Hsw 0%nat ltac:(simpl; lia)) as (Hp & Hn & Hd & Hq).
  simpl in Hd, Hq.
  unfold chain_degree in Hp, Hn. simpl in Hp, Hn.
  rewrite Nat.mul_0_r, Nat.add_0_r in Hp, Hn.
  destruct Hctx as (Cx1 & Cx2 & Cx3 & Cx4 & Cx5).
  destruct (addLinks_self_run _ d _ _ st _ Hd Hn Hp)
    as (ni & self & Hadd & Hfr & Hps & Hqs).
  { rewrite Cx5, Cx4. simpl switch_to_switch_links. lia. }
  rewrite Cx5 in Hps, Hqs. simpl switch_to_switch_links in Hps, Hqs.
  rewrite (self_ports_frame _ st _ _ Cx3 Cx4) in Hps.
  rewrite (self_links_frame _ st _ _ _ Cx3 Cx4) in Hqs.
  rewrite Hq in Hqs. simpl in Hqs.
  eexists self, _, _. split.
  { unfold build, build_loop. erewrite bind_run by exact Hrun.
    rewrite Hfirst, Hlast. erewrite bind_run by exact Hadd. reflexivity. }
  split; [exact Hps|]. split; [exact Hqs|]. split; [reflexivity|].
  split; [rewrite length_app, ports_range_length, self_ports_length; nia|].
  split; [|apply self_links_loops].
  assert (Hlen : forall st a k, length (self_links st a d k) = (2 * k)%nat).
  { intros st' a k. revert a. induction k as [|k IH]; intros a; [reflexivity|].
    rewrite self_links_S, length_app, IH. simpl. lia. }
  rewrite Hlen. lia.
Qed.

Lemma build_ring_single_witness :
  exists self,
    build int_of_decimal plain_dpid "system" 0 100 2 1 1 None None true 5
      None count_serialno ["1"]%string = Ok self /\
    switch_ports self !! switch_name (count_serialno 0) = Some [5; 6; 7; 7].
Proof.
  destruct (build_ring_single int_of_decimal plain_dpid "system" 0 100 2 1 1
              None None 5 None count_serialno "1")
    as (self & ports & links & Hrun & Hp & _ & Hports & _).
  - lia.
  - lia.
  - lia.
  - lia.
  - unfold count_serialno. simpl. lia.
  - reflexivity.
  - exists self. split; [exact Hrun|]. rewrite Hp, Hports. reflexivity.
Defined.

(** ** The links of the hosts *)

Lemma host_links_frame (st st' : topo) (sw : string) (hosts : list string)
  (l i : nat) :
  start_port st' = start_port st -> port_order st' = port_order st ->
  host_links st' sw hosts l i = host_links st sw hosts l i.
Proof.
  intros H1 H2. revert i. induction hosts as [|x hosts IH]; intros i;
    [reflexivity|].
  simpl. rewrite IH. unfold port_at. rewrite H1, H2. reflexivity.
Qed.

Lemma _add_links_step (sw host : string) (i : nat) (st : topo) :
  (i < length (port_order st))%nat ->
  exists st1,
    (let* port := order_port (Z.of_nat i) in
     modify (add_link (mk_link sw host port None)) ;;
     modify (set_switch_ports (fun d => py_setdefault d sw [])) ;;
     append_port sw port ;;
     ret (Z.of_nat i + 1)) st
    = Ok (Z.of_nat (S i), st1) /\
    links st1 = links st ++ [mk_link sw host (port_at st i) None] /\
    start_port st1 = start_port st /\ port_order st1 = port_order st.
Proof.
  intros Hi.
  erewrite bind_run by (apply order_port_run; exact Hi).
  rewrite !bind_modify.
  erewrite bind_run.
  2:{ apply (append_port_run sw _ _
               (default [] (switch_ports st !! sw))).
      simpl. apply py_setdefault_lookup. }
  unfold ret. eexists. split; [do 2 f_equal; lia|].
  simpl. auto.
Qed.

Lemma _add_links_inner_links (sw host : string) (n : nat) :
  forall (i : nat) (st : topo),
  (i + n <= length (port_order st))%nat ->
  exists st',
    repeat_n n
      (fun index =>
         let* port := order_port index in
         modify (add_link (mk_link sw host port None)) ;;
         modify (set_switch_ports (fun d => py_setdefault d sw [])) ;;
         append_port sw port ;;
         ret (index + 1)) (Z.of_nat i) st
    = Ok (Z.of_nat (i + n), st') /\
    links st'
    = links st ++ map (fun j => mk_link sw host (port_at st j) None) (seq i n)
    /\ start_port st' = start_port st /\ port_order st' = port_order st.
Proof.
  induction n as [|n IH]; intros i st Hlen.
  - exists st. simpl. unfold ret. rewrite Nat.add_0_r, app_nil_r. auto.
  - destruct (_add_links_step sw host i st) as (st1 & H1 & L1 & S1 & O1);
      [lia|].
    destruct (IH (S i) st1) as (st' & Hrun & L' & S' & O'); [rewrite O1; lia|].
    exists st'. simpl repeat_n. erewrite bind_run by exact H1.
    rewrite Hrun. split; [do 2 f_equal; lia|].
    rewrite L', L1, <- app_assoc. simpl. unfold port_at.
    rewrite S1, O1. split; [reflexivity|]. split; congruence.
Qed.

Lemma _add_links_outer_links (sw : string) (L : Z) (hosts : list string) :
  forall (i : nat) (st : topo),
  (i + length hosts * Z.to_nat L <= length (port_order st))%nat ->
  exists st',
    for_each hosts (fun host index =>
      for_range L (fun index =>
        let* port := order_port index in
        modify (add_link (mk_link sw host port None)) ;;
        modify (set_switch_ports (fun d => py_setdefault d sw [])) ;;
        append_port sw port ;;
        ret (index + 1)) index) (Z.of_nat i) st
    = Ok (Z.of_nat (i + length hosts * Z.to_nat L), st') /\
    links st' = links st ++ host_links st sw hosts (Z.to_nat L) i.
Proof.
  induction hosts as [|host hosts IH]; intros i st Hlen.
  - exists st. simpl. unfold ret. rewrite Nat.add_0_r, app_nil_r. auto.
  - simpl in Hlen. simpl for_each. unfold for_range at 1.
    destruct (_add_links_inner_links sw host (Z.to_nat L) i st)
      as (st1 & H1 & L1 & S1 & O1); [lia|].
    erewrite bind_run by exact H1.
    destruct (IH (i + Z.to_nat L)%nat st1) as (st' & Hrun & L');
      [rewrite O1; lia|].
    exists st'. rewrite Hrun. split; [simpl; do 2 f_equal; lia|].
    rewrite L', L1, <- app_assoc. simpl host_links.
    rewrite (host_links_frame st st1) by assumption. reflexivity.
Qed.

(** The links [_add_links] makes: every host gets [links_per_host]
    links to the switch, on consecutive places of the port order, host
    after host in the order of the list, and no other link is made. *)
Theorem _add_links_host_links (switch : string) (hosts : list string)
  (links_per_host : Z) (self : topo) :
  (length hosts * Z.to_nat links_per_host <= length (port_order self))%nat ->
  exists self',
    _add_links switch hosts links_per_host self
    = Ok (Z.of_nat (length hosts * Z.to_nat links_per_host), self') /\
    links self'
    = links self
      ++ host_links self switch hosts (Z.to_nat links_per_host) 0.
Proof.
  intros Hlen. unfold _add_links. rewrite bind_modify.
  change 0 with (Z.of_nat 0).
  destruct (_add_links_outer_links switch links_per_host hosts 0
              (set_switch_ports (fun d => py_setdefault d switch []) self))
    as (self' & Hrun & Hl); [simpl; lia|].
  exists self'. split; [exact Hrun|]. rewrite Hl. simpl links.
  rewrite (host_links_frame self) by reflexivity. reflexivity.
Qed.

Lemma _add_links_host_links_witness :
  exists self',
    _add_links "s00" ["u001"; "u002"]%string 2
      (build_init 0 2 2 0 None None 5 None)
    = Ok (4, self') /\
    links self'
    = [mk_link "s00" "u001" 5 None; mk_link "s00" "u001" 6 None;
       mk_link "s00" "u002" 7 None; mk_link "s00" "u002" 8 None].
Proof.
  apply (_add_links_host_links "s00" ["u001"; "u002"]%string 2
           (build_init 0 2 2 0 None None 5 None)).
  simpl. lia.
Defined.

(** ** Hardware ports keep their order *)

Lemma sorted_lookup_lt (l : list Z) (i j : nat) (x y : Z) :
  StronglySorted Z.le l -> NoDup l -> (i < j)%nat ->
  l !! i = Some x -> l !! j = Some y -> x < y.
Proof.
  intros Hs. revert i j. induction Hs as [|a l Hs IH Hall]; intros i j Hnd Hij Hx Hy.
  - rewrite lookup_nil in Hx. discriminate.
  - apply NoDup_cons in Hnd as [Hnotin Hnd].
    destruct j as [|j]; [lia|]. simpl in Hy.
    destruct i as [|i].
    + simpl in Hx. injection Hx as <-.
      assert (Hin : y ∈ l) by (eapply list_elem_of_lookup_2; exact Hy).
      rewrite Forall_forall in Hall. specialize (Hall y Hin).
      assert (a <> y) by (intros ->; contradiction). lia.
    + simpl in Hx. apply (IH i j); [exact Hnd|lia|exact Hx|exact Hy].
Qed.

Lemma sorted_keys_NoDup (switch_map : option (gmap Z string)) :
  NoDup (sorted_keys switch_map).
Proof.
  destruct switch_map as [m|]; simpl; [|constructor].
  rewrite merge_sort_Permutation. apply NoDup_fst_map_to_list.
Qed.

(** On the hardware switch of a topology whose hardware ports are the
    sorted keys of a switch map, as [build] sets them, the remapping
    keeps the order of the ports: of two ports within the range, the
    larger one gets the larger hardware port, so no two ports are
    remapped to the same hardware port. *)
Theorem hw_remap_port_increasing (self : topo)
  (switch_map : option (gmap Z string)) (dpid : string) (p q x y : Z) :
  hw_dpid self = Some dpid ->
  hw_ports self = sorted_keys switch_map ->
  start_port self <= p ->
  p < q ->
  q < start_port self + Z.of_nat (length (hw_ports self)) ->
  hw_remap_port self dpid p = Ok x ->
  hw_remap_port self dpid q = Ok y ->
  x < y.
Proof.
  intros Hhw Hports Hp Hpq Hq Hx Hy.
  assert (Hne : hw_ports self <> []).
  { intros E. rewrite E in Hq. simpl in Hq. lia. }
  rewrite hw_remap_port_hw in Hx, Hy by assumption.
  destruct (py_index_nonneg (hw_ports self) (p - start_port self))
    as (x' & Hx' & Ex); [lia|].
  destruct (py_index_nonneg (hw_ports self) (q - start_port self))
    as (y' & Hy' & Ey); [lia|].
  rewrite Ex in Hx. rewrite Ey in Hy. injection Hx as ->. injection Hy as ->.
  rewrite Hports in Hx', Hy'.
  apply (sorted_lookup_lt (sorted_keys switch_map)
           (Z.to_nat (p - start_port self)) (Z.to_nat (q - start_port self)));
    [apply sorted_keys_sorted|apply sorted_keys_NoDup|lia|exact Hx'|exact Hy'].
Qed.

Lemma hw_remap_port_increasing_witness : 11 < 14.
Proof.
  apply (hw_remap_port_increasing
           (build_init 0 2 1 1 (Some "2"%string)
              (Some (list_to_map [(14, "c"); (10, "a"); (11, "b")]%string))
              5 None)
           (Some (list_to_map [(14, "c"); (10, "a"); (11, "b")]%string))
           "2" 6 7 11 14).
  - reflexivity.
  - reflexivity.
  - simpl. lia.
  - lia.
  - vm_compute. reflexivity.
  - vm_compute. reflexivity.
  - vm_compute. reflexivity.
Defined.

(** ** The extended hosts of the base build *)

Section BaseLog.

Variable py_int : string -> result Z.
Variable mininet_dpid : string -> result string.
Variable ovs_type : string.
Variables n_tagged tagged_vid n_untagged links_per_host n_extended : Z.
Variables e_cls_arg tmpdir_arg : option string.
Variable hw_dpid_arg : option string.
Variable switch_map : option (gmap Z string).
Variable host_namespace : option (gmap Z bool).
Variable start_port_arg : Z.
Variable port_order_arg : option (list Z).
Variable get_serialno : nat -> Z.

Local Abbreviation body :=
  (base_build_switch py_int mininet_dpid ovs_type n_tagged tagged_vid
     n_untagged links_per_host n_extended e_cls_arg tmpdir_arg hw_dpid_arg
     host_namespace get_serialno).
Local Abbreviation extended_upto i :=
  (flat_map
     (fun j =>
        map (fun host_n =>
               snd (_add_extended_host (sid_prefix_of (get_serialno j))
                      host_n e_cls_arg tmpdir_arg))
          (py_range 0 n_extended))
     (seq 0 i)).

Lemma base_build_switch_log (dpid : string)
  (ls : nat * list extended_host) (st : topo)
  (ls' : nat * list extended_host) (st' : topo) :
  body dpid ls st = Ok (ls', st') ->
  fst ls' = S (fst ls) /\
  snd ls'
  = snd ls
    ++ map (fun host_n =>
              snd (_add_extended_host (sid_prefix_of (get_serialno (fst ls)))
                     host_n e_cls_arg tmpdir_arg))
         (py_range 0 n_extended).
Proof.
  unfold base_build_switch. intros Hrun. run_inv Hrun.
  subst ls'. simpl. split; [reflexivity|]. f_equal.
  unfold sid_prefix_of. rewrite Hrun0. rewrite map_map. reflexivity.
Qed.

Lemma base_for_each_log (rest : list string) :
  forall (ls : nat * list extended_host) (st : topo)
    (ls' : nat * list extended_host) (st' : topo),
  for_each rest body ls st = Ok (ls', st') ->
  snd ls = extended_upto (fst ls) ->
  snd ls' = extended_upto (fst ls + length rest).
Proof.
  induction rest as [|d rest IH]; intros ls st ls' st' Hrun Hlog;
    simpl in Hrun.
  - apply ret_ok in Hrun as [-> ->]. simpl. rewrite Nat.add_0_r. exact Hlog.
  - apply bind_ok in Hrun as (ls1 & st1 & Hstep & Hrun).
    apply base_build_switch_log in Hstep as (Hc & Hl).
    rewrite (IH ls1 st1 ls' st' Hrun).
    + rewrite Hc. simpl length.
      replace (fst ls + S (length rest))%nat
        with (S (fst ls) + length rest)%nat by lia.
      reflexivity.
    + rewrite Hl, Hlog, Hc.
      rewrite seq_S, flat_map_app. simpl. rewrite app_nil_r. reflexivity.
Qed.

(** The extended hosts of a base build: for every switch, in the order
    of the dpids, the hosts e<prefix>1, e<prefix>2, ... of the class and
    directory given, numbered from 0, and no others. *)
Theorem base_build_extended_hosts (dpids : list string) (self : topo)
  (log : list extended_host) :
  base_build py_int mininet_dpid ovs_type n_tagged tagged_vid n_untagged
    links_per_host n_extended e_cls_arg tmpdir_arg hw_dpid_arg switch_map
    host_namespace start_port_arg port_order_arg get_serialno dpids
  = Ok (self, log) ->
  log
  = flat_map
      (fun j =>
         map (fun host_n =>
                mk_extended_host
                  (host_name "e" (sid_prefix_of (get_serialno j)) host_n)
                  e_cls_arg host_n tmpdir_arg)
           (py_range 0 n_extended))
      (seq 0 (length dpids)).
Proof.
  unfold base_build.
  destruct (for_each _ _ _ _) as [[[calls log'] st']|e] eqn:Hrun;
    [|discriminate].
  intros H. injection H as <- <-.
  apply base_for_each_log in Hrun; [|reflexivity].
  simpl in Hrun. exact Hrun.
Qed.

End BaseLog.

Lemma base_build_extended_hosts_witness :
  match base_build int_of_decimal plain_dpid "system" 0 100 1 1 2
          (Some "E"%string) (Some "/tmp"%string) None None None 5 None
          count_serialno ["1"; "2"]%string with
  | Ok (_, log) =>
      map e_name log = ["e001"; "e002"; "e011"; "e012"]%string
  | Raise _ => False
  end.
Proof.
  destruct (base_build int_of_decimal plain_dpid "system" 0 100 1 1 2
              (Some "E"%string) (Some "/tmp"%string) None None None 5 None
              count_serialno ["1"; "2"]%string)
    as [[self log]|e] eqn:E; [|vm_compute in E; discriminate].
  rewrite (base_build_extended_hosts _ _ _ _ _ _ _ _ _ _ _ _ _ _ _ _ _ _ _
             E).
  reflexivity.
Defined.

(** ** Ring closure *)

Lemma hw_remap_port_in_range (self : topo) (dpid : string) (p : Z) :
  start_port self <= p < start_port self + Z.of_nat (length (hw_ports self)) ->
  exists q, hw_remap_port self dpid p = Ok q.
Proof.
  intros Hp. unfold hw_remap_port.
  destruct (bool_decide (Some dpid <> hw_dpid self)); [eauto|].
  destruct (bool_decide (hw_ports self = [])) eqn:E.
  - apply bool_decide_eq_true in E. rewrite E in Hp. simpl in Hp. lia.
  - destruct (py_index_nonneg (hw_ports self) (p - start_port self))
      as (q & _ & Hq); [lia|eauto].
Qed.

Lemma hw_remap_peer_link_in_range (self : topo) (dpid : string)
  (l : peer_link) :
  start_port self <= port l
    < start_port self + Z.of_nat (length (hw_ports self)) ->
  start_port self <= peer_port l
    < start_port self + Z.of_nat (length (hw_ports self)) ->
  exists l', hw_remap_peer_link self dpid l = Ok l'.
Proof.
  intros Hp Hq. unfold hw_remap_peer_link.
  destruct (hw_remap_port_in_range self dpid (port l) Hp) as (p & ->).
  destruct (hw_remap_port_in_range self (peer_dpid l) (peer_port l) Hq)
    as (q & ->).
  simpl. eauto.
Qed.

Lemma hw_remap_peer_link_other (self : topo) (dpid : string)
  (l : peer_link) :
  Some dpid <> hw_dpid self -> Some (peer_dpid l) <> hw_dpid self ->
  hw_remap_peer_link self dpid l = Ok l.
Proof.
  intros H1 H2. unfold hw_remap_peer_link.
  rewrite !hw_remap_port_other by assumption. destruct l. reflexivity.
Qed.

Lemma map_result_ok {A B} (f : A -> result B) (l : list A) :
  (forall x, x ∈ l -> exists y, f x = Ok y) ->
  is_ok (map_result f l) = true.
Proof.
  induction l as [|a l IH]; intros Hf; [reflexivity|].
  simpl. destruct (Hf a) as (b & ->); [apply list_elem_of_here|]. simpl.
  destruct (map_result f l) as [bs|e]; [reflexivity|].
  apply IH. intros x Hx. apply Hf. apply list_elem_of_further. exact Hx.
Qed.

Lemma link_group_elem (st : topo) (a b : nat) (d : string) (k : nat)
  (r : peer_link) :
  r ∈ link_group st a b d k ->
  exists i, (i < k)%nat /\
    r = mk_peer_link (port_at st (a + i)) d (port_at st (b + i)).
Proof.
  unfold link_group. intros H.
  apply list_elem_of_fmap in H as (i & -> & Hi).
  apply elem_of_seq in Hi. exists i. split; [lia|reflexivity].
Qed.

Lemma port_at_default (T U L K : Z) (hw : option string)
  (sm : option (gmap Z string)) (sp : Z) (j : nat) :
  Z.of_nat j <= (T + U) * L + 2 * K ->
  port_at (build_init T U L K hw sm sp None) j = sp + Z.of_nat j.
Proof.
  intros Hj. unfold port_at, build_init. simpl. f_equal.
  rewrite extend_port_order_unfold. simpl. unfold py_range.
  rewrite lookup_seqZ_lt by lia. reflexivity.
Qed.

(** C8 (as the code has it): a ring build of N >= 2 switches returns,
    and the peer-link list stored for the first switch is that of the
    same build without the ring followed by one more group: K records
    whose peer is the last switch's dpid, K being the number of
    switch-to-switch links; likewise the last switch, with K records
    naming the first dpid.  When the dpids are distinct, [dpid_names]
    leads from the first dpid to the first switch, and with K >= 1 every
    list [dpid_peer_links] returns for the first dpid holds a record
    whose peer is the last dpid.  That call returns the stored list when
    no dpid of the build is the hardware dpid, and returns whenever the
    port order is the default one and the switch map has a key for every
    port of a switch. *)
Theorem build_ring_closure
  (py_int : string -> result Z) (mininet_dpid : string -> result string)
  (ovs_type : string) (n_tagged tagged_vid n_untagged links_per_host : Z)
  (switch_to_switch_links_arg : Z) (hw_dpid_arg : option string)
  (switch_map : option (gmap Z string)) (start_port_arg : Z)
  (port_order_arg : option (list Z)) (get_serialno : nat -> Z)
  (dpids : list string) :
  0 <= n_tagged -> 0 <= n_untagged -> 0 <= links_per_host ->
  0 <= switch_to_switch_links_arg ->
  (2 <= length dpids)%nat ->
  serials_ok get_serialno (length dpids) ->
  (forall d, d ∈ dpids ->
     is_ok (switch_datapath py_int mininet_dpid hw_dpid_arg d) = true) ->
  exists chain ring d0 dl lc0 lcl g0 gl,
    build py_int mininet_dpid ovs_type n_tagged tagged_vid n_untagged
      links_per_host switch_to_switch_links_arg hw_dpid_arg switch_map
      false start_port_arg port_order_arg get_serialno dpids = Ok chain /\
    build py_int mininet_dpid ovs_type n_tagged tagged_vid n_untagged
      links_per_host switch_to_switch_links_arg hw_dpid_arg switch_map
      true start_port_arg port_order_arg get_serialno dpids = Ok ring /\
    dpids !! 0%nat = Some d0 /\ dpids !! (length dpids - 1)%nat = Some dl /\
    switch_dpids ring !! switch_name (get_serialno 0%nat) = Some d0 /\
    switch_dpids ring
      !! switch_name (get_serialno (length dpids - 1)%nat) = Some dl /\
    switch_peer_links chain !! switch_name (get_serialno 0%nat)
      = Some lc0 /\
    switch_peer_links ring !! switch_name (get_serialno 0%nat)
      = Some (lc0 ++ g0) /\
    switch_peer_links chain
      !! switch_name (get_serialno (length dpids - 1)%nat) = Some lcl /\
    switch_peer_links ring
      !! switch_name (get_serialno (length dpids - 1)%nat)
      = Some (lcl ++ gl) /\
    Z.of_nat (length g0) = switch_to_switch_links_arg /\
    Z.of_nat (length gl) = switch_to_switch_links_arg /\
    Forall (fun r => peer_dpid r = dl) g0 /\
    Forall (fun r => peer_dpid r = d0) gl /\
    (NoDup dpids ->
       dpid_names ring !! d0 = Some (switch_name (get_serialno 0%nat)) /\
       (1 <= switch_to_switch_links_arg ->
        forall links, dpid_peer_links ring d0 = Ok links ->
          exists r, r ∈ links /\ peer_dpid r = dl) /\
       ((forall d, d ∈ dpids -> hw_dpid_arg <> Some d) ->
        dpid_peer_links ring d0 = Ok (lc0 ++ g0)) /\
       (port_order_arg = None ->
        (n_tagged + n_untagged) * links_per_host
          + 2 * switch_to_switch_links_arg
          <= Z.of_nat (length (sorted_keys switch_map)) ->
        is_ok (dpid_peer_links ring d0) = true)).
Proof.
  intros HT HU HL HK HN Hser Hfac.
  destruct (build_ring_run py_int mininet_dpid ovs_type n_tagged tagged_vid
              n_untagged links_per_host switch_to_switch_links_arg
              hw_dpid_arg switch_map start_port_arg port_order_arg
              get_serialno dpids)
    as (ls & chain & ni & ring & d0 & dl & Hchain & Hring & Hshape & Hd0
        & Hdl & Hlk & Hinv); try assumption.
  destruct Hshape as (_ & _ & _ & Hctx & Hsw & _).
  destruct (Hsw 0%nat ltac:(lia)) as (_ & _ & Hdp0 & Hq0).
  destruct (Hsw (length dpids - 1)%nat ltac:(lia)) as (_ & _ & Hdpl & Hql).
  destruct (Nat.ltb_spec 1 (length dpids)) as [_|]; [|lia].
  rewrite Hd0 in Hdp0. rewrite Hdl in Hdpl.
  destruct Hlk as (Hfr & _ & _ & _ & _ & _ & _ & Hr1 & Hr2 & _).
  rewrite Hq0 in Hr1. rewrite Hql in Hr2.
  unfold default, from_option, id in Hr1, Hr2.
  destruct Hfr as (Hnames & Hdpids & _ & Hhw & Hhp & Hsp & _).
  destruct Hctx as (Hhw0 & Hhp0 & Hsp0 & Hpo0 & _).
  rewrite (link_group_frame _ chain _ _ _ _ Hsp0 Hpo0) in Hr1.
  rewrite (link_group_frame _ chain _ _ _ _ Hsp0 Hpo0) in Hr2.
  set (h := ((Z.to_nat n_tagged + Z.to_nat n_untagged)
             * Z.to_nat links_per_host)%nat) in *.
  set (k := Z.to_nat switch_to_switch_links_arg) in *.
  set (st0 := build_init n_tagged n_untagged links_per_host
                switch_to_switch_links_arg hw_dpid_arg switch_map
                start_port_arg port_order_arg) in *.
  destruct (lookup_lt_is_Some_2 dpids 1 ltac:(lia)) as (d1 & Hd1).
  assert (Hlc0 : chain_peers st0 dpids h k (length dpids) 0
                 = link_group st0 h h d1 k).
  { unfold chain_peers. simpl.
    destruct (Nat.ltb_spec 1 (length dpids)); [|lia].
    rewrite Hd1, Nat.mul_0_r, Nat.add_0_r. reflexivity. }
  exists chain, ring, d0, dl,
    (chain_peers st0 dpids h k (length dpids) 0),
    (chain_peers st0 dpids h k (length dpids) (length dpids - 1)),
    (link_group st0 (h + k) (h + k) dl k),
    (link_group st0 (h + k) (h + k) d0 k).
  split; [exact Hchain|]. split; [exact Hring|].
  split; [exact Hd0|]. split; [exact Hdl|].
  split; [rewrite Hdpids; exact Hdp0|].
  split; [rewrite Hdpids; exact Hdpl|].
  split; [exact Hq0|]. split; [exact Hr1|].
  split; [exact Hql|]. split; [exact Hr2|].
  split; [rewrite link_group_length; subst k; lia|].
  split; [rewrite link_group_length; subst k; lia|].
  split.
  { apply Forall_forall. intros r Hr.
    apply list_elem_of_In in Hr. exact (link_group_peer _ _ _ _ _ _ Hr). }
  split.
  { apply Forall_forall. intros r Hr.
    apply list_elem_of_In in Hr. exact (link_group_peer _ _ _ _ _ _ Hr). }
  intros Hnd. specialize (Hinv Hnd).
  assert (Hname : dpid_names ring !! d0
                  = Some (switch_name (get_serialno 0%nat))).
  { rewrite Hnames. apply Hinv. exact Hdp0. }
  assert (Hview : dpid_peer_links ring d0
                  = map_result (hw_remap_peer_link ring d0)
                      (chain_peers st0 dpids h k (length dpids) 0
                       ++ link_group st0 (h + k) (h + k) dl k)).
  { unfold dpid_peer_links, py_getitem. rewrite Hname. simpl.
    rewrite Hr1. reflexivity. }
  split; [exact Hname|]. split; [|split].
  - intros H1 links Hcall. rewrite Hview in Hcall.
    assert (Hin : mk_peer_link (port_at st0 (h + k + 0)) dl
                    (port_at st0 (h + k + 0))
                  ∈ chain_peers st0 dpids h k (length dpids) 0
                    ++ link_group st0 (h + k) (h + k) dl k).
    { apply elem_of_app. right.
      destruct k as [|k'] eqn:Ek; [subst k; lia|].
      rewrite link_group_S, Nat.add_0_r. apply list_elem_of_here. }
    destruct (map_result_elem _ _ _ _ Hcall Hin) as (r' & Hr' & Hmap).
    exists r'. split; [exact Hr'|].
    rewrite (hw_remap_peer_link_peer _ _ _ _ Hmap). reflexivity.
  - intros Hnohw. rewrite Hview. apply map_result_id. intros x Hx.
    apply hw_remap_peer_link_other.
    + rewrite Hhw, Hhw0. intros E. apply (Hnohw d0); [|symmetry; exact E].
      eapply list_elem_of_lookup_2. exact Hd0.
    + rewrite Hhw, Hhw0. intros E.
      apply elem_of_app in Hx as [Hx|Hx].
      * rewrite Hlc0 in Hx. apply list_elem_of_In in Hx.
        apply link_group_peer in Hx. rewrite Hx in E.
        apply (Hnohw d1); [|symmetry; exact E].
        eapply list_elem_of_lookup_2. exact Hd1.
      * apply list_elem_of_In in Hx.
        apply link_group_peer in Hx. rewrite Hx in E.
        apply (Hnohw dl); [|symmetry; exact E].
        eapply list_elem_of_lookup_2. exact Hdl.
  - intros Hpo Hkeys. rewrite Hview. apply map_result_ok. intros x Hx.
    assert (Hrange : forall j, (j < h + 2 * k)%nat ->
              start_port ring <= port_at st0 j
                < start_port ring + Z.of_nat (length (hw_ports ring))).
    { intros j Hj. rewrite Hsp, Hsp0, Hhp, Hhp0.
      subst st0. rewrite Hpo. rewrite port_at_default by (subst h k; nia).
      simpl start_port. simpl hw_ports. subst h k. nia. }
    apply elem_of_app in Hx as [Hx|Hx].
    + rewrite Hlc0 in Hx. apply link_group_elem in Hx as (i & Hi & ->).
      apply hw_remap_peer_link_in_range; simpl; apply Hrange; lia.
    + apply link_group_elem in Hx as (i & Hi & ->).
      apply hw_remap_peer_link_in_range; simpl; apply Hrange; lia.
Qed.

Lemma build_ring_closure_witness :
  exists ring links r,
    build int_of_decimal plain_dpid "system" 1 100 2 1 2 None None
      true 5 None count_serialno ["1"; "2"; "3"]%string = Ok ring /\
    dpid_peer_links ring "1" = Ok links /\
    r ∈ links /\ peer_dpid r = "3"%string.
Proof.
  destruct (build_ring_closure int_of_decimal plain_dpid "system" 1 100 2 1 2
              None None 5 None count_serialno ["1"; "2"; "3"]%string)
    as (chain & ring & d0 & dl & lc0 & lcl & g0 & gl & _ & Hring & Hd0 & Hdl
        & _ & _ & _ & _ & _ & _ & _ & _ & _ & _ & Hview).
  - lia.
  - lia.
  - lia.
  - lia.
  - simpl. lia.
  - split.
    + intros i Hi. unfold count_serialno. simpl in Hi. lia.
    + intros i j _ _ H. unfold count_serialno in H. lia.
  - intros d _. reflexivity.
  - injection Hd0 as <-. injection Hdl as <-.
    destruct Hview as (_ & Hmem & Hret & _).
    { apply (bool_decide_unpack _). vm_compute. exact I. }
    assert (Hcall : dpid_peer_links ring "1" = Ok (lc0 ++ g0)).
    { apply Hret. intros d _. discriminate. }
    destruct (Hmem ltac:(lia) _ Hcall) as (r & Hr & Hpeer).
    exists ring, (lc0 ++ g0), r. auto.
Defined.

(** Where the claim as first stated fails.  With no switch-to-switch
    links the ring adds no record, and the view of the first dpid is
    empty.  With the first dpid as hardware dpid and no switch map the
    view cannot be computed: the remapping raises AssertionError.  With
    a dpid given twice, [dpid_names] leads from the first dpid to a
    later switch, whose links do not reach the last switch. *)
Lemma build_ring_closure_fails :
  (exists ring,
     build int_of_decimal plain_dpid "system" 0 100 2 1 0 None None
       true 5 None count_serialno ["1"; "2"; "3"]%string = Ok ring /\
     dpid_peer_links ring "1" = Ok []) /\
  (exists ring,
     build int_of_decimal plain_dpid "system" 0 100 2 1 1
       (Some "1"%string) None true 5 None count_serialno
       ["1"; "2"; "3"]%string = Ok ring /\
     dpid_peer_links ring "1" = Raise AssertionError) /\
  (exists ring links,
     build int_of_decimal plain_dpid "system" 0 100 2 1 1 None None
       true 5 None count_serialno ["1"; "1"; "2"; "3"]%string = Ok ring /\
     dpid_peer_links ring "1" = Ok links /\
     Forall (fun r => peer_dpid r <> "3"%string) links).
Proof.
  split; [|split].
  - eexists. split; vm_compute; reflexivity.
  - eexists. split; vm_compute; reflexivity.
  - eexists _, _. split; [vm_compute; reflexivity|].
    split; [vm_compute; reflexivity|].
    repeat constructor; discriminate.
Qed.
